(** * The OAuth 2.1 authorization core of the multi-tenant MCP server

    A shallow embedding of the token verifier, the protected-resource
    metadata publisher, the authorization-server metadata proxy, the dynamic
    client registrar and the tenant credential deriver, with the properties
    stated for them.

    Conventions.  A JavaScript string is the list of its UTF-16 code units
    ([jsstring]); [js "..."] injects an ASCII literal.  [undefined] is [None].
    Calls to collaborators (DynamoDB, Cognito, STS, the upstream metadata
    endpoint) are answered by an explicit environment and recorded in a
    trace, so that "no call was made" is a statement about the trace. *)

From Stdlib Require Import ZArith NArith Lia.
From Stdlib Require Import Strings.String Strings.Ascii DecimalString.
From stdpp Require Import base option list sorting gmap strings.

Local Open Scope N_scope.
Local Set Warnings "-register-all".

(* ===================================================================== *)
(** ** JavaScript strings *)
(* ===================================================================== *)

Module JS.

Abbreviation jsstring := (list N).

(** An ASCII literal as a JavaScript string. *)
Definition js (s : string) : jsstring :=
  (fun a => N_of_ascii a) <$> list_ascii_of_string s.

Arguments js _ : simpl never.

(** [s.startsWith(p)]. *)
Fixpoint startsWith (p s : jsstring) : bool :=
  match p, s with
  | [], _ => true
  | _ :: _, [] => false
  | a :: p', b :: s' => if (a =? b) then startsWith p' s' else false
  end.

(** [s.includes(p)]: [p] occurs somewhere in [s]. *)
Fixpoint includes (p s : jsstring) : bool :=
  startsWith p s ||
  match s with
  | [] => false
  | _ :: s' => includes p s'
  end.

(** [s.endsWith(p)]. *)
Definition endsWith (p s : jsstring) : bool :=
  startsWith (reverse p) (reverse s).

(** WhiteSpace and LineTerminator code units, the ones [trim] removes. *)
Definition isWhiteSpace (c : N) : bool :=
  (c =? 9) || (c =? 10) || (c =? 11) || (c =? 12) || (c =? 13) || (c =? 32)
  || (c =? 160) || (c =? 5760) || ((8192 <=? c) && (c <=? 8202))
  || (c =? 8232) || (c =? 8233) || (c =? 8239) || (c =? 8287)
  || (c =? 12288) || (c =? 65279).

Fixpoint trimStart (s : jsstring) : jsstring :=
  match s with
  | c :: s' => if isWhiteSpace c then trimStart s' else s
  | [] => []
  end.

(** [s.trim()]. *)
Definition trim (s : jsstring) : jsstring :=
  reverse (trimStart (reverse (trimStart s))).

(** [s.toLowerCase()] on the ASCII letters.  Other code units are kept:
    no code unit outside A-Z lower-cases to one of the letters of ["true"],
    the only text this development compares a lower-cased string with. *)
Definition lowerUnit (c : N) : N :=
  if (65 <=? c) && (c <=? 90) then c + 32 else c.

Definition toLowerCase (s : jsstring) : jsstring := lowerUnit <$> s.

(** Truthiness of a possibly undefined string: [!!v]. *)
Definition truthy (v : option jsstring) : bool :=
  match v with
  | Some (_ :: _) => true
  | _ => false
  end.

(** A template literal [`${v}`] renders an undefined value as "undefined". *)
Definition show (v : option jsstring) : jsstring :=
  default (js "undefined") v.

(** The relational comparison of strings, code unit by code unit, which the
    default comparator of [Array.prototype.sort] uses. *)
Fixpoint str_leb (a b : jsstring) : bool :=
  match a, b with
  | [], _ => true
  | _ :: _, [] => false
  | x :: a', y :: b' =>
      if (x <? y) then true else if (y <? x) then false else str_leb a' b'
  end.

Definition str_le (a b : jsstring) : Prop := str_leb a b = true.

#[global] Instance str_le_dec a b : Decision (str_le a b).
Proof. unfold str_le. apply _. Defined.

(** [[...l].sort()] on an array of strings. *)
Definition sort (l : list jsstring) : list jsstring := merge_sort str_le l.

(** [l.join(sep)]. *)
Fixpoint join (sep : jsstring) (l : list jsstring) : jsstring :=
  match l with
  | [] => []
  | [x] => x
  | x :: l' => x ++ sep ++ join sep l'
  end.

(** [Buffer.from(s)] : the UTF-8 encoding of a string.  A surrogate pair
    becomes one four-byte sequence; an unpaired surrogate is replaced by
    U+FFFD. *)
Definition isHigh (c : N) : bool := (55296 <=? c) && (c <=? 56319).
Definition isLow (c : N) : bool := (56320 <=? c) && (c <=? 57343).

Definition utf8_point (p : N) : list N :=
  if p <? 128 then [p]
  else if p <? 2048 then [192 + p / 64; 128 + p mod 64]
  else if p <? 65536 then
    [224 + p / 4096; 128 + (p / 64) mod 64; 128 + p mod 64]
  else
    [240 + p / 262144; 128 + (p / 4096) mod 64;
     128 + (p / 64) mod 64; 128 + p mod 64].

Fixpoint utf8 (s : jsstring) : list N :=
  match s with
  | [] => []
  | c :: s' =>
      if isHigh c then
        match s' with
        | d :: s'' =>
            if isLow d
            then utf8_point (65536 + (c - 55296) * 1024 + (d - 56320)) ++ utf8 s''
            else utf8_point 65533 ++ utf8 s'
        | [] => utf8_point 65533
        end
      else if isLow c then utf8_point 65533 ++ utf8 s'
      else utf8_point c ++ utf8 s'
  end.

(** [buf.toString('base64url')]: the URL-safe alphabet, no padding. *)
Definition b64digit (n : N) : N :=
  if n <? 26 then 65 + n
  else if n <? 52 then 97 + (n - 26)
  else if n <? 62 then 48 + (n - 52)
  else if n =? 62 then 45
  else 95.

Fixpoint base64url (b : list N) : jsstring :=
  match b with
  | [] => []
  | [x] => [b64digit (x / 4); b64digit ((x mod 4) * 16)]
  | [x; y] =>
      [b64digit (x / 4); b64digit ((x mod 4) * 16 + y / 16);
       b64digit ((y mod 16) * 4)]
  | x :: y :: z :: b' =>
      b64digit (x / 4) :: b64digit ((x mod 4) * 16 + y / 16)
      :: b64digit ((y mod 16) * 4 + z / 64) :: b64digit (z mod 64)
      :: base64url b'
  end.

(** [s.split(' ')]. *)
Fixpoint split_space_aux (cur : jsstring) (s : jsstring) : list jsstring :=
  match s with
  | [] => [reverse cur]
  | c :: s' =>
      if (c =? 32) then reverse cur :: split_space_aux [] s'
      else split_space_aux (c :: cur) s'
  end.

Definition split_space (s : jsstring) : list jsstring := split_space_aux [] s.

(** The scheme-start and scheme states of the URL parser behind
    [new URL(s)], after the leading and trailing C0-control-or-space code
    units are stripped and tabs and newlines removed: the protocol of an
    input that begins with a scheme.  An input without a scheme does not
    parse.  The later states of the parser, which can still reject an
    input that has a scheme, are not part of this function; it stands in for
    the parser on plain well-formed URLs. *)
Definition isC0OrSpace (c : N) : bool := c <=? 32.
Definition isTabOrNewline (c : N) : bool := (c =? 9) || (c =? 10) || (c =? 13).
Definition isAlpha (c : N) : bool :=
  ((65 <=? c) && (c <=? 90)) || ((97 <=? c) && (c <=? 122)).
Definition isSchemeUnit (c : N) : bool :=
  isAlpha c || ((48 <=? c) && (c <=? 57)) || (c =? 43) || (c =? 45) || (c =? 46).

Fixpoint dropC0 (s : jsstring) : jsstring :=
  match s with
  | c :: s' => if isC0OrSpace c then dropC0 s' else s
  | [] => []
  end.

Fixpoint schemeState (acc : jsstring) (s : jsstring) : option jsstring :=
  match s with
  | [] => None
  | c :: s' =>
      if isSchemeUnit c then schemeState (lowerUnit c :: acc) s'
      else if c =? 58 then Some (reverse (58 :: acc))
      else None
  end.

Definition URL_scheme (input : jsstring) : option jsstring :=
  let stripped := reverse (dropC0 (reverse (dropC0 input))) in
  match filter (fun c => isTabOrNewline c = false) stripped with
  | c :: s' => if isAlpha c then schemeState [lowerUnit c] s' else None
  | [] => None
  end.

End JS.
Import JS.

(* ===================================================================== *)
(** ** JSON values *)
(* ===================================================================== *)

Module Json.

(** A parsed JSON value.  Numbers are the integers; objects keep their
    members in order. *)
Inductive JSON : Type :=
  | JNull
  | JBool (b : bool)
  | JNum (n : Z)
  | JStr (s : jsstring)
  | JArr (l : list JSON)
  | JObj (l : list (jsstring * JSON)).

(** [!!v] for a member that may be missing. *)
Definition truthyJ (v : option JSON) : bool :=
  match v with
  | None | Some JNull => false
  | Some (JBool b) => b
  | Some (JNum n) => negb (n =? 0)%Z
  | Some (JStr s) => match s with [] => false | _ => true end
  | Some (JArr _) | Some (JObj _) => true
  end.

Definition JStrs (l : list jsstring) : JSON := JArr (JStr <$> l).

End Json.
Import Json.

(* ===================================================================== *)
(** ** Dynamic client registration (infra/lambda/dcr/dcr.mjs) *)
(* ===================================================================== *)

Module Dcr.

(** [createClientKey(clientName, redirectUris)].  [clientName] is whatever
    the request carried, possibly nothing. *)
Definition createClientKey (clientName : option jsstring)
    (redirectUris : list jsstring) : jsstring :=
  let sortedUris := join (js ",") (sort redirectUris) in
  let encodedUris := base64url (utf8 sortedUris) in
  show clientName ++ js "#" ++ encodedUris.

(** *** The request *)

(** One element of the [redirect_uris] array: a string, or another JSON
    value, of which only the text a template literal renders matters. *)
Inductive Entry : Type :=
  | EStr (uri : jsstring)
  | EOther (text : jsstring).

Definition entryText (e : Entry) : jsstring :=
  match e with EStr s => s | EOther t => t end.

(** The [redirect_uris] member of the body. *)
Inductive RedirectUris : Type :=
  | RuAbsent
  | RuNotArray
  | RuArray (entries : list Entry).

(** The parsed request body: a JSON object whose members [client_name],
    [grant_types], [response_types] and [scope], when present, have the
    types RFC 7591 gives them (a string, two arrays of strings, a string);
    [redirect_uris] is of any type.  [members] holds the other members.  The
    source does not check the types: where it calls a method of a member
    that has none (a null [response_types], a number as [scope]) it throws a
    TypeError, which its catch block answers with 500. *)
Record Body : Type := {
  redirect_uris : RedirectUris;
  client_name : option jsstring;
  grant_types : option (list jsstring);
  response_types : option (list jsstring);
  scope : option jsstring;
  members : gmap jsstring JSON
}.

Inductive ParsedBody : Type :=
  | BodySyntaxError
  | BodyObject (b : Body).

Record Event : Type := {
  httpMethod : jsstring;
  header_Content_Type : option jsstring;
  header_content_type : option jsstring;
  body : ParsedBody
}.

(** *** The collaborators *)

Record UserPoolClient : Type := {
  ClientId : jsstring;
  ClientName : jsstring;
  AllowedOAuthFlows : list jsstring;
  AllowedOAuthScopes : list jsstring;
  CallbackURLs : list jsstring
}.

(** A row of the dedup table: the key is the map key. *)
Record DedupItem : Type := {
  clientId : jsstring;
  createdAt : Z
}.

(** The dedup table and the user pool's app clients. *)
Record World : Type := {
  table : gmap jsstring DedupItem;
  pool : gmap jsstring UserPoolClient
}.

(** How the collaborators answer during one invocation: whether each call
    returns or throws, and the id Cognito gives a new client. *)
Record Upstream : Type := {
  getItem_ok : bool;
  describe_ok : bool;
  create_id : option jsstring;
  putItem_ok : bool;
  branding_ok : bool
}.

(** The calls an invocation sends. *)
Inductive Call : Type :=
  | GetItem (key : jsstring)
  | DescribeUserPoolClient (id : jsstring)
  | CreateUserPoolClient (name : jsstring) (flows scopes callbacks : list jsstring)
  | PutItem (key : jsstring) (item : DedupItem)
  | CreateManagedLoginBranding (id : jsstring).

Definition isCreate (c : Call) : bool :=
  match c with CreateUserPoolClient _ _ _ _ => true | _ => false end.

(** *** Responses *)

Record Response : Type := {
  statusCode : Z;
  cacheControl : jsstring;
  payload : gmap jsstring JSON
}.

(** [jsonResponse(statusCode, bodyObj)]. *)
Definition jsonResponse (status : Z) (bodyObj : gmap jsstring JSON) : Response :=
  {| statusCode := status; cacheControl := js "no-store"; payload := bodyObj |}.

Definition errorBody (error description : jsstring) : gmap jsstring JSON :=
  <[js "error" := JStr error]>
    (<[js "error_description" := JStr description]> ∅).

(** [arr.includes(x)]. *)
Definition arr_includes (x : jsstring) (l : list jsstring) : bool :=
  bool_decide (x ∈ l).

Section Handler.

(** [new URL(s)]: the protocol of the parsed URL, or [None] when the
    constructor throws. *)
Variable URL_protocol : jsstring -> option jsstring.

(** The loop over [redirect_uris]: the first offending entry decides. *)
Fixpoint checkRedirectUris (entries : list Entry) : option Response :=
  match entries with
  | [] => None
  | e :: rest =>
      match e with
      | EStr uri =>
          match URL_protocol uri with
          | Some _ =>
              if negb (startsWith (js "https://") uri)
                 && negb (startsWith (js "http://localhost") uri)
              then Some (jsonResponse 400
                     (errorBody (js "invalid_redirect_uri")
                        (js "redirect_uris must use HTTPS or localhost")))
              else checkRedirectUris rest
          | None =>
              Some (jsonResponse 400
                     (errorBody (js "invalid_redirect_uri")
                        (js "Invalid URI format: " ++ uri)))
          end
      | EOther text =>
          Some (jsonResponse 400
                 (errorBody (js "invalid_redirect_uri")
                    (js "Invalid URI format: " ++ text)))
      end
  end.

(** The two validation steps on [redirect_uris]. *)
Definition validateRedirectUris (r : RedirectUris) : option Response :=
  match r with
  | RuAbsent | RuNotArray | RuArray [] =>
      Some (jsonResponse 400
             (errorBody (js "invalid_redirect_uri")
                (js "redirect_uris is required and must be a non-empty array")))
  | RuArray entries => checkRedirectUris entries
  end.

(** The array as the later steps use it. *)
Definition uriList (r : RedirectUris) : list jsstring :=
  match r with
  | RuArray entries => entryText <$> entries
  | _ => []
  end.

(** [findExistingPublicClient(redirectUris, clientName)]: every failure
    inside is caught, logged and answered with [null].  The result comes
    with the calls sent and the lines logged. *)
Definition findExistingPublicClient (up : Upstream) (w : World)
    (redirectUris : list jsstring) (clientName : option jsstring)
    : option UserPoolClient * list Call * list jsstring :=
  let clientKey := createClientKey clientName redirectUris in
  if getItem_ok up then
    match table w !! clientKey with
    | Some item =>
        if describe_ok up then
          match pool w !! clientId item with
          | Some c =>
              (Some c, [GetItem clientKey; DescribeUserPoolClient (clientId item)], [])
          | None =>
              (None, [GetItem clientKey; DescribeUserPoolClient (clientId item)],
               [js "Error finding existing public client:"])
          end
        else (None, [GetItem clientKey; DescribeUserPoolClient (clientId item)],
              [js "Error finding existing public client:"])
    | None => (None, [GetItem clientKey], [])
    end
  else (None, [GetItem clientKey], [js "Error finding existing public client:"]).

(** [storePublicClient(clientName, redirectUris, clientId)]: a failed
    write is caught and logged, and leaves the table as it was. *)
Definition storePublicClient (up : Upstream) (now : Z) (w : World)
    (clientName : option jsstring) (redirectUris : list jsstring)
    (id : jsstring) : World * list Call * list jsstring :=
  let clientKey := createClientKey clientName redirectUris in
  let item := {| clientId := id; createdAt := now |} in
  if putItem_ok up
  then ({| table := <[clientKey := item]> (table w); pool := pool w |},
        [PutItem clientKey item], [js "Stored public client: " ++ id])
  else (w, [PutItem clientKey item], [js "Error storing public client:"]).

(** The branding step with its own try/catch: the line it logs. *)
Definition createBranding (up : Upstream) (id : jsstring)
    : list Call * list jsstring :=
  if branding_ok up
  then ([CreateManagedLoginBranding id], [js "Created branding for client: " ++ id])
  else ([CreateManagedLoginBranding id],
        [js "Warning: Could not create branding for client:"]).

(** The names the handler takes out of the body by destructuring; the
    other members are the extension parameters. *)
Definition optionalNames : list jsstring :=
  [js "contacts"; js "logo_uri"; js "client_uri"; js "policy_uri";
   js "tos_uri"; js "jwks_uri"; js "jwks"; js "software_id";
   js "software_version"].

Definition destructuredNames : list jsstring :=
  [js "redirect_uris"; js "client_name"; js "token_endpoint_auth_method";
   js "grant_types"; js "response_types"; js "scope"] ++ optionalNames.

Definition extensionParams (b : Body) : gmap jsstring JSON :=
  filter (fun kv => kv.1 ∉ destructuredNames) (members b).

Definition i18nNames (b : Body) : gmap jsstring JSON :=
  filter (fun kv => startsWith (js "client_name#") kv.1 = true) (members b).

(** The optional metadata that is echoed when it was provided. *)
Definition providedOptional (b : Body) : gmap jsstring JSON :=
  filter (fun kv => kv.1 ∈ optionalNames ∧ truthyJ (Some kv.2) = true)
         (members b).

Definition setIf (k : jsstring) (v : option jsstring)
    (m : gmap jsstring JSON) : gmap jsstring JSON :=
  match v with
  | Some (c :: s) => <[k := JStr (c :: s)]> m
  | _ => m
  end.

(** The [response] object before the request's own members are merged
    over it. *)
Definition registrationDocument (now : Z) (b : Body) (c : UserPoolClient)
    : gmap jsstring JSON :=
  let gt := default [js "authorization_code"] (grant_types b) in
  let rt := default [js "code"] (response_types b) in
  let response :=
    <[js "client_id" := JStr (ClientId c)]>
    (<[js "client_id_issued_at" := JNum (now / 1000)%Z]>
    (<[js "redirect_uris" := JStrs (uriList (redirect_uris b))]>
    (<[js "grant_types" := JStrs gt]>
    (<[js "response_types" := JStrs rt]>
    (<[js "token_endpoint_auth_method" := JStr (js "none")]> ∅))))) in
  providedOptional b ∪
    setIf (js "scope") (scope b) (setIf (js "client_name") (client_name b) response).

(** [{ ...response, ...i18nNames, ...extensionParams }]: a later spread
    overrides an earlier one. *)
Definition registrationBody (now : Z) (b : Body) (c : UserPoolClient)
    : gmap jsstring JSON :=
  extensionParams b ∪ (i18nNames b ∪ registrationDocument now b c).

(** The client Cognito describes after [CreateUserPoolClientCommand]
    answered with the id [id]. *)
Definition newClient (b : Body) (id : jsstring) : UserPoolClient :=
  let gt := default [js "authorization_code"] (grant_types b) in
  {| ClientId := id;
     ClientName := match client_name b with
                   | Some (c :: s) => c :: s
                   | _ => js "OAuth Dynamic Client"
                   end;
     AllowedOAuthFlows :=
       if arr_includes (js "authorization_code") gt then [js "code"] else [];
     AllowedOAuthScopes :=
       match scope b with
       | Some (c :: s) => split_space (c :: s)
       | _ => [js "openid"]
       end;
     CallbackURLs := uriList (redirect_uris b) |}.

Definition serverError : Response :=
  jsonResponse 500 (errorBody (js "server_error") (js "Internal server error")).

(** What one invocation does: its response, the stores afterwards, the
    calls it sent and the lines it logged while looking up or creating. *)
Record Outcome : Type := {
  response : Response;
  world : World;
  calls : list Call;
  logged : list jsstring
}.

Definition respond (r : Response) (w : World) : Outcome :=
  {| response := r; world := w; calls := []; logged := [] |}.

(** The lookup-or-create part of the handler, for a body that passed
    validation. *)
Definition register (up : Upstream) (now : Z) (w : World) (b : Body) : Outcome :=
  let uris := uriList (redirect_uris b) in
  let '(existingClient, t1, l1) :=
    findExistingPublicClient up w uris (client_name b) in
  match existingClient with
  | Some c =>
      {| response := jsonResponse 201 (registrationBody now b c);
         world := w;
         calls := t1;
         logged := l1 ++ [js "Returning existing client: " ++ ClientId c] |}
  | None =>
      let cmd :=
        let c := newClient b [] in
        CreateUserPoolClient (ClientName c) (AllowedOAuthFlows c)
          (AllowedOAuthScopes c) (CallbackURLs c) in
      match create_id up with
      | None =>
          {| response := serverError;
             world := w;
             calls := t1 ++ [cmd];
             logged := l1 ++ [js "Creating new client"] |}
      | Some id =>
          let c := newClient b id in
          let w1 := {| table := table w; pool := <[id := c]> (pool w) |} in
          let '(w2, t2, l2) := storePublicClient up now w1 (client_name b) uris id in
          let '(t3, l3) := createBranding up id in
          {| response := jsonResponse 201 (registrationBody now b c);
             world := w2;
             calls := t1 ++ [cmd] ++ t2 ++ t3;
             logged := l1 ++ [js "Creating new client"] ++ l2
                       ++ [js "Created and stored new client: " ++ id] ++ l3 |}
      end
  end.

(** [event.headers['Content-Type'] || event.headers['content-type']]. *)
Definition contentTypeOf (event : Event) : option jsstring :=
  if truthy (header_Content_Type event) then header_Content_Type event
  else header_content_type event.

(** [handler(event)], with the pool id of the environment. *)
Definition handler (COGNITO_USER_POOL_ID : option jsstring)
    (up : Upstream) (now : Z) (w : World) (event : Event) : Outcome :=
  if negb (bool_decide (httpMethod event = js "POST")) then
    respond (jsonResponse 405
       (errorBody (js "invalid_request") (js "Only POST method is allowed"))) w
  else
    let contentType := contentTypeOf event in
    if negb (bool_decide (contentType = Some (js "application/json"))) then
      respond (jsonResponse 400
         (errorBody (js "invalid_request")
            (js "Content-Type must be application/json"))) w
    else
      match body event with
      | BodySyntaxError =>
          respond (jsonResponse 400
             (errorBody (js "invalid_request")
                (js "Invalid JSON in request body"))) w
      | BodyObject b =>
          if negb (truthy COGNITO_USER_POOL_ID) then
            respond (jsonResponse 500
               (errorBody (js "server_error")
                  (js "Server configuration error"))) w
          else
            match validateRedirectUris (redirect_uris b) with
            | Some r => respond r w
            | None =>
                let gt := default [js "authorization_code"] (grant_types b) in
                let rt := default [js "code"] (response_types b) in
                if arr_includes (js "authorization_code") gt
                   && negb (arr_includes (js "code") rt)
                then
                  respond (jsonResponse 400
                     (errorBody (js "invalid_client_metadata")
                        (js "authorization_code grant requires code response_type"))) w
                else register up now w b
            end
      end.

(** An entry the loop passes over: it parses and has one of the two
    prefixes. *)
Definition acceptable (uri : jsstring) : Prop :=
  is_Some (URL_protocol uri)
  /\ (startsWith (js "https://") uri || startsWith (js "http://localhost") uri) = true.

Definition invalidRedirectUri (description : jsstring) : Response :=
  jsonResponse 400 (errorBody (js "invalid_redirect_uri") description).

(** What the loop answers at one entry: an error, or nothing when it
    moves on. *)
Definition verdict (e : Entry) : option Response :=
  match e with
  | EStr uri =>
      match URL_protocol uri with
      | None => Some (invalidRedirectUri (js "Invalid URI format: " ++ uri))
      | Some _ =>
          if startsWith (js "https://") uri || startsWith (js "http://localhost") uri
          then None
          else Some (invalidRedirectUri (js "redirect_uris must use HTTPS or localhost"))
      end
  | EOther text => Some (invalidRedirectUri (js "Invalid URI format: " ++ text))
  end.

(** A request that reaches the validation of [redirect_uris]: a POST of
    a JSON object, to a function that knows its user pool. *)
Definition reachesValidation (poolId : option jsstring) (event : Event)
    (b : Body) : Prop :=
  httpMethod event = js "POST"
  /\ contentTypeOf event = Some (js "application/json")
  /\ body event = BodyObject b
  /\ truthy poolId = true.

(** A valid registration: it also passes the validation of its redirect
    URIs and of its grant and response types. *)
Definition validRegistration (poolId : option jsstring) (event : Event)
    (b : Body) : Prop :=
  reachesValidation poolId event b
  /\ validateRedirectUris (redirect_uris b) = None
  /\ (arr_includes (js "authorization_code")
        (default [js "authorization_code"] (grant_types b))
      && negb (arr_includes (js "code") (default [js "code"] (response_types b))))
     = false.

End Handler.

(** A response that is the error [code] with the given description. *)
Definition isError (r : Response) (status : Z) (code description : jsstring)
    : Prop :=
  statusCode r = status /\ payload r = errorBody code description.

(** A response that rejects the redirect URIs. *)
Definition rejectsRedirectUris (r : Response) : Prop :=
  statusCode r = 400%Z
  /\ payload r !! js "error" = Some (JStr (js "invalid_redirect_uri")).

(** The [client_id] member of a response. *)
Definition client_id_of (r : Response) : option JSON :=
  payload r !! js "client_id".

End Dcr.

(* ===================================================================== *)
(** ** Environment configuration (src/utils/env-config.ts) *)
(* ===================================================================== *)

Module EnvConfig.

(** The process environment and the parsed [.env] file. *)
Record Config : Type := {
  processEnv : gmap string jsstring;
  envFile : gmap string jsstring
}.

(** [config.get(varName, defaultValue)]. *)
Definition get (cfg : Config) (varName : string)
    (defaultValue : option jsstring) : option jsstring :=
  match processEnv cfg !! varName with
  | Some v => Some v
  | None =>
      match envFile cfg !! varName with
      | Some v => Some v
      | None => defaultValue
      end
  end.

End EnvConfig.

(* ===================================================================== *)
(** ** Protected-resource metadata (RFC 9728) *)
(* ===================================================================== *)

Module OAuthMetadata.
Import EnvConfig.

(** [isEmpty(value)]: null, undefined, empty or whitespace-only. *)
Definition isEmpty (value : option jsstring) : bool :=
  negb (truthy value)
  || match value with
     | Some s => bool_decide (trim s = [])
     | None => false
     end.

Record Validation : Type := {
  isValid : bool;
  errors : list jsstring
}.

Record Metadata : Type := {
  resource : jsstring;
  authorization_servers : list jsstring;
  scopes_supported : list jsstring;
  bearer_methods_supported : list jsstring
}.

Inductive MetadataBody : Type :=
  | ErrorJson (error error_description : jsstring)
  | MetadataJson (m : Metadata).

Record HttpResponse : Type := {
  status : Z;
  json : MetadataBody
}.

(** [s.replace(/\/$/, '')]: one slash is removed when it is the last
    code unit. *)
Definition stripTrailingSlash (s : jsstring) : jsstring :=
  match reverse s with
  | 47 :: r => reverse r
  | _ => s
  end.

Definition missingIf (b : bool) (varName : string) : list jsstring :=
  if b then [js "Missing required environment variable: " ++ js varName]
  else [].

Section Publisher.

Variable URL_protocol : jsstring -> option jsstring.

(** The format check on RESOURCE_SERVER_URL, made only for a value that
    is not empty. *)
Definition formatErrors (resourceServerUrl : option jsstring) : list jsstring :=
  if negb (isEmpty resourceServerUrl) then
    match URL_protocol (default [] resourceServerUrl) with
    | Some protocol =>
        if negb (bool_decide (protocol = js "http:"))
           && negb (bool_decide (protocol = js "https:"))
        then [js "Invalid RESOURCE_SERVER_URL format: must use http or https protocol"]
        else []
    | None => [js "Invalid RESOURCE_SERVER_URL format: must be a valid URL"]
    end
  else [].

(** The protocol is one of the two a resource server may use. *)
Definition httpOrHttps (resourceServerUrl : option jsstring) : Prop :=
  URL_protocol (show resourceServerUrl) = Some (js "http:")
  \/ URL_protocol (show resourceServerUrl) = Some (js "https:").

Definition validateConfiguration (cfg : Config) : Validation :=
  let resourceServerUrl := get cfg "RESOURCE_SERVER_URL" None in
  let cognitoUserPoolId := get cfg "COGNITO_USER_POOL_ID" None in
  let awsRegion := get cfg "AWS_REGION" None in
  let errors :=
    missingIf (isEmpty resourceServerUrl) "RESOURCE_SERVER_URL"
    ++ missingIf (isEmpty cognitoUserPoolId) "COGNITO_USER_POOL_ID"
    ++ missingIf (isEmpty awsRegion) "AWS_REGION"
    ++ formatErrors resourceServerUrl in
  {| isValid := bool_decide (length errors = 0%nat); errors := errors |}.

Definition generateMetadata (cfg : Config) : Metadata :=
  let resourceServerUrl := get cfg "RESOURCE_SERVER_URL" None in
  let userPoolId := get cfg "COGNITO_USER_POOL_ID" None in
  let region := get cfg "AWS_REGION" None in
  let dcrEnabled :=
    bool_decide
      (toLowerCase (show (get cfg "DCR_ENABLED" (Some (js "false")))) = js "true") in
  let authorizationServerUrl := get cfg "AUTHORIZATION_SERVER_WITH_DCR_URL" None in
  let resource := show resourceServerUrl ++ js "/mcp" in
  let authorizationServers :=
    if dcrEnabled && truthy authorizationServerUrl
    then [stripTrailingSlash (show authorizationServerUrl)]
    else [js "https://cognito-idp." ++ show region ++ js ".amazonaws.com/"
            ++ show userPoolId] in
  {| resource := resource;
     authorization_servers := authorizationServers;
     scopes_supported := [js "openid"; js "profile"; js "email"];
     bearer_methods_supported := [js "header"] |}.

Definition handleMetadataRequest (cfg : Config) : HttpResponse :=
  let validation := validateConfiguration cfg in
  if negb (isValid validation) then
    {| status := 503;
       json := ErrorJson (js "service_unavailable")
                 (js "OAuth metadata temporarily unavailable due to configuration error") |}
  else
    {| status := 200; json := MetadataJson (generateMetadata cfg) |}.

End Publisher.

End OAuthMetadata.

(* ===================================================================== *)
(** ** Authorization-server metadata proxy
       (infra/lambda/openid-config/openid-config.mjs) *)
(* ===================================================================== *)

Module OpenIdConfig.

(** A metadata document: a JSON object. *)
Abbreviation Doc := (gmap jsstring JSON).

(** The two module-level variables [cachedConfig] and [cacheExpiry]. *)
Record Cache : Type := {
  cachedConfig : option Doc;
  cacheExpiry : option Z
}.

Definition emptyCache : Cache := {| cachedConfig := None; cacheExpiry := None |}.

(** What [fetch] resolves with, and the clock when the answer is cached.
    [json] is what [response.json()] gives: nothing when the body is no JSON
    text (the promise is rejected); else the value, which is null or has
    members (its own enumerable properties, which a spread copies; a number
    or a boolean has none). *)
Record FetchResponse : Type := {
  ok : bool;
  status : N;
  statusText : jsstring;
  header_cache_control : option jsstring;
  json : option (option Doc);
  receivedAt : Z
}.

Inductive FetchResult : Type :=
  | FetchRejects (message : jsstring)
  | FetchResolves (r : FetchResponse).

Inductive Body : Type :=
  | ErrorJson (error error_description : jsstring)
  | DocJson (d : Doc).

Record Response : Type := {
  statusCode : Z;
  body : Body
}.

(** [createErrorResponse(statusCode, error, errorDescription)]. *)
Definition createErrorResponse (statusCode : Z) (error description : jsstring)
    : Response :=
  {| statusCode := statusCode; body := ErrorJson error description |}.

Definition isDigit (c : N) : bool := (48 <=? c) && (c <=? 57).

Fixpoint takeDigits (s : jsstring) : jsstring :=
  match s with
  | c :: s' => if isDigit c then c :: takeDigits s' else []
  | [] => []
  end.

(** The capture group of the leftmost match of [/max-age=(\d+)/]. *)
Fixpoint matchMaxAge (s : jsstring) : option jsstring :=
  match s with
  | [] => None
  | _ :: s' =>
      if startsWith (js "max-age=") s then
        match takeDigits (drop 8 s) with
        | [] => matchMaxAge s'
        | ds => Some ds
        end
      else matchMaxAge s'
  end.

(** [parseInt(ds, 10)] on a string of digits. *)
Definition parseInt (ds : jsstring) : Z :=
  foldl (fun acc c => (acc * 10 + Z.of_N (c - 48))%Z) 0%Z ds.

(** [parseCacheControl(cacheControl)]. *)
Definition parseCacheControl (cacheControl : option jsstring) : option Z :=
  if negb (truthy cacheControl) then None
  else parseInt <$> matchMaxAge (default [] cacheControl).

(** [parseCacheControl(cacheControl) || 3600]. *)
Definition maxAgeOrDefault (cacheControl : option jsstring) : Z :=
  match parseCacheControl cacheControl with
  | Some n => if (n =? 0)%Z then 3600%Z else n
  | None => 3600%Z
  end.

Definition decimal (n : N) : jsstring :=
  js (DecimalString.NilZero.string_of_uint (N.to_uint n)).

(** The time values a [Date] can hold: [new Date(t).toISOString()] throws a
    RangeError for any other. *)
Definition validTimeValue (t : Z) : bool :=
  (-8640000000000000 <=? t)%Z && (t <=? 8640000000000000)%Z.

(** The log line that follows the store in [getOpenIDConfiguration]: it
    reads [cognitoConfig.issuer] and then formats the expiry as a date.  The
    result is the message of the error it throws, if it throws. *)
Definition logCached (cognitoConfig : option Doc) (cacheExpiry : Z)
    : option jsstring :=
  match cognitoConfig with
  | None => Some (js "Cannot read properties of null (reading 'issuer')")
  | Some _ =>
      if validTimeValue cacheExpiry then None else Some (js "Invalid time value")
  end.

(** [Date.now() < cacheExpiry], where a null expiry compares as 0. *)
Definition beforeExpiry (now : Z) (expiry : option Z) : bool :=
  (now <? default 0%Z expiry)%Z.

Section Proxy.

(** The process environment of the function. *)
Variable env : gmap string jsstring.

(** The upstream, as a function of the URL fetched. *)
Variable upstream : jsstring -> FetchResult.

Definition cognitoConfigUrl : jsstring :=
  js "https://cognito-idp." ++ show (env !! "DEPLOYMENT_REGION")
  ++ js ".amazonaws.com/" ++ show (env !! "COGNITO_USER_POOL_ID")
  ++ js "/.well-known/openid-configuration".

(** [{...cognitoConfig, registration_endpoint, code_challenge_methods_supported}].
    A member whose value is undefined is not part of the JSON text. *)
Definition enhance (cognitoConfig : Doc) : Doc :=
  <[js "code_challenge_methods_supported" := JArr [JStr (js "S256")]]>
    (match env !! "REGISTRATION_ENDPOINT_URL" with
     | Some u => <[js "registration_endpoint" := JStr u]> cognitoConfig
     | None => delete (js "registration_endpoint") cognitoConfig
     end).

Definition failed (m : jsstring) : jsstring :=
  js "Unable to retrieve OpenID configuration: " ++ m.

(** The part of [getOpenIDConfiguration] after the cache check: fetch,
    merge, store, log.  The two variables are assigned before the log line,
    so an error thrown there leaves the new entry in the cache.  The expiry
    is computed exactly; the source computes it in doubles, which agree as
    long as the clock is not negative and the expiry is a time value a Date
    can hold, and which give a number beyond every such time value when the
    exact expiry is. *)
Definition refresh (c : Cache) : (jsstring + Doc) * Cache * list jsstring :=
  match upstream cognitoConfigUrl with
  | FetchRejects m => (inl (failed m), c, [cognitoConfigUrl])
  | FetchResolves r =>
      if negb (ok r) then
        (inl (failed (js "Cognito OpenID config request failed: "
                      ++ decimal (status r) ++ js " " ++ statusText r)),
         c, [cognitoConfigUrl])
      else
        match json r with
        | None =>
            (inl (failed (js "Unexpected end of JSON input")),
             c, [cognitoConfigUrl])
        | Some cognitoConfig =>
            let enhancedConfig := enhance (default ∅ cognitoConfig) in
            let maxAge := maxAgeOrDefault (header_cache_control r) in
            let expiry := (receivedAt r + maxAge * 1000)%Z in
            let stored :=
              {| cachedConfig := Some enhancedConfig;
                 cacheExpiry := Some expiry |} in
            match logCached cognitoConfig expiry with
            | Some m => (inl (failed m), stored, [cognitoConfigUrl])
            | None => (inr enhancedConfig, stored, [cognitoConfigUrl])
            end
        end
  end.

(** [getOpenIDConfiguration()]: the document or the message of the error
    thrown, the cache afterwards, and the URLs fetched. *)
Definition getOpenIDConfiguration (now : Z) (c : Cache)
    : (jsstring + Doc) * Cache * list jsstring :=
  match cachedConfig c with
  | Some d => if beforeExpiry now (cacheExpiry c) then (inr d, c, []) else refresh c
  | None => refresh c
  end.

Definition requiredEnvVars : list string :=
  ["COGNITO_USER_POOL_ID"; "DEPLOYMENT_REGION"; "REGISTRATION_ENDPOINT_URL"]%string.

Definition missingVars : list string :=
  filter (fun varName => truthy (env !! varName) = false) requiredEnvVars.

Definition unavailable : Response :=
  createErrorResponse 500 (js "server_error")
    (js "OpenID configuration temporarily unavailable").

(** [handler(event, context)]; the request itself is only logged. *)
Definition handler (now : Z) (c : Cache) : Response * Cache * list jsstring :=
  match missingVars with
  | _ :: _ => (unavailable, c, [])
  | [] =>
      match getOpenIDConfiguration now c with
      | (inr metadata, c', fetched) =>
          ({| statusCode := 200; body := DocJson metadata |}, c', fetched)
      | (inl _, c', fetched) => (unavailable, c', fetched)
      end
  end.

End Proxy.

End OpenIdConfig.

(* ===================================================================== *)
(** ** Token verification (src/auth/jwt-verifier.js) *)
(* ===================================================================== *)

Module JwtVerifier.
Import EnvConfig.

(** A JavaScript error object, as far as the handlers read it. *)
Record JsError : Type := {
  name : jsstring;
  message : jsstring
}.

(** The payload of a token. *)
Record Claims : Type := {
  sub : option jsstring;
  client_id : option jsstring;
  scope : option jsstring;
  iss : option jsstring;
  exp : option Z;
  nbf : option Z;
  custom_tenantId : option jsstring;
  tenantId : option jsstring;
  custom_tenantTier : option jsstring;
  tenantTier : option jsstring
}.

(** What the decoding step of [jwt.verify] does with the text of a token:
    it yields a header and a payload; or the text does not have three parts;
    or the header cannot be read; or the step throws (a payload that is no
    JSON under a header of type JWT makes [JSON.parse] throw a SyntaxError,
    whose message quotes the payload). *)
Inductive Decoding : Type :=
  | Decodes
  | NotThreeParts
  | NoHeader
  | DecodeThrows (e : JsError).

(** A bearer token.  [decoding] is what the decoding step does with it;
    [kid] is the key id of its header, when the header has one;
    [verifiesWith k] says that its signature is valid under the public key
    [k]. *)
Record Token : Type := {
  text : jsstring;
  decoding : Decoding;
  alg : jsstring;
  kid : option jsstring;
  verifiesWith : jsstring -> bool;
  claims : Claims
}.

(** The issuer's published key set, as the JWKS client sees it: the client
    fails with an error (the fetch fails, or the endpoint has no signing
    key), or yields the signing keys by key id. *)
Inductive SigningKeySet : Type :=
  | JwksUnavailable (e : JsError)
  | JwksKeys (keys : gmap jsstring jsstring).

(** *** The two libraries the verifier calls

    [jwks-rsa] and [jsonwebtoken] are packages the server depends on; what
    follows states their behaviour as far as [processJwt] observes it. *)

Definition SigningKeyNotFoundError (m : jsstring) : JsError :=
  {| name := js "SigningKeyNotFoundError"; message := m |}.

(** [client.getSigningKey(kid, cb)] of jwks-rsa.  For a key id: the key
    published under it, or a SigningKeyNotFoundError.  Without a key id:
    the published key when there is one only, and a
    SigningKeyNotFoundError when there are several. *)
Definition getSigningKey (set : SigningKeySet) (kid : option jsstring)
    : JsError + jsstring :=
  match set with
  | JwksUnavailable e => inl e
  | JwksKeys keys =>
      match kid with
      | Some id =>
          match keys !! id with
          | Some k => inr k
          | None =>
              inl (SigningKeyNotFoundError
                     (js "Unable to find a signing key that matches '"
                      ++ id ++ js "'"))
          end
      | None =>
          match map_to_list keys with
          | [] =>
              inl (SigningKeyNotFoundError
                     (js "Unable to find a signing key that matches 'undefined'"))
          | [(_, k)] => inr k
          | _ =>
              inl (SigningKeyNotFoundError
                     (js "No KID specified and JWKS endpoint returned more than 1 key"))
          end
      end
  end.

Definition JsonWebTokenError (m : jsstring) : JsError :=
  {| name := js "JsonWebTokenError"; message := m |}.

Definition notBeforeError (clock : Z) (c : Claims) : option JsError :=
  match nbf c with
  | Some t =>
      if (clock <? t)%Z
      then Some {| name := js "NotBeforeError"; message := js "jwt not active" |}
      else None
  | None => None
  end.

Definition expiredError (clock : Z) (c : Claims) : option JsError :=
  match exp c with
  | Some t =>
      if (t <=? clock)%Z
      then Some {| name := js "TokenExpiredError"; message := js "jwt expired" |}
      else None
  | None => None
  end.

(** [jwt.verify(token, getKey, {issuer, algorithms: ['RS256']}, cb)] of
    jsonwebtoken.  What the decoding step throws is handed on as it is; an
    error handed over by the key callback is wrapped in a JsonWebTokenError;
    then the algorithm, the signature, [nbf], [exp] and the issuer are
    checked, in this order.  [clock] is the time in seconds. *)
Definition jwt_verify (getKey : option jsstring -> JsError + jsstring)
    (issuer : jsstring) (clock : Z) (token : Token) : JsError + Claims :=
  match decoding token with
  | NotThreeParts => inl (JsonWebTokenError (js "jwt malformed"))
  | DecodeThrows e => inl e
  | NoHeader => inl (JsonWebTokenError (js "invalid token"))
  | Decodes =>
    match getKey (kid token) with
    | inl err =>
        inl (JsonWebTokenError
               (js "error in secret or public key callback: " ++ message err))
    | inr key =>
        if negb (bool_decide (alg token = js "RS256")) then
          inl (JsonWebTokenError (js "invalid algorithm"))
        else if negb (verifiesWith token key) then
          inl (JsonWebTokenError (js "invalid signature"))
        else
          let c := claims token in
          match notBeforeError clock c with
          | Some e => inl e
          | None =>
              match expiredError clock c with
              | Some e => inl e
              | None =>
                  if bool_decide (iss c = Some issuer) then inr c
                  else inl (JsonWebTokenError
                              (js "jwt issuer invalid. expected: " ++ issuer))
              end
          end
    end
  end.

(** *** The verifier *)

(** What [processJwt] throws. *)
Inductive AuthError : Type :=
  | InvalidTokenError (m : jsstring)
  | ServerError (m : jsstring).

Record Extra : Type := {
  userId : jsstring;
  extra_tenantId : jsstring;
  extra_tenantTier : jsstring
}.

(** What [processJwt] returns: the AuthInfo attached to the request. *)
Record AuthInfo : Type := {
  token : jsstring;
  auth_client_id : option jsstring;
  scopes : list jsstring;
  expiresAt : option Z;
  extra : Extra
}.

(** [a || b] on possibly undefined strings. *)
Definition orElse (a b : option jsstring) : option jsstring :=
  if truthy a then a else b.

(** The texts of three of the classifications. *)
Definition expiredMessage : jsstring :=
  js "Authentication failed: Your token has expired. Please log in again.".
Definition malformedMessage : jsstring :=
  js "Authentication failed: Invalid token format or signature.".
Definition unknownKeyMessage : jsstring :=
  js "Authentication failed: Token was not issued by the expected authority.".

Section Verifier.

Variable cfg : Config.
Variable jwks : SigningKeySet.

(** [verifyToken(token)]: the decoded claims, or the error the promise is
    rejected with. *)
Definition verifyToken (clock : Z) (t : Token) : JsError + Claims :=
  let userPoolId := get cfg "COGNITO_USER_POOL_ID" None in
  let region := get cfg "AWS_REGION" (Some (js "us-east-1")) in
  if negb (truthy userPoolId) then
    inl {| name := js "Error";
           message := js "COGNITO_USER_POOL_ID environment variable is required" |}
  else
    let issuer := js "https://cognito-idp." ++ show region
                  ++ js ".amazonaws.com/" ++ show userPoolId in
    jwt_verify (getSigningKey jwks) issuer clock t.

(** The [catch] block of [processJwt]. *)
Definition classify (error : JsError) : AuthError :=
  if bool_decide (name error = js "TokenExpiredError") then
    InvalidTokenError
      (js "Authentication failed: Your token has expired. Please log in again.")
  else if bool_decide (name error = js "JsonWebTokenError") then
    InvalidTokenError (js "Authentication failed: Invalid token format or signature.")
  else if bool_decide (name error = js "NotBeforeError") then
    InvalidTokenError (js "Authentication failed: Token not yet valid.")
  else if includes (js "signing key") (message error) then
    InvalidTokenError
      (js "Authentication failed: Token was not issued by the expected authority.")
  else
    ServerError (js "Authentication failed: Token verification error.").

(** The [try] block of [processJwt] after verification: reading the scope
    of a token without one throws a TypeError. *)
Definition buildAuthInfo (t : Token) (userData : Claims) : JsError + AuthInfo :=
  match scope userData with
  | None =>
      inl {| name := js "TypeError";
             message := js "Cannot read properties of undefined (reading 'split')" |}
  | Some sc =>
      inr {| token := text t;
             auth_client_id := client_id userData;
             scopes := split_space sc;
             expiresAt := exp userData;
             extra :=
               {| userId := default (js "anonymous")
                              (orElse (sub userData) None);
                  extra_tenantId :=
                    default [] (orElse (custom_tenantId userData)
                                       (tenantId userData));
                  extra_tenantTier :=
                    default (js "basic")
                      (orElse (orElse (custom_tenantTier userData)
                                      (tenantTier userData)) None) |} |}
  end.

(** [processJwt(token)]. *)
Definition processJwt (clock : Z) (t : Token) : AuthError + AuthInfo :=
  match verifyToken clock t with
  | inl error => inl (classify error)
  | inr userData =>
      match buildAuthInfo t userData with
      | inl error => inl (classify error)
      | inr info => inr info
      end
  end.

End Verifier.

End JwtVerifier.

(* ===================================================================== *)
(** ** Tenant credential derivation and the handlers that use it
       (src/services/dynamoDb.ts, src/services/s3.ts,
        src/resources/dynamicS3.ts, src/mcp/mcp-server.js, src/tools) *)
(* ===================================================================== *)

Module Tenant.
Import JwtVerifier.

Record Tag : Type := {
  Key : jsstring;
  Value : jsstring
}.

(** The input of [AssumeRoleCommand]. *)
Record AssumeRoleCommand : Type := {
  RoleArn : option jsstring;
  RoleSessionName : jsstring;
  Tags : list Tag
}.

Record Credentials : Type := {
  AccessKeyId : jsstring;
  SecretAccessKey : jsstring;
  SessionToken : jsstring
}.

(** What the STS client answers: it throws, or it resolves, with or
    without credentials. *)
Inductive StsAnswer : Type :=
  | StsThrows (error : JsError)
  | StsResolves (credentials : option Credentials).

(** The calls sent to AWS while a request is served. *)
Inductive AwsCall : Type :=
  | AssumeRole (cmd : AssumeRoleCommand)
  | S3GetObject (by_ : Credentials) (key : jsstring)
  | S3ListObjectsV2 (by_ : Credentials) (prefix : jsstring)
  | DynamoQuery (by_ : Credentials) (pk : jsstring) (sk : option jsstring)
  | DynamoPut (by_ : Credentials) (pk sk : jsstring).

(** The answers of AWS.  A data call that gives nothing is one the SDK
    rejects, with the error [rejection]; for [s3_get] it also stands for a
    body that is no readable stream. *)
Record Aws : Type := {
  sts : AssumeRoleCommand -> StsAnswer;
  s3_get : Credentials -> jsstring -> option jsstring;
  s3_list : Credentials -> jsstring -> option (list jsstring);
  dynamo_query : Credentials -> jsstring -> option jsstring -> option (list jsstring);
  dynamo_put : Credentials -> jsstring -> jsstring -> bool;
  rejection : JsError
}.

(** [new Error(m)]. *)
Definition Error (m : jsstring) : JsError := {| name := js "Error"; message := m |}.

(** [`${error}`] for an error object: its name and its message. *)
Definition errorText (e : JsError) : jsstring :=
  match name e, message e with
  | [], m => m
  | n, [] => n
  | n, m => n ++ js ": " ++ m
  end.

(** An asynchronous computation: the calls it sent, and the value it
    resolves with or the error it rejects with. *)
Definition M (A : Type) : Type := list AwsCall * (JsError + A).

Definition ret {A} (a : A) : M A := ([], inr a).
Definition throw {A} (e : JsError) : M A := ([], inl e).
Definition send {A} (c : AwsCall) (answer : JsError + A) : M A := ([c], answer).

Definition bind {A B} (m : M A) (k : A -> M B) : M B :=
  match m with
  | (t, inl e) => (t, inl e)
  | (t, inr a) => let '(t', r) := k a in (t ++ t', r)
  end.

(** [try { m } catch (error) { throw new Error(f(error)) }]. *)
Definition rethrow {A} (m : M A) (f : JsError -> jsstring) : M A :=
  match m with
  | (t, inl e) => (t, inl (Error (f e)))
  | r => r
  end.

Declare Scope aws_scope.
Delimit Scope aws_scope with aws.
Notation "'do' x <- m ; k" := (bind m (fun x => k))
  (at level 10, x name, m at level 100, k at level 200) : aws_scope.

Definition trace {A} (m : M A) : list AwsCall := m.1.
Definition result {A} (m : M A) : JsError + A := m.2.

Section Handlers.
Local Open Scope aws_scope.

Variable aws : Aws.
Variable ROLE_ARN : option jsstring.

(** The role assumption shared by [getDynamoDbClient] and
    [getS3Client]: both build the same command. *)
Definition assumeTenantRole (tenantId : jsstring) : M Credentials :=
  let command :=
    {| RoleArn := ROLE_ARN;
       RoleSessionName := js "tenant-" ++ tenantId ++ js "-session";
       Tags := [ {| Key := js "tenantId"; Value := tenantId |} ] |} in
  match sts aws command with
  | StsThrows e => send (AssumeRole command) (inl e)
  | StsResolves (Some c) => send (AssumeRole command) (inr c)
  | StsResolves None =>
      send (AssumeRole command)
        (inl (Error (js "Failed to obtain temporary credentials")))
  end.

(** [getDynamoDbClient(tenantId)]: the client is its credentials. *)
Definition getDynamoDbClient (tenantId : jsstring) : M Credentials :=
  assumeTenantRole tenantId.

(** [getS3Client(tenantId)]. *)
Definition getS3Client (tenantId : jsstring) : M Credentials :=
  assumeTenantRole tenantId.

(** [getS3File(filename, tenantId)]. *)
Definition getS3File (filename tenantId : jsstring) : M jsstring :=
  rethrow
    (do s3Client <- getS3Client tenantId;
     let key := tenantId ++ js "/" ++ filename in
     match s3_get aws s3Client key with
     | Some content => send (S3GetObject s3Client key) (inr content)
     | None =>
         send (S3GetObject s3Client key) (inl (Error (js "Invalid response from S3")))
     end)
    (fun _ => js "Failed to read S3 file: " ++ filename).

(** [listTenantResources(tenantId)]. *)
Definition listTenantResources (tenantId : jsstring) : M (list jsstring) :=
  rethrow
    (do s3Client <- getS3Client tenantId;
     let prefix := tenantId ++ js "/" in
     match s3_list aws s3Client prefix with
     | Some keys =>
         send (S3ListObjectsV2 s3Client prefix)
           (inr (drop (length tenantId + 1) <$>
                   filter (fun k => k ≠ prefix ∧ k ≠ []) keys))
     | None => send (S3ListObjectsV2 s3Client prefix) (inl (rejection aws))
     end)
    (fun e => js "Failed to list tenant resources: " ++ errorText e).

(** The read callback of the [s3://{tenantId}/{filename}] resource
    template: [variables] come from the URI the client sent. *)
Definition readTenantFile (variables_tenantId variables_filename : jsstring)
    (authInfo : AuthInfo) : M jsstring :=
  let actualTenantId := extra_tenantId (extra authInfo) in
  let providedTenantId := variables_tenantId in
  let filename := variables_filename in
  if negb (bool_decide (actualTenantId = providedTenantId)) then
    throw (Error (js "Access denied: cannot access other tenant's files"))
  else getS3File filename actualTenantId.

(** The list callback of the resource template. *)
Definition listTenantFiles (authInfo : AuthInfo) : M (list jsstring) :=
  let tenantId := extra_tenantId (extra authInfo) in
  listTenantResources tenantId.

(** A query of the bookings table under the tenant's partition key. *)
Definition queryBookings (tenantId : jsstring) (sk : option jsstring)
    : M (list jsstring) :=
  do dynamoDB <- getDynamoDbClient tenantId;
  match dynamo_query aws dynamoDB tenantId sk with
  | Some items => send (DynamoQuery dynamoDB tenantId sk) (inr items)
  | None => send (DynamoQuery dynamoDB tenantId sk) (inl (rejection aws))
  end.

Definition getBookingsByTenant (tenantId : jsstring) : M (list jsstring) :=
  queryBookings tenantId None.

Definition getBookingsByTenantAndType (tenantId bookingType : jsstring)
    : M (list jsstring) :=
  queryBookings tenantId (Some (js "BOOKING#" ++ bookingType)).

Definition getBookingById (tenantId bookingId : jsstring) : M (list jsstring) :=
  queryBookings tenantId (Some (js "BOOKING#" ++ bookingId)).

(** [listBookings({type, id}, {authInfo})]. *)
Definition listBookings (type id : option jsstring) (authInfo : AuthInfo)
    : M (list jsstring) :=
  let tenantId := extra_tenantId (extra authInfo) in
  match id with
  | Some i => getBookingById tenantId i
  | None =>
      match type with
      | None => getBookingsByTenant tenantId
      | Some ty =>
          if bool_decide (ty = js "ALL") then getBookingsByTenant tenantId
          else getBookingsByTenantAndType tenantId ty
      end
  end.

(** [createFlightBooking] and [createHotelBooking]: a put under the
    tenant's partition key; [kind] is FLIGHT or HOTEL. *)
Definition createBooking (kind tenantId bookingId : jsstring) : M jsstring :=
  do dynamoDB <- getDynamoDbClient tenantId;
  let sk := js "BOOKING#" ++ kind ++ js "#" ++ bookingId in
  if dynamo_put aws dynamoDB tenantId sk
  then send (DynamoPut dynamoDB tenantId sk) (inr bookingId)
  else send (DynamoPut dynamoDB tenantId sk) (inl (rejection aws)).

(** [bookFlight] and [bookHotel]: the random scenario decides whether a
    booking is written at all. *)
Definition bookFlight (scenario : Z) (bookingId : jsstring) (authInfo : AuthInfo)
    : M jsstring :=
  let tenantId := extra_tenantId (extra authInfo) in
  if (scenario =? 1)%Z then createBooking (js "FLIGHT") tenantId bookingId
  else ret (js "ERROR").

Definition bookHotel (scenario : Z) (bookingId : jsstring) (authInfo : AuthInfo)
    : M jsstring :=
  let tenantId := extra_tenantId (extra authInfo) in
  if (scenario =? 1)%Z then createBooking (js "HOTEL") tenantId bookingId
  else ret (js "ERROR").

(** The command a derivation for the tenant [T] sends. *)
Definition commandFor (T : jsstring) : AssumeRoleCommand :=
  {| RoleArn := ROLE_ARN;
     RoleSessionName := js "tenant-" ++ T ++ js "-session";
     Tags := [ {| Key := js "tenantId"; Value := T |} ] |}.

(** Every role assumption in the trace is the one for [T]. *)
Definition boundTo (T : jsstring) (calls : list AwsCall) : Prop :=
  forall cmd, AssumeRole cmd ∈ calls -> cmd = commandFor T.

(** What a client can ask of the server once its token is verified; the
    parameters are the client's. *)
Inductive Request : Type :=
  | ReadResource (uri_tenantId uri_filename : jsstring)
  | ListResources
  | ListBookings (type id : option jsstring)
  | BookFlight (scenario : Z) (bookingId : jsstring)
  | BookHotel (scenario : Z) (bookingId : jsstring)
  | OtherTool.

(** The calls sent to AWS while the request is served. *)
Definition serve (authInfo : AuthInfo) (r : Request) : list AwsCall :=
  match r with
  | ReadResource t f => trace (readTenantFile t f authInfo)
  | ListResources => trace (listTenantFiles authInfo)
  | ListBookings type id => trace (listBookings type id authInfo)
  | BookFlight sc b => trace (bookFlight sc b authInfo)
  | BookHotel sc b => trace (bookHotel sc b authInfo)
  | OtherTool => []
  end.

End Handlers.

End Tenant.

(* ===================================================================== *)
(** ** Concrete requests and environments *)
(* ===================================================================== *)

Module Examples.
Import Dcr.

Definition poolId : option jsstring := Some (js "us-east-1_ABC").

Definition bodyWith (uris : list Entry) (members : gmap jsstring JSON) : Body :=
  {| redirect_uris := RuArray uris;
     client_name := Some (js "CLI Tool");
     grant_types := None;
     response_types := None;
     scope := None;
     members := members |}.

Definition post (b : Body) : Event :=
  {| httpMethod := js "POST";
     header_Content_Type := Some (js "application/json");
     header_content_type := None;
     body := BodyObject b |}.

(** Scenario A: the CLI tool registers its loopback callback. *)
Definition bodyA : Body := bodyWith [EStr (js "http://localhost:4000/cb")] ∅.


(** Two callbacks on hosts that merely begin with "localhost". *)
Definition lookalikes : list jsstring :=
  [js "http://localhost.attacker.example/cb"; js "http://localhostevil/"].

Definition bodyLookalike : Body := bodyWith (EStr <$> lookalikes) ∅.

(** A request that brings a [client_id] member of its own. *)
Definition bodyOwnId : Body :=
  bodyWith [EStr (js "http://localhost:4000/cb")]
    {[ js "client_id" := JStr (js "chosen-by-the-caller") ]}.

(** Collaborators that all answer, Cognito naming the new client [id]. *)
Definition allUp (id : jsstring) : Upstream :=
  {| getItem_ok := true; describe_ok := true; create_id := Some id;
     putItem_ok := true; branding_ok := true |}.

(** Cognito creates the client; the dedup write and the branding fail. *)
Definition sideEffectsDown (id : jsstring) : Upstream :=
  {| getItem_ok := true; describe_ok := true; create_id := Some id;
     putItem_ok := false; branding_ok := false |}.

Definition emptyWorld : World := {| table := ∅; pool := ∅ |}.

(** Scenario B: the resource server at https://api.x.com. *)
Definition cfgB : EnvConfig.Config :=
  {| EnvConfig.processEnv :=
       {[ "RESOURCE_SERVER_URL"%string := js "https://api.x.com";
          "COGNITO_USER_POOL_ID"%string := js "us-east-1_ABC";
          "AWS_REGION"%string := js "us-east-1" ]};
     EnvConfig.envFile := ∅ |}.

(** Scenario C: the same without RESOURCE_SERVER_URL. *)
Definition cfgC : EnvConfig.Config :=
  {| EnvConfig.processEnv :=
       {[ "COGNITO_USER_POOL_ID"%string := js "us-east-1_ABC";
          "AWS_REGION"%string := js "us-east-1" ]};
     EnvConfig.envFile := ∅ |}.

(** The environment of the metadata proxy, complete and without its
    registration endpoint. *)
Definition proxyEnv : gmap string jsstring :=
  {[ "COGNITO_USER_POOL_ID"%string := js "us-east-1_ABC";
     "DEPLOYMENT_REGION"%string := js "us-east-1";
     "REGISTRATION_ENDPOINT_URL"%string := js "https://dcr.example/register" ]}.

Definition proxyEnvIncomplete : gmap string jsstring :=
  {[ "COGNITO_USER_POOL_ID"%string := js "us-east-1_ABC";
     "DEPLOYMENT_REGION"%string := js "us-east-1" ]}.

Definition cognitoDocument : OpenIdConfig.Doc :=
  {[ js "issuer" := JStr (js "https://cognito-idp.us-east-1.amazonaws.com/us-east-1_ABC");
     js "registration_endpoint" := JStr (js "https://upstream.example/own") ]}.

(** An upstream that answers 200 at the time [at_], with the given
    [Cache-Control] header. *)
Definition upstreamOk (cacheControl : option jsstring) (at_ : Z)
    : jsstring -> OpenIdConfig.FetchResult :=
  fun _ =>
    OpenIdConfig.FetchResolves
      {| OpenIdConfig.ok := true;
         OpenIdConfig.status := 200;
         OpenIdConfig.statusText := js "OK";
         OpenIdConfig.header_cache_control := cacheControl;
         OpenIdConfig.json := Some (Some cognitoDocument);
         OpenIdConfig.receivedAt := at_ |}.

(** An upstream that answers 503 with a text of its own. *)
Definition upstreamDown : jsstring -> OpenIdConfig.FetchResult :=
  fun _ =>
    OpenIdConfig.FetchResolves
      {| OpenIdConfig.ok := false;
         OpenIdConfig.status := 503;
         OpenIdConfig.statusText := js "upstream secret detail";
         OpenIdConfig.header_cache_control := None;
         OpenIdConfig.json := None;
         OpenIdConfig.receivedAt := 0 |}.

(** A verifier configured for the pool of the examples, with one
    published signing key. *)
Definition verifierCfg : EnvConfig.Config := cfgB.

Definition issuer : jsstring :=
  js "https://cognito-idp.us-east-1.amazonaws.com/us-east-1_ABC".

Definition publishedKeys : JwtVerifier.SigningKeySet :=
  JwtVerifier.JwksKeys {[ js "key-1" := js "PUBLIC KEY 1" ]}.

Definition acmeClaims (exp : Z) : JwtVerifier.Claims :=
  {| JwtVerifier.sub := Some (js "user-1");
     JwtVerifier.client_id := Some (js "client-1");
     JwtVerifier.scope := Some (js "openid profile");
     JwtVerifier.iss := Some issuer;
     JwtVerifier.exp := Some exp;
     JwtVerifier.nbf := None;
     JwtVerifier.custom_tenantId := Some (js "acme");
     JwtVerifier.tenantId := None;
     JwtVerifier.custom_tenantTier := None;
     JwtVerifier.tenantTier := None |}.

(** A token signed with the published key, expiring at [exp]. *)
Definition signedToken (exp : Z) : JwtVerifier.Token :=
  {| JwtVerifier.text := js "header.payload.signature";
     JwtVerifier.decoding := JwtVerifier.Decodes;
     JwtVerifier.alg := js "RS256";
     JwtVerifier.kid := Some (js "key-1");
     JwtVerifier.verifiesWith := fun k => bool_decide (k = js "PUBLIC KEY 1");
     JwtVerifier.claims := acmeClaims exp |}.

(** A token whose header names a key the issuer does not publish. *)
Definition unknownKeyToken : JwtVerifier.Token :=
  {| JwtVerifier.text := js "header.payload.signature";
     JwtVerifier.decoding := JwtVerifier.Decodes;
     JwtVerifier.alg := js "RS256";
     JwtVerifier.kid := Some (js "key-9");
     JwtVerifier.verifiesWith := fun _ => false;
     JwtVerifier.claims := acmeClaims 1700003600 |}.

(** An STS that hands out the same credentials for every command. *)
Definition someCredentials : Tenant.Credentials :=
  {| Tenant.AccessKeyId := js "AKIA"; Tenant.SecretAccessKey := js "secret";
     Tenant.SessionToken := js "token" |}.

Definition awsUp : Tenant.Aws :=
  {| Tenant.sts := fun _ => Tenant.StsResolves (Some someCredentials);
     Tenant.s3_get := fun _ _ => Some (js "policy text");
     Tenant.s3_list := fun _ _ => Some [];
     Tenant.dynamo_query := fun _ _ _ => Some [];
     Tenant.dynamo_put := fun _ _ _ => true;
     Tenant.rejection :=
       {| JwtVerifier.name := js "ServiceUnavailable";
          JwtVerifier.message := js "Service Unavailable" |} |}.

End Examples.

(* ===================================================================== *)
(** ** The stores of the registrar as a whole *)
(* ===================================================================== *)

Module DcrState.
Import Dcr.

(** Every row of the dedup table names a client the user pool has. *)
Definition consistent (w : World) : Prop :=
  forall key item, table w !! key = Some item -> is_Some (pool w !! clientId item).

(** The dedup key of an event, when its body is an object. *)
Definition keyOf (event : Event) : option jsstring :=
  match body event with
  | BodyObject b =>
      Some (createClientKey (client_name b) (uriList (redirect_uris b)))
  | BodySyntaxError => None
  end.

(** The statuses the registrar answers with. *)
Definition statuses : list Z := [201; 400; 405; 500]%Z.

Definition isPut (c : Call) : bool :=
  match c with PutItem _ _ => true | _ => false end.

End DcrState.

(* ===================================================================== *)
(** ** The cache of the metadata proxy as a whole *)
(* ===================================================================== *)

Module ProxyState.
Import OpenIdConfig.

(** A document that advertises the configured registration endpoint and
    PKCE with S256. *)
Definition advertises (env : gmap string jsstring) (d : Doc) : Prop :=
  (exists u, env !! "REGISTRATION_ENDPOINT_URL"%string = Some u
             /\ d !! js "registration_endpoint" = Some (JStr u))
  /\ d !! js "code_challenge_methods_supported" = Some (JArr [JStr (js "S256")]).

(** The cache holds nothing, or a document that advertises both. *)
Definition cacheAdvertises (env : gmap string jsstring) (c : Cache) : Prop :=
  forall d, cachedConfig c = Some d -> advertises env d.

(** The upstream answered with a document. *)
Definition delivers (answer : FetchResult) : Prop :=
  exists r d, answer = FetchResolves r /\ ok r = true /\ json r = Some d.

(** The cache has nothing to serve at the time [now]. *)
Definition stale (now : Z) (c : Cache) : Prop :=
  cachedConfig c = None \/ (default 0 (cacheExpiry c) <= now)%Z.

End ProxyState.

(* ===================================================================== *)
(** ** What the verifier asks of a token *)
(* ===================================================================== *)


(* ===================================================================== *)
(** ** What a tenant's request may send *)
(* ===================================================================== *)

Module TenantSpec.
Import Tenant.

(** A call that stays with the tenant [T]: a role assumption is the one for
    [T]; a data call uses credentials that STS issued for that assumption and
    addresses an S3 key under "T/" or the DynamoDB partition [T]. *)
Definition confined (aws : Aws) (ROLE_ARN : option jsstring) (T : jsstring)
    (call : AwsCall) : Prop :=
  match call with
  | AssumeRole cmd => cmd = commandFor ROLE_ARN T
  | S3GetObject c key =>
      sts aws (commandFor ROLE_ARN T) = StsResolves (Some c)
      /\ exists filename, key = T ++ js "/" ++ filename
  | S3ListObjectsV2 c prefix =>
      sts aws (commandFor ROLE_ARN T) = StsResolves (Some c)
      /\ prefix = T ++ js "/"
  | DynamoQuery c pk _ =>
      sts aws (commandFor ROLE_ARN T) = StsResolves (Some c) /\ pk = T
  | DynamoPut c pk _ =>
      sts aws (commandFor ROLE_ARN T) = StsResolves (Some c) /\ pk = T
  end.

Definition isAssumeRole (call : AwsCall) : bool :=
  match call with AssumeRole _ => true | _ => false end.

(** The shape of the calls of a request of the tenant [T]: none; a role
    assumption that STS did not answer with credentials; or a role assumption
    and one data call that stays with the tenant. *)
Inductive Shape (aws : Aws) (ROLE_ARN : option jsstring) (T : jsstring)
    : list AwsCall -> Prop :=
  | NoCall : Shape aws ROLE_ARN T []
  | Refused :
      (forall c, sts aws (commandFor ROLE_ARN T) <> StsResolves (Some c)) ->
      Shape aws ROLE_ARN T [AssumeRole (commandFor ROLE_ARN T)]
  | Served c d :
      sts aws (commandFor ROLE_ARN T) = StsResolves (Some c) ->
      isAssumeRole d = false -> confined aws ROLE_ARN T d ->
      Shape aws ROLE_ARN T [AssumeRole (commandFor ROLE_ARN T); d].

End TenantSpec.

(** Two callbacks, and the one callback whose text is both joined by a
    comma. *)
Module MoreExamples.
Import Dcr.

Definition twoCallbacks : list jsstring :=
  [js "https://b.example/cb"; js "https://a.example/cb"].

Definition joinedCallback : jsstring :=
  js "https://a.example/cb,https://b.example/cb".

Definition bodyTwo : Body := Examples.bodyWith (EStr <$> twoCallbacks) ∅.
Definition bodyJoined : Body := Examples.bodyWith [EStr joinedCallback] ∅.


(** A request that asks for a client secret. *)
Definition bodyAskingSecret : Body :=
  Examples.bodyWith [EStr (js "http://localhost:4000/cb")]
    {[ js "token_endpoint_auth_method" := JStr (js "client_secret_basic") ]}.

(** A complete [.env] file, under a process environment that sets the
    resource URL to spaces. *)
Definition cfgBlankInProcess : EnvConfig.Config :=
  {| EnvConfig.processEnv := {[ "RESOURCE_SERVER_URL"%string := js "   " ]};
     EnvConfig.envFile := EnvConfig.processEnv Examples.cfgB |}.

(** A token like the signed one, without a scope claim. *)
Definition noScopeToken : JwtVerifier.Token :=
  let t := Examples.signedToken 1700003600 in
  let c := JwtVerifier.claims t in
  {| JwtVerifier.text := JwtVerifier.text t;
     JwtVerifier.decoding := JwtVerifier.decoding t;
     JwtVerifier.alg := JwtVerifier.alg t;
     JwtVerifier.kid := JwtVerifier.kid t;
     JwtVerifier.verifiesWith := JwtVerifier.verifiesWith t;
     JwtVerifier.claims :=
       {| JwtVerifier.sub := JwtVerifier.sub c;
          JwtVerifier.client_id := JwtVerifier.client_id c;
          JwtVerifier.scope := None;
          JwtVerifier.iss := JwtVerifier.iss c;
          JwtVerifier.exp := JwtVerifier.exp c;
          JwtVerifier.nbf := JwtVerifier.nbf c;
          JwtVerifier.custom_tenantId := JwtVerifier.custom_tenantId c;
          JwtVerifier.tenantId := JwtVerifier.tenantId c;
          JwtVerifier.custom_tenantTier := JwtVerifier.custom_tenantTier c;
          JwtVerifier.tenantTier := JwtVerifier.tenantTier c |} |}.

(** An S3 that lists the folder marker and two files of the tenant. *)
Definition awsListing : Tenant.Aws :=
  {| Tenant.sts := fun _ => Tenant.StsResolves (Some Examples.someCredentials);
     Tenant.s3_get := fun _ _ => Some (js "policy text");
     Tenant.s3_list := fun _ _ =>
       Some [js "acme/"; js "acme/policy.md"; js "acme/rates.json"];
     Tenant.dynamo_query := fun _ _ _ => Some [];
     Tenant.dynamo_put := fun _ _ _ => true;
     Tenant.rejection :=
       {| JwtVerifier.name := js "ServiceUnavailable";
          JwtVerifier.message := js "Service Unavailable" |} |}.

(** A dedup row left behind for scenario A, whose client is gone. *)
Definition staleWorld : World :=
  {| table := {[ createClientKey (Some (js "CLI Tool")) [js "http://localhost:4000/cb"]
                 := {| clientId := js "client-0"; createdAt := 1600000000000 |} ]};
     pool := ∅ |}.

(** The dedup read fails; everything else answers. *)
Definition readDown (id : jsstring) : Upstream :=
  {| getItem_ok := false; describe_ok := true; create_id := Some id;
     putItem_ok := true; branding_ok := true |}.

End MoreExamples.

(* ===================================================================== *)
(** * Properties *)
(* ===================================================================== *)

(** ** The order on strings *)

Lemma str_leb_total a : forall b, str_leb a b = true \/ str_leb b a = true.
Proof.
  induction a as [|x a IH]; intros [|y b]; simpl; auto.
  destruct (N.ltb_spec x y), (N.ltb_spec y x); auto; lia.
Qed.

Lemma str_leb_antisym a : forall b,
  str_leb a b = true -> str_leb b a = true -> a = b.
Proof.
  induction a as [|x a IH]; intros [|y b]; simpl; try done.
  destruct (N.ltb_spec x y), (N.ltb_spec y x); try done; try lia.
  intros Hab Hba. assert (x = y) by lia. subst. f_equal. by apply IH.
Qed.

Lemma str_leb_trans a : forall b c,
  str_leb a b = true -> str_leb b c = true -> str_leb a c = true.
Proof.
  induction a as [|x a IH]; intros [|y b] [|z c]; simpl; try done.
  destruct (N.ltb_spec x y), (N.ltb_spec y x), (N.ltb_spec y z),
    (N.ltb_spec z y), (N.ltb_spec x z), (N.ltb_spec z x);
    try done; try lia.
  apply IH.
Qed.

#[local] Instance str_le_total : Total str_le.
Proof. intros a b. apply str_leb_total. Qed.

#[local] Instance str_le_antisymm : AntiSymm (=) str_le.
Proof. intros a b. apply str_leb_antisym. Qed.

#[local] Instance str_le_transitive : Transitive str_le.
Proof. intros a b c. apply str_leb_trans. Qed.

(** Sorting forgets the order in which the array was given. *)
Lemma sort_permutation (l1 l2 : list jsstring) :
  l1 ≡ₚ l2 -> sort l1 = sort l2.
Proof.
  intros Hp. unfold sort.
  apply (Sorted_unique str_le); try apply Sorted_merge_sort; try apply _.
  by rewrite !merge_sort_Permutation.
Qed.

Lemma sort_sorted (l : list jsstring) : Sorted str_le (sort l).
Proof. apply Sorted_merge_sort; apply _. Qed.

Lemma sort_perm (l : list jsstring) : sort l ≡ₚ l.
Proof. apply merge_sort_Permutation. Qed.

(** ** The model on a few inputs *)

Example createClientKey_scenario_A :
  Dcr.createClientKey (Some (js "CLI Tool")) [js "http://localhost:4000/cb"]
  = js "CLI Tool#aHR0cDovL2xvY2FsaG9zdDo0MDAwL2Ni".
Proof. vm_compute. reflexivity. Qed.

Example createClientKey_without_name :
  Dcr.createClientKey None [js "https://b/cb"; js "https://a/cb"]
  = js "undefined#aHR0cHM6Ly9hL2NiLGh0dHBzOi8vYi9jYg".
Proof. vm_compute. reflexivity. Qed.

Example sort_by_code_units :
  sort [js "b"; js "a"; js "B"; js "ab"] = [js "B"; js "a"; js "ab"; js "b"].
Proof. vm_compute. reflexivity. Qed.

Example utf8_surrogate_pair : utf8 [55357; 56832] = [240; 159; 152; 128].
Proof. vm_compute. reflexivity. Qed.

Example utf8_lone_surrogate : utf8 [55357; 97] = [239; 191; 189; 97].
Proof. vm_compute. reflexivity. Qed.

Example trim_blank : trim [32; 9; 160; 10] = [].
Proof. vm_compute. reflexivity. Qed.

Example parseCacheControl_public :
  OpenIdConfig.parseCacheControl (Some (js "public, max-age=300")) = Some 300%Z.
Proof. vm_compute. reflexivity. Qed.

Example parseCacheControl_second_match :
  OpenIdConfig.parseCacheControl (Some (js "max-age=, s-maxage=5, max-age=60"))
  = Some 60%Z.
Proof. vm_compute. reflexivity. Qed.

Example parseCacheControl_none :
  OpenIdConfig.parseCacheControl (Some (js "no-cache")) = None.
Proof. vm_compute. reflexivity. Qed.

Example stripTrailingSlash_once :
  OAuthMetadata.stripTrailingSlash (js "https://dcr.example//") = js "https://dcr.example/".
Proof. vm_compute. reflexivity. Qed.

Example URL_scheme_examples :
  URL_scheme (js "http://localhost:3000/cb") = Some (js "http:")
  /\ URL_scheme (js "ftp://x") = Some (js "ftp:")
  /\ URL_scheme (js "not a url") = None.
Proof. vm_compute. by repeat split. Qed.

(** ** C8: the dedup key does not depend on the order of the URIs *)

(** C8.  For every client name and every two lists of redirect URIs that
    are permutations of each other, [createClientKey] yields the same key,
    which is the client name, "#", and the base64url text of the sorted
    URIs joined by commas; so both lists address the same entry of any dedup
    table. *)
Theorem C8_createClientKey_order_independent
    (clientName : option jsstring) (uris1 uris2 : list jsstring)
    (table : gmap jsstring Dcr.DedupItem) :
  uris1 ≡ₚ uris2 ->
  Dcr.createClientKey clientName uris1 = Dcr.createClientKey clientName uris2
  /\ Dcr.createClientKey clientName uris1
     = show clientName ++ js "#" ++ base64url (utf8 (join (js ",") (sort uris1)))
  /\ Sorted str_le (sort uris1) /\ sort uris1 ≡ₚ uris1
  /\ table !! Dcr.createClientKey clientName uris1
     = table !! Dcr.createClientKey clientName uris2.
Proof.
  intros Hp.
  assert (Hkey : Dcr.createClientKey clientName uris1
                 = Dcr.createClientKey clientName uris2).
  { unfold Dcr.createClientKey. by rewrite (sort_permutation _ _ Hp). }
  split; [exact Hkey|]. split; [reflexivity|].
  split; [apply sort_sorted|]. split; [apply sort_perm|].
  by rewrite Hkey.
Qed.

Lemma C8_witness :
  Dcr.createClientKey (Some (js "CLI Tool"))
    [js "https://a.example/cb"; js "http://localhost:4000/cb"]
  = Dcr.createClientKey (Some (js "CLI Tool"))
    [js "http://localhost:4000/cb"; js "https://a.example/cb"].
Proof.
  apply (C8_createClientKey_order_independent _ _ _ ∅).
  apply Permutation_swap.
Defined.

(** ** Dynamic client registration *)

Section DcrProperties.
Import Dcr.

Variable URL_protocol : jsstring -> option jsstring.

Local Abbreviation verdict := (Dcr.verdict URL_protocol).
Local Abbreviation acceptable := (Dcr.acceptable URL_protocol).

Ltac js_neq := let H := fresh in intros H; vm_compute in H; discriminate H.

Lemma setIf_lookup_ne (k k' : jsstring) (v : option jsstring)
    (m : gmap jsstring JSON) :
  k' ≠ k -> setIf k' v m !! k = m !! k.
Proof.
  intros Hne. unfold setIf. destruct v as [[|c s]|]; try done.
  by rewrite lookup_insert_ne.
Qed.

(** The [client_id] of the document the handler builds is the id of the
    client it was built from. *)
Lemma registrationDocument_client_id now b c :
  registrationDocument now b c !! js "client_id" = Some (JStr (ClientId c)).
Proof.
  unfold registrationDocument.
  rewrite lookup_union_r.
  - rewrite !setIf_lookup_ne by js_neq. by rewrite lookup_insert_eq.
  - unfold providedOptional. apply map_lookup_filter_None. right.
    intros x _ [Hin _]. simpl in Hin. unfold optionalNames in Hin.
    rewrite !elem_of_cons, elem_of_nil in Hin.
    repeat (destruct Hin as [Hin|Hin]; [vm_compute in Hin; discriminate Hin|]).
    done.
Qed.

(** The [client_id] of the final body: a member of that name in the
    request is spread over the handler's. *)
Lemma registrationBody_client_id now b c :
  registrationBody now b c !! js "client_id"
  = match extensionParams b !! js "client_id" with
    | Some v => Some v
    | None => Some (JStr (ClientId c))
    end.
Proof.
  unfold registrationBody.
  destruct (extensionParams b !! js "client_id") as [v|] eqn:He.
  - by apply lookup_union_Some_l.
  - rewrite lookup_union_r by done.
    rewrite lookup_union_r; [apply registrationDocument_client_id|].
    unfold i18nNames. apply map_lookup_filter_None. right.
    intros x _ Hp. simpl in Hp. vm_compute in Hp. discriminate Hp.
Qed.

Lemma handler_valid poolId up now w event b :
  validRegistration URL_protocol poolId event b ->
  handler URL_protocol poolId up now w event = register up now w b.
Proof.
  intros [(Hm & Hc & Hb & Hp) [Hv Hg]]. unfold handler.
  rewrite Hm, Hc, Hb, Hp, Hv, Hg. simpl.
  repeat (rewrite bool_decide_eq_true_2 by done). done.
Qed.

(** The second of two identical registrations, in the world the first
    one left: what [register] does when the first one stored [item] for the
    key and the pool describes the client [c] under [item]'s id. *)
Lemma register_replay up now w b item c :
  getItem_ok up = true -> describe_ok up = true ->
  table w !! createClientKey (client_name b) (uriList (redirect_uris b)) = Some item ->
  pool w !! clientId item = Some c ->
  register up now w b
  = {| response := jsonResponse 201 (registrationBody now b c);
       world := w;
       calls := [GetItem (createClientKey (client_name b) (uriList (redirect_uris b)));
                 DescribeUserPoolClient (clientId item)];
       logged := [js "Returning existing client: " ++ ClientId c] |}.
Proof.
  intros Hg Hd Ht Hp. unfold register, findExistingPublicClient.
  by rewrite Hg, Ht, Hd, Hp.
Qed.

(** The first registration, when the lookup finds no usable client. *)
Lemma register_create up now w b id :
  (findExistingPublicClient up w (uriList (redirect_uris b)) (client_name b)).1.1 = None ->
  create_id up = Some id ->
  response (register up now w b)
    = jsonResponse 201 (registrationBody now b (newClient b id))
  /\ pool (world (register up now w b)) !! id = Some (newClient b id)
  /\ (putItem_ok up = true ->
      table (world (register up now w b))
        !! createClientKey (client_name b) (uriList (redirect_uris b))
      = Some {| clientId := id; createdAt := now |}).
Proof.
  intros Hf Hc. unfold register.
  destruct (findExistingPublicClient _ _ _ _) as [[e t1] l1]. simpl in Hf. subst e.
  rewrite Hc. unfold storePublicClient, createBranding.
  destruct (putItem_ok up), (branding_ok up); simpl;
    repeat split; try done; try (by rewrite lookup_insert_eq);
    intros; by rewrite lookup_insert_eq.
Qed.

(** The first registration, when the lookup finds a client. *)
Lemma register_found up now w b c :
  (findExistingPublicClient up w (uriList (redirect_uris b)) (client_name b)).1.1 = Some c ->
  response (register up now w b) = jsonResponse 201 (registrationBody now b c)
  /\ world (register up now w b) = w
  /\ exists item,
       table w !! createClientKey (client_name b) (uriList (redirect_uris b)) = Some item
       /\ pool w !! clientId item = Some c.
Proof.
  intros Hf. unfold register.
  destruct (findExistingPublicClient _ _ _ _) as [[e t1] l1] eqn:E.
  simpl in Hf. subst e. repeat split; try done.
  unfold findExistingPublicClient in E.
  destruct (getItem_ok up); [|done].
  destruct (table w !! _) as [item|]; [|done].
  exists item. split; [done|].
  destruct (describe_ok up); [|done].
  destruct (pool w !! clientId item); by simplify_eq.
Qed.

(** C3, as the code has it.  Registration is idempotent on the pair of
    client name and redirect URIs as long as the lookup works.  A valid
    registration submitted twice in sequence, the collaborators answering
    (the first call can create its client and write the dedup entry, the
    second can read the entry and have the client described), returns 201
    both times with the same [client_id];
    the second call finds the dedup entry, builds its answer from the
    existing client's description, sends a read and a describe and no
    create, and leaves both stores as they were. *)
Theorem C3_registration_idempotent poolId up1 up2 now1 now2 w0 event b :
  validRegistration URL_protocol poolId event b ->
  is_Some (create_id up1) -> putItem_ok up1 = true ->
  getItem_ok up2 = true -> describe_ok up2 = true ->
  let key := createClientKey (client_name b) (uriList (redirect_uris b)) in
  let o1 := handler URL_protocol poolId up1 now1 w0 event in
  let o2 := handler URL_protocol poolId up2 now2 (world o1) event in
  statusCode (response o1) = 201%Z /\ statusCode (response o2) = 201%Z
  /\ is_Some (client_id_of (response o1))
  /\ client_id_of (response o1) = client_id_of (response o2)
  /\ (exists item c,
        table (world o1) !! key = Some item
        /\ pool (world o1) !! clientId item = Some c
        /\ payload (response o1) = registrationBody now1 b c
        /\ payload (response o2) = registrationBody now2 b c
        /\ calls o2 = [GetItem key; DescribeUserPoolClient (clientId item)])
  /\ filter (fun c => isCreate c = true) (calls o2) = []
  /\ world o2 = world o1.
Proof.
  intros Hv [id Hid] Hput Hget Hdesc key o1 o2.
  assert (exists item c,
    table (world o1) !! key = Some item
    /\ pool (world o1) !! clientId item = Some c
    /\ response o1 = jsonResponse 201 (registrationBody now1 b c))
    as (item & c & Ht & Hp & Hr1).
  { subst o1. rewrite (handler_valid _ _ _ _ _ _ Hv).
    destruct (findExistingPublicClient up1 w0 (uriList (redirect_uris b))
                (client_name b)).1.1 as [c|] eqn:Hf.
    - destruct (register_found _ now1 _ _ _ Hf) as (Hr & Hw & item & Ht & Hp).
      exists item, c. by rewrite Hw.
    - destruct (register_create _ now1 _ _ _ Hf Hid) as (Hr & Hp & Ht).
      eexists _, _. split; [by apply Ht|]. by split. }
  assert (Ho2 : o2 = _) by
    (subst o2; rewrite (handler_valid _ _ _ _ _ _ Hv);
     exact (register_replay _ now2 _ _ _ _ Hget Hdesc Ht Hp)).
  unfold client_id_of. rewrite Ho2, Hr1. simpl.
  rewrite !registrationBody_client_id.
  split; [done|]. split; [done|].
  split; [by destruct (extensionParams b !! js "client_id")|].
  split; [done|].
  split; [by exists item, c|]. by split.
Qed.

(** *** Validation of redirect URIs *)

Lemma checkRedirectUris_cons e rest :
  checkRedirectUris URL_protocol (e :: rest)
  = match verdict e with
    | Some r => Some r
    | None => checkRedirectUris URL_protocol rest
    end.
Proof.
  destruct e as [u|t]; cbn [checkRedirectUris Dcr.verdict]; [|done].
  destruct (URL_protocol u); [|done].
  by destruct (startsWith (js "https://") u),
              (startsWith (js "http://localhost") u).
Qed.

Lemma verdict_acceptable u : acceptable u -> verdict (EStr u) = None.
Proof. intros [[p Hp] Hs]. cbn [Dcr.verdict]. by rewrite Hp, Hs. Qed.

Lemma checkRedirectUris_acceptable good rest :
  Forall acceptable good ->
  checkRedirectUris URL_protocol ((EStr <$> good) ++ rest)
  = checkRedirectUris URL_protocol rest.
Proof.
  induction 1 as [|u good Hu _ IH]; [done|].
  rewrite fmap_cons, <- app_comm_cons, checkRedirectUris_cons.
  by rewrite verdict_acceptable.
Qed.

Lemma checkRedirectUris_all_acceptable good :
  Forall acceptable good ->
  checkRedirectUris URL_protocol (EStr <$> good) = None.
Proof.
  intros H. rewrite <- (app_nil_r (EStr <$> good)).
  by rewrite checkRedirectUris_acceptable.
Qed.






Lemma register_status up now w b :
  statusCode (response (register up now w b)) = 201%Z
  \/ statusCode (response (register up now w b)) = 500%Z.
Proof.
  unfold register.
  destruct (findExistingPublicClient _ _ _ _) as [[[c|] t1] l1]; [by left|].
  destruct (create_id up); [|by right].
  destruct (storePublicClient _ _ _ _ _ _) as [[w2 t2] l2].
  destruct (createBranding _ _). by left.
Qed.

(** Redirect URIs that pass validation are not what the answer
    complains about, whatever happens next. *)
Lemma handler_accepts poolId up now w event b :
  reachesValidation poolId event b ->
  validateRedirectUris URL_protocol (redirect_uris b) = None ->
  ~ rejectsRedirectUris (response (handler URL_protocol poolId up now w event)).
Proof.
  intros (Hm & Hc & Hb & Hp) Hv. unfold handler.
  rewrite Hm, Hc, Hb, Hp, Hv. simpl.
  repeat (rewrite bool_decide_eq_true_2 by done). simpl.
  destruct (_ && _).
  - intros [_ He]. simpl in He. unfold errorBody in He.
    rewrite lookup_insert_eq in He. vm_compute in He. discriminate He.
  - intros [Hs _]. destruct (register_status up now w b) as [H|H];
      rewrite H in Hs; discriminate Hs.
Qed.




Lemma validateRedirectUris_cons e l :
  validateRedirectUris URL_protocol (RuArray (e :: l))
  = checkRedirectUris URL_protocol (e :: l).
Proof. done. Qed.





Lemma register_201 up now w b :
  is_Some (create_id up) ->
  statusCode (response (register up now w b)) = 201%Z.
Proof.
  intros [id Hid]. unfold register.
  destruct (findExistingPublicClient _ _ _ _) as [[[c|] t1] l1]; [done|].
  rewrite Hid.
  destruct (storePublicClient _ _ _ _ _ _) as [[w2 t2] l2].
  by destruct (createBranding _ _).
Qed.

(** C10.  The scheme restriction is a test on the text of the entry:
    when every entry of [redirect_uris] parses as a URL and begins with the
    characters "http://localhost", the validation accepts the array,
    whatever host the URL names, and the registration is answered 201 when
    the grant and response types agree and Cognito creates the client.
    "http://localhost.attacker.example/cb" and "http://localhostevil/"
    begin with those characters. *)
Theorem C10_localhost_is_a_prefix_test poolId up now w event b uris :
  reachesValidation poolId event b ->
  redirect_uris b = RuArray (EStr <$> uris) -> uris ≠ [] ->
  (forall u, u ∈ uris ->
     is_Some (URL_protocol u) /\ startsWith (js "http://localhost") u = true) ->
  let o := handler URL_protocol poolId up now w event in
  validateRedirectUris URL_protocol (redirect_uris b) = None
  /\ ~ rejectsRedirectUris (response o)
  /\ ((arr_includes (js "authorization_code")
         (default [js "authorization_code"] (grant_types b))
       && negb (arr_includes (js "code") (default [js "code"] (response_types b))))
      = false ->
      is_Some (create_id up) -> statusCode (response o) = 201%Z)
  /\ startsWith (js "http://localhost") (js "http://localhost.attacker.example/cb") = true
  /\ startsWith (js "http://localhost") (js "http://localhostevil/") = true.
Proof.
  intros Hr Hb Hne Hall o.
  assert (Hv : validateRedirectUris URL_protocol (redirect_uris b) = None).
  { rewrite Hb. destruct uris as [|u0 uris']; [done|].
    rewrite fmap_cons, validateRedirectUris_cons, <- fmap_cons.
    apply checkRedirectUris_all_acceptable, Forall_forall.
    intros u Hu. destruct (Hall u Hu) as [Hp Hs]. split; [done|].
    rewrite Hs. apply orb_true_r. }
  split; [done|]. split; [by eapply handler_accepts|].
  split; [|by split].
  intros Hg Hc. subst o.
  rewrite (handler_valid poolId up now w event b) by done.
  by apply register_201.
Qed.

(** *** Best-effort side effects *)

(** When the lookup found no client and Cognito created one with the id
    [id], the answer is 201 and is the document built from the new client,
    whether or not the dedup write and the branding call fail; a failed
    write is logged and leaves the table alone, a failed branding call is
    logged.  The [client_id] of the answer is [id] for a request that has no
    member named [client_id]. *)
Theorem side_effects_are_best_effort poolId up now w event b id :
  validRegistration URL_protocol poolId event b ->
  (findExistingPublicClient up w (uriList (redirect_uris b)) (client_name b)).1.1
    = None ->
  create_id up = Some id ->
  let o := handler URL_protocol poolId up now w event in
  statusCode (response o) = 201%Z
  /\ payload (response o) = registrationBody now b (newClient b id)
  /\ (extensionParams b !! js "client_id" = None ->
      client_id_of (response o) = Some (JStr id))
  /\ pool (world o) !! id = Some (newClient b id)
  /\ (putItem_ok up = false ->
      js "Error storing public client:" ∈ logged o /\ table (world o) = table w)
  /\ (branding_ok up = false ->
      js "Warning: Could not create branding for client:" ∈ logged o).
Proof.
  intros Hv Hf Hc o. subst o. rewrite (handler_valid _ _ _ _ _ _ Hv).
  destruct (register_create up now w b id Hf Hc) as (Hr & Hp & _).
  unfold client_id_of. rewrite Hr. simpl.
  split; [done|]. split; [done|].
  split; [intros He; by rewrite registrationBody_client_id, He|].
  split; [done|].
  unfold register. clear Hr Hp.
  destruct (findExistingPublicClient _ _ _ _) as [[e t1] l1]. simpl in Hf. subst e.
  rewrite Hc. unfold storePublicClient, createBranding.
  split; intros ->; simpl.
  - split; [|by destruct (branding_ok up)].
    destruct (branding_ok up); simpl; set_solver.
  - destruct (putItem_ok up); simpl; set_solver.
Qed.

End DcrProperties.

(** *** The registration properties on concrete requests *)

Lemma C3_witness :
  let o1 := Dcr.handler URL_scheme Examples.poolId (Examples.allUp (js "client-1"))
              1700000000000 Examples.emptyWorld (Examples.post Examples.bodyA) in
  let o2 := Dcr.handler URL_scheme Examples.poolId (Examples.allUp (js "client-2"))
              1700000005000 (Dcr.world o1) (Examples.post Examples.bodyA) in
  Dcr.statusCode (Dcr.response o1) = 201%Z
  /\ Dcr.statusCode (Dcr.response o2) = 201%Z
  /\ Dcr.client_id_of (Dcr.response o1) = Dcr.client_id_of (Dcr.response o2).
Proof.
  intros o1 o2.
  destruct (C3_registration_idempotent URL_scheme Examples.poolId
              (Examples.allUp (js "client-1")) (Examples.allUp (js "client-2"))
              1700000000000 1700000005000 Examples.emptyWorld
              (Examples.post Examples.bodyA) Examples.bodyA)
    as (H1 & H2 & _ & H3 & _).
  - repeat split; vm_compute; reflexivity.
  - by eexists.
  - reflexivity.
  - reflexivity.
  - reflexivity.
  - by repeat split.
Defined.

(** C3 does not hold as stated: the dedup write of the first call
    succeeded, but the dedup read of the second call fails; the lookup takes
    that for a miss, and the second call creates a client of its own and
    answers with another [client_id]. *)
Lemma C3_counterexample :
  let key := Dcr.createClientKey (Dcr.client_name Examples.bodyA)
               (Dcr.uriList (Dcr.redirect_uris Examples.bodyA)) in
  let o1 := Dcr.handler URL_scheme Examples.poolId (Examples.allUp (js "client-1"))
              1700000000000 Examples.emptyWorld (Examples.post Examples.bodyA) in
  let o2 := Dcr.handler URL_scheme Examples.poolId
              (MoreExamples.readDown (js "client-2"))
              1700000005000 (Dcr.world o1) (Examples.post Examples.bodyA) in
  Dcr.clientId <$> Dcr.table (Dcr.world o1) !! key = Some (js "client-1")
  /\ Dcr.statusCode (Dcr.response o1) = 201%Z
  /\ Dcr.statusCode (Dcr.response o2) = 201%Z
  /\ Dcr.client_id_of (Dcr.response o1) = Some (JStr (js "client-1"))
  /\ Dcr.client_id_of (Dcr.response o2) = Some (JStr (js "client-2"))
  /\ Dcr.client_id_of (Dcr.response o1) <> Dcr.client_id_of (Dcr.response o2)
  /\ filter (fun c => Dcr.isCreate c = true) (Dcr.calls o2) <> [].
Proof. vm_compute. repeat split; discriminate. Qed.



(** C9 fails on the [client_id] of the answer.  The request has a member
    of its own named [client_id]; Cognito creates the client "client-1"; the
    dedup write and the branding call fail.  The answer is 201 and the client
    is in the pool, as the claim says, but the [client_id] of the answer is
    the member of the request and not the id of the client just created: the
    extension members are spread over the response last.  The answer is the
    same when nothing fails. *)
Theorem C9_request_client_id_replaces_the_issued_one :
  let run up :=
    Dcr.handler URL_scheme Examples.poolId up 1700000000000 Examples.emptyWorld
      (Examples.post Examples.bodyOwnId) in
  let failing := run (Examples.sideEffectsDown (js "client-1")) in
  let working := run (Examples.allUp (js "client-1")) in
  Dcr.extensionParams Examples.bodyOwnId !! js "client_id"
  = Some (JStr (js "chosen-by-the-caller"))
  /\ Dcr.statusCode (Dcr.response failing) = 201%Z
  /\ Dcr.pool (Dcr.world failing) !! js "client-1"
     = Some (Dcr.newClient Examples.bodyOwnId (js "client-1"))
  /\ Dcr.table (Dcr.world failing) = ∅
  /\ Dcr.client_id_of (Dcr.response failing) = Some (JStr (js "chosen-by-the-caller"))
  /\ Dcr.client_id_of (Dcr.response failing) <> Some (JStr (js "client-1"))
  /\ Dcr.response working = Dcr.response failing.
Proof. vm_compute. repeat split; discriminate. Qed.

Lemma side_effects_are_best_effort_witness :
  let o := Dcr.handler URL_scheme Examples.poolId
             (Examples.sideEffectsDown (js "client-1"))
             1700000000000 Examples.emptyWorld (Examples.post Examples.bodyA) in
  Dcr.statusCode (Dcr.response o) = 201%Z
  /\ Dcr.client_id_of (Dcr.response o) = Some (JStr (js "client-1"))
  /\ js "Error storing public client:" ∈ Dcr.logged o
  /\ js "Warning: Could not create branding for client:" ∈ Dcr.logged o.
Proof.
  intros o.
  destruct (side_effects_are_best_effort URL_scheme Examples.poolId
              (Examples.sideEffectsDown (js "client-1")) 1700000000000
              Examples.emptyWorld (Examples.post Examples.bodyA) Examples.bodyA
              (js "client-1"))
    as (H1 & _ & H2 & _ & H3 & H4).
  - repeat split; vm_compute; reflexivity.
  - vm_compute; reflexivity.
  - reflexivity.
  - split; [exact H1|]. split; [apply H2; vm_compute; reflexivity|].
    split; [apply H3; reflexivity | apply H4; reflexivity].
Defined.

Lemma C10_witness :
  let o := Dcr.handler URL_scheme Examples.poolId (Examples.allUp (js "client-1"))
             1700000000000 Examples.emptyWorld (Examples.post Examples.bodyLookalike) in
  Dcr.validateRedirectUris URL_scheme (Dcr.redirect_uris Examples.bodyLookalike) = None
  /\ Dcr.statusCode (Dcr.response o) = 201%Z.
Proof.
  intros o.
  destruct (C10_localhost_is_a_prefix_test URL_scheme Examples.poolId
              (Examples.allUp (js "client-1")) 1700000000000 Examples.emptyWorld
              (Examples.post Examples.bodyLookalike) Examples.bodyLookalike
              Examples.lookalikes)
    as (H1 & _ & H2 & _).
  - repeat split; vm_compute; reflexivity.
  - reflexivity.
  - discriminate.
  - intros u Hu. unfold Examples.lookalikes in Hu.
    rewrite !elem_of_cons, elem_of_nil in Hu.
    destruct Hu as [-> | [-> | []]]; split; vm_compute; eauto.
  - split; [exact H1|]. apply H2; [vm_compute; reflexivity | by eexists].
Defined.

(** ** Protected-resource metadata *)

Section MetadataProperties.
Import EnvConfig OAuthMetadata.

Variable URL_protocol : jsstring -> option jsstring.

Local Abbreviation httpOrHttps := (OAuthMetadata.httpOrHttps URL_protocol).

Lemma isEmpty_false (v : option jsstring) :
  isEmpty v = false -> exists s, v = Some s /\ s <> [] /\ show v = s /\ truthy v = true.
Proof.
  destruct v as [[|c s]|]; try done. intros _. by exists (c :: s).
Qed.

Lemma missingIf_nil b name : missingIf b name = [] <-> b = false.
Proof. by destruct b. Qed.

Lemma missingIf_elem b name (m : jsstring) :
  m ∈ missingIf b name
  <-> b = true /\ m = js "Missing required environment variable: " ++ js name.
Proof.
  destruct b; simpl.
  - rewrite list_elem_of_singleton. by split; [|intros [_ ?]].
  - rewrite elem_of_nil. by split; [|intros [? _]].
Qed.

Lemma formatErrors_spec (v : option jsstring) :
  (isEmpty v = true -> formatErrors URL_protocol v = [])
  /\ (isEmpty v = false -> httpOrHttps v -> formatErrors URL_protocol v = [])
  /\ (isEmpty v = false -> URL_protocol (show v) = None ->
      formatErrors URL_protocol v
      = [js "Invalid RESOURCE_SERVER_URL format: must be a valid URL"])
  /\ (isEmpty v = false ->
      (exists p, URL_protocol (show v) = Some p
                 /\ p <> js "http:" /\ p <> js "https:") ->
      formatErrors URL_protocol v
      = [js "Invalid RESOURCE_SERVER_URL format: must use http or https protocol"]).
Proof.
  unfold formatErrors, httpOrHttps.
  destruct (isEmpty v) eqn:E; simpl; [by repeat split|].
  destruct (isEmpty_false v E) as (s & -> & _ & _ & _). simpl.
  repeat split; try done.
  - intros _ [-> | ->]; by vm_compute.
  - by intros _ ->.
  - intros _ (p & -> & H1 & H2).
    by rewrite !bool_decide_eq_false_2.
Qed.

Lemma formatErrors_nil_inv (v : option jsstring) :
  isEmpty v = false -> formatErrors URL_protocol v = [] -> httpOrHttps v.
Proof.
  intros E. unfold formatErrors, httpOrHttps. rewrite E. simpl.
  destruct (isEmpty_false v E) as (s & -> & _ & _ & _). simpl.
  destruct (URL_protocol s) as [p|]; [|done].
  destruct (decide (p = js "http:")) as [->|H1]; [by left|].
  destruct (decide (p = js "https:")) as [->|H2]; [by right|].
  by rewrite !bool_decide_eq_false_2.
Qed.

Lemma validation_errors cfg :
  errors (validateConfiguration URL_protocol cfg)
  = missingIf (isEmpty (get cfg "RESOURCE_SERVER_URL" None)) "RESOURCE_SERVER_URL"
    ++ missingIf (isEmpty (get cfg "COGNITO_USER_POOL_ID" None)) "COGNITO_USER_POOL_ID"
    ++ missingIf (isEmpty (get cfg "AWS_REGION" None)) "AWS_REGION"
    ++ formatErrors URL_protocol (get cfg "RESOURCE_SERVER_URL" None).
Proof. done. Qed.

Lemma validation_isValid cfg :
  isValid (validateConfiguration URL_protocol cfg) = true
  <-> errors (validateConfiguration URL_protocol cfg) = [].
Proof.
  unfold validateConfiguration. cbn [isValid errors].
  rewrite bool_decide_eq_true. apply length_zero_iff_nil.
Qed.

(** A valid configuration has its three settings, none of them blank,
    and a resource URL on http or https. *)
Lemma valid_inv cfg :
  isValid (validateConfiguration URL_protocol cfg) = true ->
  isEmpty (get cfg "RESOURCE_SERVER_URL" None) = false
  /\ isEmpty (get cfg "COGNITO_USER_POOL_ID" None) = false
  /\ isEmpty (get cfg "AWS_REGION" None) = false
  /\ httpOrHttps (get cfg "RESOURCE_SERVER_URL" None).
Proof.
  rewrite validation_isValid, validation_errors.
  intros H. destruct (app_eq_nil _ _ H) as [H1 H'].
  destruct (app_eq_nil _ _ H') as [H2 H''].
  destruct (app_eq_nil _ _ H'') as [H3 H4].
  apply missingIf_nil in H1, H2, H3.
  repeat split; try done. by apply formatErrors_nil_inv.
Qed.

Lemma invalid_503 cfg :
  isValid (validateConfiguration URL_protocol cfg) = false ->
  handleMetadataRequest URL_protocol cfg
  = {| status := 503;
       json := ErrorJson (js "service_unavailable")
         (js "OAuth metadata temporarily unavailable due to configuration error") |}.
Proof. intros H. unfold handleMetadataRequest. by rewrite H. Qed.

End MetadataProperties.

(** ** Authorization-server metadata proxy *)

Section ProxyProperties.
Import OpenIdConfig.

Variable env : gmap string jsstring.
Variable upstream : jsstring -> FetchResult.

(** With a required variable missing the handler answers 500 at once. *)
Lemma handler_missing_env now c name :
  name ∈ requiredEnvVars -> truthy (env !! name) = false ->
  handler env upstream now c = (unavailable, c, []).
Proof.
  intros Hin Hf. unfold handler.
  assert (Hm : name ∈ missingVars env).
  { unfold missingVars. by apply list_elem_of_filter. }
  destruct (missingVars env); [by apply elem_of_nil in Hm|done].
Qed.

Lemma handler_configured now c :
  (forall name, name ∈ requiredEnvVars -> truthy (env !! name) = true) ->
  handler env upstream now c
  = match getOpenIDConfiguration env upstream now c with
    | (inr metadata, c', fetched) =>
        ({| statusCode := 200; body := DocJson metadata |}, c', fetched)
    | (inl _, c', fetched) => (unavailable, c', fetched)
    end.
Proof.
  intros Hall. unfold handler.
  destruct (missingVars env) as [|name rest] eqn:E; [done|].
  assert (Hm : name ∈ missingVars env) by (rewrite E; apply list_elem_of_here).
  unfold missingVars in Hm. apply list_elem_of_filter in Hm as [Hf Hin].
  by rewrite (Hall name Hin) in Hf.
Qed.

(** A cached document that has not expired is returned as it is. *)
Lemma cache_hit now c d :
  cachedConfig c = Some d -> beforeExpiry now (cacheExpiry c) = true ->
  getOpenIDConfiguration env upstream now c = (inr d, c, []).
Proof. intros Hd He. unfold getOpenIDConfiguration. by rewrite Hd, He. Qed.

Lemma cache_miss now c :
  cachedConfig c = None \/ beforeExpiry now (cacheExpiry c) = false ->
  getOpenIDConfiguration env upstream now c = refresh env upstream c.
Proof.
  unfold getOpenIDConfiguration.
  intros [-> | ->]; [done|]. by destruct (cachedConfig c).
Qed.

(** The merge adds the two members and keeps every other one. *)
Lemma enhance_spec (cognitoConfig : Doc) (u : jsstring) :
  env !! "REGISTRATION_ENDPOINT_URL" = Some u ->
  enhance env cognitoConfig !! js "registration_endpoint" = Some (JStr u)
  /\ enhance env cognitoConfig !! js "code_challenge_methods_supported"
     = Some (JArr [JStr (js "S256")])
  /\ forall k, k <> js "registration_endpoint" ->
               k <> js "code_challenge_methods_supported" ->
               enhance env cognitoConfig !! k = cognitoConfig !! k.
Proof.
  intros Hu. unfold enhance. rewrite Hu. split; [|split].
  - rewrite lookup_insert_ne; [by rewrite lookup_insert_eq|].
    intros H; vm_compute in H; discriminate H.
  - by rewrite lookup_insert_eq.
  - intros k H1 H2. by rewrite !lookup_insert_ne.
Qed.

(** What a refresh does with a successful answer. *)
Lemma refresh_ok c r cognitoConfig :
  upstream (cognitoConfigUrl env) = FetchResolves r ->
  ok r = true -> json r = Some (Some cognitoConfig) ->
  validTimeValue (receivedAt r + maxAgeOrDefault (header_cache_control r) * 1000)
  = true ->
  refresh env upstream c
  = (inr (enhance env cognitoConfig),
     {| cachedConfig := Some (enhance env cognitoConfig);
        cacheExpiry := Some (receivedAt r
                             + maxAgeOrDefault (header_cache_control r) * 1000)%Z |},
     [cognitoConfigUrl env]).
Proof.
  intros Hu Hok Hj Hv. unfold refresh. rewrite Hu, Hok, Hj. cbn [negb logCached].
  by rewrite Hv.
Qed.

(** What a refresh does with an answer that is not a success. *)
Lemma refresh_not_ok c r :
  upstream (cognitoConfigUrl env) = FetchResolves r -> ok r = false ->
  exists m, refresh env upstream c = (inl m, c, [cognitoConfigUrl env]).
Proof. intros Hu Hok. unfold refresh. rewrite Hu, Hok. simpl. eauto. Qed.

End ProxyProperties.

(** ** C4 and C5: configuration gating and the metadata document *)

(** C4, as the code has it.  [validateConfiguration] collects every
    violation: its errors are one entry "Missing required environment
    variable: ..." for each of RESOURCE_SERVER_URL, COGNITO_USER_POOL_ID and
    AWS_REGION that is missing or blank, in this order, followed by what the
    format check on RESOURCE_SERVER_URL gives: nothing for an empty value,
    nothing for a URL on http or https, and one entry for a value that does
    not parse or has another protocol; [isValid] holds exactly when there is
    no error.  When one of the three settings is missing or blank the
    protected-resource endpoint answers 503 [service_unavailable].  The
    authorization-server metadata function has an environment and a gate of
    its own: when one of COGNITO_USER_POOL_ID, DEPLOYMENT_REGION and
    REGISTRATION_ENDPOINT_URL is missing or empty there, it answers 500
    without a fetch and without touching its cache. *)
Theorem C4_configuration_gating
    (URL_protocol : jsstring -> option jsstring) (cfg : EnvConfig.Config)
    (env : gmap string jsstring) (upstream : jsstring -> OpenIdConfig.FetchResult)
    (now : Z) (cache : OpenIdConfig.Cache) :
  let v := OAuthMetadata.validateConfiguration URL_protocol cfg in
  let url := EnvConfig.get cfg "RESOURCE_SERVER_URL" None in
  let pool := EnvConfig.get cfg "COGNITO_USER_POOL_ID" None in
  let region := EnvConfig.get cfg "AWS_REGION" None in
  (exists format,
     OAuthMetadata.errors v
     = (if OAuthMetadata.isEmpty url
        then [js "Missing required environment variable: RESOURCE_SERVER_URL"]
        else [])
       ++ (if OAuthMetadata.isEmpty pool
           then [js "Missing required environment variable: COGNITO_USER_POOL_ID"]
           else [])
       ++ (if OAuthMetadata.isEmpty region
           then [js "Missing required environment variable: AWS_REGION"]
           else [])
       ++ format
     /\ (OAuthMetadata.isEmpty url = true -> format = [])
     /\ (OAuthMetadata.isEmpty url = false ->
         (OAuthMetadata.httpOrHttps URL_protocol url -> format = [])
         /\ (URL_protocol (show url) = None ->
             format = [js "Invalid RESOURCE_SERVER_URL format: must be a valid URL"])
         /\ ((exists p, URL_protocol (show url) = Some p
                        /\ p <> js "http:" /\ p <> js "https:") ->
             format
             = [js "Invalid RESOURCE_SERVER_URL format: must use http or https protocol"])))
  /\ (OAuthMetadata.isValid v = true <-> OAuthMetadata.errors v = [])
  /\ (OAuthMetadata.isEmpty url = true \/ OAuthMetadata.isEmpty pool = true
      \/ OAuthMetadata.isEmpty region = true ->
      OAuthMetadata.handleMetadataRequest URL_protocol cfg
      = {| OAuthMetadata.status := 503;
           OAuthMetadata.json :=
             OAuthMetadata.ErrorJson (js "service_unavailable")
               (js "OAuth metadata temporarily unavailable due to configuration error") |})
  /\ ((exists name,
         name ∈ ["COGNITO_USER_POOL_ID"; "DEPLOYMENT_REGION";
                 "REGISTRATION_ENDPOINT_URL"]%string
         /\ truthy (env !! name) = false) ->
      OpenIdConfig.handler env upstream now cache
      = ({| OpenIdConfig.statusCode := 500;
            OpenIdConfig.body :=
              OpenIdConfig.ErrorJson (js "server_error")
                (js "OpenID configuration temporarily unavailable") |},
         cache, [])).
Proof.
  intros v url pool region.
  destruct (formatErrors_spec URL_protocol url) as (F1 & F2 & F3 & F4).
  split.
  { exists (OAuthMetadata.formatErrors URL_protocol url).
    split; [|split; [exact F1|intros E; repeat split; auto]].
    subst v. rewrite validation_errors. fold url pool region.
    unfold OAuthMetadata.missingIf.
    by destruct (OAuthMetadata.isEmpty url), (OAuthMetadata.isEmpty pool),
                (OAuthMetadata.isEmpty region). }
  split; [apply validation_isValid|]. split.
  - intros Hmiss. apply invalid_503.
    destruct (OAuthMetadata.isValid v) eqn:Hv; [|done].
    destruct (valid_inv URL_protocol cfg Hv) as (H1 & H2 & H3 & _).
    fold url in H1. fold pool in H2. fold region in H3.
    destruct Hmiss as [H | [H | H]]; congruence.
  - intros (name & Hin & Hf).
    by apply (handler_missing_env env upstream now cache name).
Qed.

(** C5.  With a valid configuration [generateMetadata] returns the
    document whose [resource] is RESOURCE_SERVER_URL followed by "/mcp",
    whose [authorization_servers] has one element, the proxy URL without a
    final slash when DCR_ENABLED reads "true" in any letter case and
    AUTHORIZATION_SERVER_WITH_DCR_URL is set and not empty, and the Cognito
    issuer URL of the region and the pool otherwise, with the fixed scopes
    and bearer methods; the endpoint serves it with status 200. *)
Theorem C5_generateMetadata
    (URL_protocol : jsstring -> option jsstring) (cfg : EnvConfig.Config) :
  OAuthMetadata.isValid (OAuthMetadata.validateConfiguration URL_protocol cfg) = true ->
  exists url pool region,
    EnvConfig.get cfg "RESOURCE_SERVER_URL" None = Some url
    /\ EnvConfig.get cfg "COGNITO_USER_POOL_ID" None = Some pool
    /\ EnvConfig.get cfg "AWS_REGION" None = Some region
    /\ OAuthMetadata.generateMetadata cfg
       = {| OAuthMetadata.resource := url ++ js "/mcp";
            OAuthMetadata.authorization_servers :=
              [ match EnvConfig.get cfg "AUTHORIZATION_SERVER_WITH_DCR_URL" None with
                | Some (c :: proxy) =>
                    if bool_decide
                         (toLowerCase
                            (default (js "false") (EnvConfig.get cfg "DCR_ENABLED" None))
                          = js "true")
                    then OAuthMetadata.stripTrailingSlash (c :: proxy)
                    else js "https://cognito-idp." ++ region
                         ++ js ".amazonaws.com/" ++ pool
                | _ => js "https://cognito-idp." ++ region
                       ++ js ".amazonaws.com/" ++ pool
                end ];
            OAuthMetadata.scopes_supported := [js "openid"; js "profile"; js "email"];
            OAuthMetadata.bearer_methods_supported := [js "header"] |}
    /\ OAuthMetadata.handleMetadataRequest URL_protocol cfg
       = {| OAuthMetadata.status := 200;
            OAuthMetadata.json :=
              OAuthMetadata.MetadataJson (OAuthMetadata.generateMetadata cfg) |}
    /\ (forall s, OAuthMetadata.stripTrailingSlash (s ++ js "/") = s)
    /\ (forall s, endsWith (js "/") s = false ->
                  OAuthMetadata.stripTrailingSlash s = s).
Proof.
  intros Hv. destruct (valid_inv URL_protocol cfg Hv) as (H1 & H2 & H3 & _).
  destruct (isEmpty_false _ H1) as (url & Hu & _ & Hsu & _).
  destruct (isEmpty_false _ H2) as (pool & Hp & _ & Hsp & _).
  destruct (isEmpty_false _ H3) as (region & Hr & _ & Hsr & _).
  exists url, pool, region. repeat split; try done.
  - unfold OAuthMetadata.generateMetadata. rewrite Hsu, Hsp, Hsr. f_equal.
    assert (Hd : show (EnvConfig.get cfg "DCR_ENABLED" (Some (js "false")))
                 = default (js "false") (EnvConfig.get cfg "DCR_ENABLED" None)).
    { unfold EnvConfig.get.
      destruct (EnvConfig.processEnv cfg !! "DCR_ENABLED"); [done|].
      by destruct (EnvConfig.envFile cfg !! "DCR_ENABLED"). }
    rewrite Hd.
    destruct (EnvConfig.get cfg "AUTHORIZATION_SERVER_WITH_DCR_URL" None)
      as [[|c proxy]|]; simpl; try by rewrite andb_false_r.
    by destruct (bool_decide _).
  - unfold OAuthMetadata.handleMetadataRequest. by rewrite Hv.
  - intros s. unfold OAuthMetadata.stripTrailingSlash.
    change (js "/") with [47]. by rewrite reverse_snoc, reverse_involutive.
  - intros s He. unfold OAuthMetadata.stripTrailingSlash.
    unfold endsWith in He. change (reverse (js "/")) with [47] in He.
    destruct (reverse s) as [|c r]; [done|].
    simpl in He. destruct (N.eqb_spec 47 c) as [<-|Hne]; [done|].
    destruct c as [|p]; [done|].
    do 6 (destruct p as [p|p|]; try done).
Qed.

Lemma C4_witness :
  OAuthMetadata.status (OAuthMetadata.handleMetadataRequest URL_scheme Examples.cfgC)
  = 503%Z
  /\ OpenIdConfig.handler Examples.proxyEnvIncomplete
       (Examples.upstreamOk None 1700000000000) 1700000000000 OpenIdConfig.emptyCache
     = (OpenIdConfig.unavailable, OpenIdConfig.emptyCache, []).
Proof.
  destruct (C4_configuration_gating URL_scheme Examples.cfgC
              Examples.proxyEnvIncomplete (Examples.upstreamOk None 1700000000000)
              1700000000000 OpenIdConfig.emptyCache)
    as (_ & _ & H1 & H2).
  split.
  - rewrite H1; [reflexivity|]. left. vm_compute. reflexivity.
  - apply H2. exists "REGISTRATION_ENDPOINT_URL"%string.
    split; [|vm_compute; reflexivity].
    rewrite !elem_of_cons. auto.
Defined.

(** C4 does not hold as stated for the authorization-server metadata
    function: it reads neither RESOURCE_SERVER_URL nor AWS_REGION, and with
    both absent from its environment it fetches and answers 200. *)
Lemma C4_counterexample :
  let env := Examples.proxyEnv in
  let '(answer, _, fetched) :=
    OpenIdConfig.handler env (Examples.upstreamOk None 1700000000000)
      1700000000000 OpenIdConfig.emptyCache in
  env !! "RESOURCE_SERVER_URL"%string = None
  /\ env !! "AWS_REGION"%string = None
  /\ OpenIdConfig.statusCode answer = 200%Z
  /\ OpenIdConfig.statusCode answer <> 500%Z
  /\ fetched = [OpenIdConfig.cognitoConfigUrl env].
Proof. vm_compute. repeat split; discriminate. Qed.

Lemma C5_witness :
  OAuthMetadata.handleMetadataRequest URL_scheme Examples.cfgB
  = {| OAuthMetadata.status := 200;
       OAuthMetadata.json :=
         OAuthMetadata.MetadataJson
           {| OAuthMetadata.resource := js "https://api.x.com/mcp";
              OAuthMetadata.authorization_servers :=
                [js "https://cognito-idp.us-east-1.amazonaws.com/us-east-1_ABC"];
              OAuthMetadata.scopes_supported := [js "openid"; js "profile"; js "email"];
              OAuthMetadata.bearer_methods_supported := [js "header"] |} |}.
Proof.
  destruct (C5_generateMetadata URL_scheme Examples.cfgB)
    as (url & pool & region & Hu & Hp & Hr & Hg & Hh & _).
  - vm_compute. reflexivity.
  - rewrite Hh. vm_compute. reflexivity.
Defined.

(** ** C6: the cache of the metadata proxy *)

Section ProxyCache.
Import OpenIdConfig.

Variable env : gmap string jsstring.
Variable upstream : jsstring -> FetchResult.

Hypothesis configured :
  forall name, name ∈ requiredEnvVars -> truthy (env !! name) = true.

(** A cached document that has not expired is served without a fetch
    and the cache stays as it is. *)
Lemma proxy_serves_cache_without_fetch now c d :
  cachedConfig c = Some d -> (now < default 0 (cacheExpiry c))%Z ->
  handler env upstream now c = ({| statusCode := 200; body := DocJson d |}, c, []).
Proof.
  intros Hd Hlt. rewrite (handler_configured env upstream now c configured).
  rewrite (cache_hit env upstream now c d Hd); [done|].
  unfold beforeExpiry. by apply Z.ltb_lt.
Qed.

(** On a refresh the upstream document gets the two members, keeps the
    others, and is stored with the expiry computed from the header. *)
Lemma proxy_refresh_merges_two_fields now c r cognitoConfig u :
  cachedConfig c = None \/ (default 0 (cacheExpiry c) <= now)%Z ->
  upstream (cognitoConfigUrl env) = FetchResolves r ->
  ok r = true -> json r = Some (Some cognitoConfig) ->
  validTimeValue (receivedAt r + maxAgeOrDefault (header_cache_control r) * 1000)
  = true ->
  env !! "REGISTRATION_ENDPOINT_URL" = Some u ->
  exists d,
    handler env upstream now c
    = ({| statusCode := 200; body := DocJson d |},
       {| cachedConfig := Some d;
          cacheExpiry := Some (receivedAt r
                               + maxAgeOrDefault (header_cache_control r) * 1000)%Z |},
       [cognitoConfigUrl env])
    /\ d !! js "registration_endpoint" = Some (JStr u)
    /\ d !! js "code_challenge_methods_supported" = Some (JArr [JStr (js "S256")])
    /\ forall k, k <> js "registration_endpoint" ->
                 k <> js "code_challenge_methods_supported" ->
                 d !! k = cognitoConfig !! k.
Proof.
  intros Hc Hu Hok Hj Hv He. exists (enhance env cognitoConfig).
  split; [|by apply enhance_spec].
  rewrite (handler_configured env upstream now c configured).
  rewrite cache_miss.
  - by rewrite (refresh_ok env upstream c r cognitoConfig Hu Hok Hj Hv).
  - destruct Hc as [Hc|Hc]; [by left|right].
    unfold beforeExpiry. by apply Z.ltb_ge.
Qed.

(** The lifetime is the [max-age] of the header when that is a positive
    number, and 3600 seconds when the header has none. *)
Lemma proxy_expiry_from_max_age (cacheControl : option jsstring) :
  (forall n, parseCacheControl cacheControl = Some n -> n <> 0%Z ->
             maxAgeOrDefault cacheControl = n)
  /\ (parseCacheControl cacheControl = None ->
      maxAgeOrDefault cacheControl = 3600%Z).
Proof.
  unfold maxAgeOrDefault. split.
  - intros n -> Hn. by apply Z.eqb_neq in Hn as ->.
  - by intros ->.
Qed.

(** An upstream answer that is not a success gives the fixed 500, which
    has no part of the upstream text, and leaves the cache alone. *)
Lemma proxy_failure_is_generic_500 now c r :
  cachedConfig c = None \/ (default 0 (cacheExpiry c) <= now)%Z ->
  upstream (cognitoConfigUrl env) = FetchResolves r -> ok r = false ->
  handler env upstream now c
  = (createErrorResponse 500 (js "server_error")
       (js "OpenID configuration temporarily unavailable"),
     c, [cognitoConfigUrl env]).
Proof.
  intros Hc Hu Hok.
  rewrite (handler_configured env upstream now c configured).
  rewrite cache_miss.
  - unfold refresh. by rewrite Hu, Hok.
  - destruct Hc as [Hc|Hc]; [by left|right].
    unfold beforeExpiry. by apply Z.ltb_ge.
Qed.

End ProxyCache.

(** C6 fails on the lifetime of the cache.  The upstream answers with
    [Cache-Control: max-age=0]: the header is parsed to 0, but the document
    is stored for 3600 seconds, and a request one second later is served
    from the cache without a fetch. *)
Theorem C6_max_age_zero_is_cached_for_an_hour :
  let t0 := 1700000000000%Z in
  let up := Examples.upstreamOk (Some (js "max-age=0")) t0 in
  let '(r1, c1, f1) := OpenIdConfig.handler Examples.proxyEnv up t0
                         OpenIdConfig.emptyCache in
  let '(r2, c2, f2) := OpenIdConfig.handler Examples.proxyEnv up (t0 + 1000)%Z c1 in
  OpenIdConfig.parseCacheControl (Some (js "max-age=0")) = Some 0%Z
  /\ OpenIdConfig.statusCode r1 = 200%Z /\ length f1 = 1%nat
  /\ OpenIdConfig.cacheExpiry c1 = Some (t0 + 3600 * 1000)%Z
  /\ OpenIdConfig.cacheExpiry c1 <> Some (t0 + 0 * 1000)%Z
  /\ r2 = r1 /\ f2 = [].
Proof. vm_compute. repeat split; discriminate. Qed.

(** ** C2: how verification failures are classified *)

Section VerifierProperties.
Import EnvConfig JwtVerifier.

Variable cfg : Config.

(** The classifications are pairwise different texts. *)
Lemma classifications_distinct :
  expiredMessage <> unknownKeyMessage /\ expiredMessage <> malformedMessage
  /\ malformedMessage <> unknownKeyMessage.
Proof. repeat split; intros H; vm_compute in H; discriminate H. Qed.

Lemma classify_expired (e : JsError) :
  name e = js "TokenExpiredError" ->
  classify e = InvalidTokenError expiredMessage.
Proof. intros H. unfold classify. by rewrite H. Qed.

(** An error named JsonWebTokenError is classified by its name, whatever
    its message says. *)
Lemma classify_JsonWebTokenError (m : jsstring) :
  classify (JsonWebTokenError m) = InvalidTokenError malformedMessage.
Proof. done. Qed.

(** The "signing key" branch is for errors of another name. *)
Lemma classify_signing_key (e : JsError) :
  name e <> js "TokenExpiredError" -> name e <> js "JsonWebTokenError" ->
  name e <> js "NotBeforeError" ->
  includes (js "signing key") (message e) = true ->
  classify e = InvalidTokenError unknownKeyMessage.
Proof.
  intros H1 H2 H3 Hm. unfold classify.
  by rewrite !bool_decide_eq_false_2, Hm.
Qed.

(** The error jwks-rsa raises for a key id that is not published would
    be classified as an unknown signing key if it reached the handler as it
    is. *)
Lemma classify_SigningKeyNotFoundError keys kid e :
  keys !! kid = None -> getSigningKey (JwksKeys keys) (Some kid) = inl e ->
  classify e = InvalidTokenError unknownKeyMessage.
Proof.
  intros Hk. unfold getSigningKey. rewrite Hk. intros [= <-].
  apply classify_signing_key; simpl;
    try (intros H; vm_compute in H; discriminate H).
  change (js "Unable to find a signing key that matches '" ++ kid ++ js "'")
    with (js "Unable to find a " ++ (js "signing key" ++ js " that matches '"
          ++ kid ++ js "'")).
  generalize (js " that matches '" ++ kid ++ js "'"). intros tl.
  vm_compute. destruct tl; reflexivity.
Qed.

(** A token whose key id is not published: the verification is rejected
    with a JsonWebTokenError, and [processJwt] classifies it as a token of
    invalid format or signature. *)
Lemma unknown_key_id_outcome keys clock (t : Token) id :
  truthy (get cfg "COGNITO_USER_POOL_ID" None) = true ->
  decoding t = Decodes -> kid t = Some id -> keys !! id = None ->
  (exists m, verifyToken cfg (JwksKeys keys) clock t = inl (JsonWebTokenError m)
             /\ includes (js "signing key") m = true)
  /\ processJwt cfg (JwksKeys keys) clock t = inl (InvalidTokenError malformedMessage).
Proof.
  intros Hp Hd Hi Hk. unfold processJwt, verifyToken, jwt_verify, getSigningKey.
  rewrite Hp, Hd, Hi, Hk. simpl. split; [|done].
  eexists. split; [reflexivity|].
  change (js "error in secret or public key callback: "
          ++ js "Unable to find a signing key that matches '" ++ id ++ js "'")
    with (js "error in secret or public key callback: Unable to find a "
          ++ (js "signing key" ++ js " that matches '" ++ id ++ js "'")).
  generalize (js " that matches '" ++ id ++ js "'"). intros tl.
  vm_compute. destruct tl; reflexivity.
Qed.

(** A token signed with a published key, active, and past its [exp], is
    classified as expired. *)
Lemma expired_token_outcome keys clock (t : Token) id key e :
  truthy (get cfg "COGNITO_USER_POOL_ID" None) = true ->
  decoding t = Decodes -> kid t = Some id -> keys !! id = Some key ->
  alg t = js "RS256" -> verifiesWith t key = true ->
  notBeforeError clock (claims t) = None ->
  exp (claims t) = Some e -> (e <= clock)%Z ->
  processJwt cfg (JwksKeys keys) clock t = inl (InvalidTokenError expiredMessage).
Proof.
  intros Hp Hd Hi Hk Ha Hv Hn He Hle.
  unfold processJwt, verifyToken, jwt_verify, getSigningKey, expiredError.
  rewrite Hp, Hd, Hi, Hk, Ha, Hv, Hn, He. simpl.
  apply Z.leb_le in Hle. rewrite Hle. by rewrite classify_expired.
Qed.

End VerifierProperties.

(** C2 fails on the unknown key id.  The issuer publishes "key-1"; the
    token names "key-9".  The JWKS client raises its SigningKeyNotFoundError,
    whose message speaks of a signing key; [jwt.verify] hands it on as a
    JsonWebTokenError, and [processJwt] answers with the classification of a
    token of invalid format or signature, not with the one for an unknown
    signing key.  A token signed with the published key and past its [exp]
    is classified as expired. *)
Theorem C2_unknown_key_id_is_classified_as_invalid_format :
  let r := JwtVerifier.processJwt Examples.verifierCfg Examples.publishedKeys
             1700000000 Examples.unknownKeyToken in
  JwtVerifier.getSigningKey Examples.publishedKeys
    (JwtVerifier.kid Examples.unknownKeyToken)
  = inl {| JwtVerifier.name := js "SigningKeyNotFoundError";
           JwtVerifier.message := js "Unable to find a signing key that matches 'key-9'" |}
  /\ JwtVerifier.verifyToken Examples.verifierCfg Examples.publishedKeys
       1700000000 Examples.unknownKeyToken
     = inl (JwtVerifier.JsonWebTokenError
              (js "error in secret or public key callback: Unable to find a signing key that matches 'key-9'"))
  /\ r = inl (JwtVerifier.InvalidTokenError JwtVerifier.malformedMessage)
  /\ r <> inl (JwtVerifier.InvalidTokenError JwtVerifier.unknownKeyMessage)
  /\ JwtVerifier.processJwt Examples.verifierCfg Examples.publishedKeys
       1700000000 (Examples.signedToken 1699999999)
     = inl (JwtVerifier.InvalidTokenError JwtVerifier.expiredMessage).
Proof. vm_compute. repeat split; discriminate. Qed.

(** ** C1: the tenant of a credential derivation *)

Section TenantProperties.
Import JwtVerifier Tenant.

Variable aws : Aws.
Variable ROLE_ARN : option jsstring.

Local Abbreviation commandFor := (Tenant.commandFor ROLE_ARN).
Local Abbreviation boundTo := (Tenant.boundTo ROLE_ARN).

Lemma boundTo_nil T : boundTo T [].
Proof. intros cmd H. by apply elem_of_nil in H. Qed.

Lemma assumeTenantRole_trace T :
  trace (assumeTenantRole aws ROLE_ARN T) = [AssumeRole (commandFor T)].
Proof.
  unfold assumeTenantRole. fold (Tenant.commandFor ROLE_ARN T).
  by destruct (sts aws (commandFor T)) as [m|[c|]].
Qed.

(** A derivation followed by calls that assume no role. *)
Lemma boundTo_after_assume {A} T (k : Credentials -> M A) :
  (forall c cmd, AssumeRole cmd ∉ trace (k c)) ->
  boundTo T (trace (bind (assumeTenantRole aws ROLE_ARN T) k)).
Proof.
  intros Hk cmd. unfold bind, trace.
  pose proof (assumeTenantRole_trace T) as Ht. unfold trace in Ht.
  destruct (assumeTenantRole aws ROLE_ARN T) as [t [e|c]]; simpl in *; subst t.
  - rewrite list_elem_of_singleton. by intros [= ->].
  - specialize (Hk c cmd). unfold trace in Hk.
    destruct (k c) as [t' r]. simpl in *.
    rewrite elem_of_cons. intros [[= ->]|H]; [done|]. by apply Hk in H.
Qed.

Lemma trace_rethrow {A} (m : M A) f : trace (rethrow m f) = trace m.
Proof. by destruct m as [t [e|a]]. Qed.

Lemma getS3File_bound filename T :
  boundTo T (trace (getS3File aws ROLE_ARN filename T)).
Proof.
  unfold getS3File, getS3Client. rewrite trace_rethrow.
  apply boundTo_after_assume. intros c cmd.
  destruct (s3_get aws c _); simpl; rewrite list_elem_of_singleton; discriminate.
Qed.

Lemma listTenantResources_bound T :
  boundTo T (trace (listTenantResources aws ROLE_ARN T)).
Proof.
  unfold listTenantResources, getS3Client. rewrite trace_rethrow.
  apply boundTo_after_assume. intros c cmd.
  destruct (s3_list aws c _); simpl; rewrite list_elem_of_singleton; discriminate.
Qed.

Lemma queryBookings_bound T sk :
  boundTo T (trace (queryBookings aws ROLE_ARN T sk)).
Proof.
  unfold queryBookings, getDynamoDbClient.
  apply boundTo_after_assume. intros c cmd.
  destruct (dynamo_query aws c _ _); simpl; rewrite list_elem_of_singleton;
    discriminate.
Qed.

Lemma createBooking_bound kind T bookingId :
  boundTo T (trace (createBooking aws ROLE_ARN kind T bookingId)).
Proof.
  unfold createBooking, getDynamoDbClient.
  apply boundTo_after_assume. intros c cmd.
  destruct (dynamo_put aws c _ _); simpl; rewrite list_elem_of_singleton;
    discriminate.
Qed.

(** Whatever the request and its parameters, the role assumptions made
    while serving it are those of the tenant of the AuthInfo. *)
Lemma serve_bound (authInfo : AuthInfo) (r : Request) :
  boundTo (extra_tenantId (extra authInfo)) (serve aws ROLE_ARN authInfo r).
Proof.
  destruct r as [t f| |type id|sc b|sc b|]; cbn [serve].
  - unfold readTenantFile. destruct (negb _); [apply boundTo_nil|].
    apply getS3File_bound.
  - apply listTenantResources_bound.
  - unfold listBookings, getBookingById, getBookingsByTenant,
      getBookingsByTenantAndType.
    destruct id; [apply queryBookings_bound|].
    destruct type; [|apply queryBookings_bound].
    destruct (bool_decide _); apply queryBookings_bound.
  - unfold bookFlight. destruct (_ =? _)%Z;
      [apply createBooking_bound | apply boundTo_nil].
  - unfold bookHotel. destruct (_ =? _)%Z;
      [apply createBooking_bound | apply boundTo_nil].
  - apply boundTo_nil.
Qed.

(** The tenant of the AuthInfo is the one the verified claims name. *)
Lemma processJwt_tenant cfg jwks clock (t : Token) authInfo :
  processJwt cfg jwks clock t = inr authInfo ->
  verifyToken cfg jwks clock t = inr (claims t)
  /\ extra_tenantId (extra authInfo)
     = default [] (orElse (custom_tenantId (claims t)) (tenantId (claims t))).
Proof.
  unfold processJwt. destruct (verifyToken cfg jwks clock t) as [e|c] eqn:Hv; [done|].
  assert (c = claims t) as ->.
  { unfold verifyToken, jwt_verify in Hv.
    repeat match type of Hv with
           | context [if ?b then _ else _] => destruct b; try discriminate Hv
           | context [match ?x with _ => _ end] => destruct x; try discriminate Hv
           end; congruence. }
  unfold buildAuthInfo. destruct (scope (claims t)); [|done].
  by intros [= <-].
Qed.

End TenantProperties.

(** C1.  When the bearer token verified, the tenant of the request is the
    one its claims name, and every role assumption made while the request
    is served, whatever the request and whatever its parameters, has the
    session name "tenant-" + T + "-session" and the single session tag
    tenantId = T for that tenant T.  A read of [s3://{tenantId}/{filename}]
    that names another tenant in its path assumes no role at all; one that
    names T starts with the role assumption for T. *)
Theorem C1_tenant_binding
    (cfg : EnvConfig.Config) (jwks : JwtVerifier.SigningKeySet) (clock : Z)
    (t : JwtVerifier.Token) (authInfo : JwtVerifier.AuthInfo)
    (aws : Tenant.Aws) (ROLE_ARN : option jsstring) :
  JwtVerifier.processJwt cfg jwks clock t = inr authInfo ->
  let T := default [] (JwtVerifier.orElse
                         (JwtVerifier.custom_tenantId (JwtVerifier.claims t))
                         (JwtVerifier.tenantId (JwtVerifier.claims t))) in
  JwtVerifier.extra_tenantId (JwtVerifier.extra authInfo) = T
  /\ (forall (r : Tenant.Request) cmd,
        Tenant.AssumeRole cmd ∈ Tenant.serve aws ROLE_ARN authInfo r ->
        Tenant.RoleSessionName cmd = js "tenant-" ++ T ++ js "-session"
        /\ Tenant.Tags cmd = [ {| Tenant.Key := js "tenantId"; Tenant.Value := T |} ]
        /\ Tenant.RoleArn cmd = ROLE_ARN)
  /\ (forall other filename, other <> T ->
        Tenant.serve aws ROLE_ARN authInfo (Tenant.ReadResource other filename) = [])
  /\ (forall filename, exists rest,
        Tenant.serve aws ROLE_ARN authInfo (Tenant.ReadResource T filename)
        = Tenant.AssumeRole
            {| Tenant.RoleArn := ROLE_ARN;
               Tenant.RoleSessionName := js "tenant-" ++ T ++ js "-session";
               Tenant.Tags := [ {| Tenant.Key := js "tenantId"; Tenant.Value := T |} ] |}
          :: rest).
Proof.
  intros Hv T. destruct (processJwt_tenant cfg jwks clock t authInfo Hv) as [_ HT].
  fold T in HT. split; [exact HT|]. split; [|split].
  - intros r cmd Hin.
    rewrite (serve_bound aws ROLE_ARN authInfo r cmd Hin), HT. by repeat split.
  - intros other filename Hne. cbn [Tenant.serve]. unfold Tenant.readTenantFile.
    rewrite HT. by rewrite bool_decide_eq_false_2.
  - intros filename. cbn [Tenant.serve]. unfold Tenant.readTenantFile.
    rewrite HT. rewrite bool_decide_eq_true_2 by done. cbn [negb].
    unfold Tenant.getS3File, Tenant.getS3Client. rewrite trace_rethrow.
    unfold Tenant.bind, Tenant.trace.
    pose proof (assumeTenantRole_trace aws ROLE_ARN T) as Ht.
    unfold Tenant.trace in Ht.
    destruct (Tenant.assumeTenantRole aws ROLE_ARN T) as [tr [e|c]];
      simpl in *; subst tr; [by eexists|].
    destruct (Tenant.s3_get aws c _); simpl; by eexists.
Qed.

Lemma C1_witness :
  exists authInfo,
    JwtVerifier.processJwt Examples.verifierCfg Examples.publishedKeys 1700000000
      (Examples.signedToken 1700003600) = inr authInfo
    /\ Tenant.serve Examples.awsUp (Some (js "arn:aws:iam::1:role/data")) authInfo
         (Tenant.ReadResource (js "globex") (js "policy.md")) = []
    /\ forall cmd,
         Tenant.AssumeRole cmd
           ∈ Tenant.serve Examples.awsUp (Some (js "arn:aws:iam::1:role/data")) authInfo
               (Tenant.ListBookings None (Some (js "ABC123"))) ->
         Tenant.Tags cmd = [ {| Tenant.Key := js "tenantId"; Tenant.Value := js "acme" |} ].
Proof.
  eexists. split; [vm_compute; reflexivity|].
  match goal with
  | |- context [Tenant.serve _ _ ?a _] =>
      destruct (C1_tenant_binding Examples.verifierCfg Examples.publishedKeys
                  1700000000 (Examples.signedToken 1700003600) a Examples.awsUp
                  (Some (js "arn:aws:iam::1:role/data")))
        as (_ & H1 & H2 & _); [vm_compute; reflexivity|]
  end.
  split.
  - apply H2. vm_compute. discriminate.
  - intros cmd Hin. by destruct (H1 _ cmd Hin) as (_ & Htags & _).
Defined.

(* ===================================================================== *)
(** * Further properties of the code *)
(* ===================================================================== *)

(** ** The registrar *)

Section DcrFurther.
Import Dcr DcrState.

Variable URL_protocol : jsstring -> option jsstring.

Local Abbreviation verdict := (Dcr.verdict URL_protocol).
Local Abbreviation acceptable := (Dcr.acceptable URL_protocol).

Lemma verdict_None_inv e :
  verdict e = None -> exists u, e = EStr u /\ acceptable u.
Proof.
  destruct e as [u|t]; cbn [Dcr.verdict]; [|done].
  destruct (URL_protocol u) as [p|] eqn:Hp; [|done].
  destruct (startsWith (js "https://") u || startsWith (js "http://localhost") u)
    eqn:Hs; [|done].
  intros _. exists u. split; [done|]. split; [by exists p|done].
Qed.

Lemma checkRedirectUris_None_inv entries :
  checkRedirectUris URL_protocol entries = None ->
  exists uris, entries = EStr <$> uris /\ Forall acceptable uris.
Proof.
  induction entries as [|e rest IH]; [by exists []|].
  rewrite checkRedirectUris_cons.
  destruct (verdict e) as [r|] eqn:He; [done|].
  intros Hrest. destruct (verdict_None_inv e He) as (u & -> & Hu).
  destruct (IH Hrest) as (uris & -> & Hall).
  exists (u :: uris). split; [done|]. by constructor.
Qed.

Lemma validateRedirectUris_None_inv (r : RedirectUris) :
  validateRedirectUris URL_protocol r = None ->
  exists uris, uris <> [] /\ r = RuArray (EStr <$> uris)
               /\ Forall acceptable uris.
Proof.
  destruct r as [| |[|e rest]]; try done.
  rewrite validateRedirectUris_cons. intros H.
  destruct (checkRedirectUris_None_inv _ H) as (uris & Heq & Hall).
  exists uris. split; [by destruct uris|]. by rewrite Heq.
Qed.

(** The validation of [redirect_uris] passes exactly for a non-empty
    array of strings each of which parses as a URL and begins with
    "https://" or "http://localhost". *)
Theorem validateRedirectUris_passes_iff (r : RedirectUris) :
  validateRedirectUris URL_protocol r = None
  <-> exists uris, uris <> [] /\ r = RuArray (EStr <$> uris)
                   /\ Forall acceptable uris.
Proof.
  split.
  - apply validateRedirectUris_None_inv.
  - intros ([|u uris] & Hne & -> & Hall); [done|].
    rewrite fmap_cons, validateRedirectUris_cons, <- fmap_cons.
    by apply checkRedirectUris_all_acceptable.
Qed.

(** A 201 is always the registration document of some client, built for
    the object the request carried. *)
Lemma handler_201_inv poolId up now w event :
  statusCode (response (handler URL_protocol poolId up now w event)) = 201%Z ->
  exists b c, body event = BodyObject b
              /\ validateRedirectUris URL_protocol (redirect_uris b) = None
              /\ response (handler URL_protocol poolId up now w event)
                 = jsonResponse 201 (registrationBody now b c).
Proof.
  unfold handler.
  destruct (negb (bool_decide (httpMethod event = js "POST"))); [done|].
  destruct (negb (bool_decide (contentTypeOf event = Some (js "application/json"))));
    [done|].
  destruct (body event) as [|b]; [done|].
  destruct (negb (truthy poolId)); [done|].
  destruct (validateRedirectUris URL_protocol (redirect_uris b)) as [r|] eqn:Hv.
  - unfold validateRedirectUris in Hv.
    assert (Hs : statusCode r = 400%Z).
    { destruct (redirect_uris b) as [| |[|e rest]]; try by injection Hv as <-.
      clear -Hv. revert Hv. generalize (e :: rest). intros l.
      induction l as [|e' l IH]; [done|]. rewrite checkRedirectUris_cons.
      destruct (verdict e') as [r'|] eqn:He; [|exact IH].
      intros [= <-]. destruct e' as [u|t]; cbn [Dcr.verdict] in He.
      - destruct (URL_protocol u); [|by injection He as <-].
        destruct (_ || _); [done|by injection He as <-].
      - by injection He as <-. }
    cbn [respond response]. rewrite Hs. done.
  - destruct (_ && _); [done|].
    intros H201. exists b. unfold register in *.
    destruct (findExistingPublicClient _ _ _ _) as [[[c|] t1] l1].
    + by exists c.
    + destruct (create_id up) as [id|]; [|done].
      destruct (storePublicClient _ _ _ _ _ _) as [[w2 t2] l2].
      destruct (createBranding _ _). by exists (newClient b id).
Qed.

Ltac js_ne := let H := fresh in intros H; vm_compute in H; discriminate H.

(** A member the handler destructures is not an extension parameter, is
    no internationalized name, and is not among the echoed optional ones
    unless it is one of those nine. *)
Lemma destructured_not_spread (b : Body) (k : jsstring) :
  k ∈ destructuredNames -> k ∉ optionalNames ->
  startsWith (js "client_name#") k = false ->
  forall m : gmap jsstring JSON,
    (extensionParams b ∪ (i18nNames b ∪ (providedOptional b ∪ m))) !! k = m !! k.
Proof.
  intros Hd Ho Hi m.
  rewrite lookup_union_r.
  2:{ apply map_lookup_filter_None. right. intros x _ Hn. by apply Hn. }
  rewrite lookup_union_r.
  2:{ apply map_lookup_filter_None. right. intros x _ Hp. cbn [fst] in Hp.
      by rewrite Hi in Hp. }
  rewrite lookup_union_r; [done|].
  apply map_lookup_filter_None. right. by intros x _ [Hin _].
Qed.

Lemma uriList_strings (uris : list jsstring) :
  uriList (RuArray (EStr <$> uris)) = uris.
Proof.
  cbn [uriList]. induction uris as [|u l IH]; [done|].
  rewrite !fmap_cons. cbn [entryText]. by rewrite IH.
Qed.

(** Whatever the request asked for, a 201 says
    [token_endpoint_auth_method: "none"] and echoes the redirect URIs and
    the grant and response types the handler worked with: no member of the
    request can replace them. *)
Theorem registered_members_are_forced poolId up now w event :
  let o := handler URL_protocol poolId up now w event in
  statusCode (response o) = 201%Z ->
  exists b uris,
    body event = BodyObject b
    /\ redirect_uris b = RuArray (EStr <$> uris)
    /\ payload (response o) !! js "token_endpoint_auth_method" = Some (JStr (js "none"))
    /\ payload (response o) !! js "redirect_uris" = Some (JStrs uris)
    /\ payload (response o) !! js "grant_types"
       = Some (JStrs (default [js "authorization_code"] (grant_types b)))
    /\ payload (response o) !! js "response_types"
       = Some (JStrs (default [js "code"] (response_types b))).
Proof.
  intros o H201. destruct (handler_201_inv _ _ _ _ _ H201) as (b & c & Hb & Hv & Hr).
  apply validateRedirectUris_None_inv in Hv as (uris & _ & Hu & _).
  exists b, uris. split; [done|]. split; [done|].
  subst o. rewrite Hr. cbn [payload jsonResponse].
  unfold registrationBody, registrationDocument.
  assert (Hlist : uriList (redirect_uris b) = uris).
  { rewrite Hu. apply uriList_strings. }
  rewrite Hlist.
  repeat split;
    (rewrite destructured_not_spread;
     [ rewrite !setIf_lookup_ne by js_ne;
       repeat (first [rewrite lookup_insert_eq; reflexivity
                     | rewrite lookup_insert_ne by js_ne])
     | unfold destructuredNames, optionalNames; cbn [app];
       rewrite !elem_of_cons; auto 10
     | unfold optionalNames; rewrite !elem_of_cons, elem_of_nil;
       intros Hin; repeat (destruct Hin as [Hin|Hin];
                           [vm_compute in Hin; discriminate Hin|]); done
     | vm_compute; reflexivity ]).
Qed.

(** Every answer of the registrar forbids caching and has one of four
    statuses. *)
Theorem every_answer_is_no_store poolId up now w event :
  let o := handler URL_protocol poolId up now w event in
  cacheControl (response o) = js "no-store"
  /\ statusCode (response o) ∈ statuses.
Proof.
  intros o. subst o. unfold handler, statuses.
  destruct (negb (bool_decide (httpMethod event = js "POST")));
    [cbn; split; [done|set_solver]|].
  destruct (negb (bool_decide (contentTypeOf event = Some (js "application/json"))));
    [cbn; split; [done|set_solver]|].
  destruct (body event) as [|b]; [cbn; split; [done|set_solver]|].
  destruct (negb (truthy poolId)); [cbn; split; [done|set_solver]|].
  destruct (validateRedirectUris URL_protocol (redirect_uris b)) as [r|] eqn:Hv.
  - cbn [respond response].
    assert (Hr : exists d, r = invalidRedirectUri d).
    { unfold validateRedirectUris in Hv.
      destruct (redirect_uris b) as [| |[|e rest]];
        try (injection Hv as <-; by eexists).
      revert Hv. generalize (e :: rest). intros l.
      induction l as [|e' l IH]; [done|]. rewrite checkRedirectUris_cons.
      destruct (verdict e') as [r'|] eqn:He; [|exact IH].
      intros [= <-]. destruct e' as [u|t]; cbn [Dcr.verdict] in He.
      - destruct (URL_protocol u); [|injection He as <-; by eexists].
        destruct (_ || _); [done|injection He as <-; by eexists].
      - injection He as <-. by eexists. }
    destruct Hr as [d ->]. cbn. split; [done|set_solver].
  - destruct (_ && _); [cbn; split; [done|set_solver]|].
    unfold register.
    destruct (findExistingPublicClient _ _ _ _) as [[[c|] t1] l1];
      [cbn; split; [done|set_solver]|].
    destruct (create_id up) as [id|]; [|cbn; split; [done|set_solver]].
    destruct (storePublicClient _ _ _ _ _ _) as [[w2 t2] l2].
    destruct (createBranding _ _). cbn. split; [done|set_solver].
Qed.

(** What an invocation does to the stores: nothing unless it answers 201;
    the dedup table changes at most at the key of the request, the pool at
    most at the id Cognito gave; and the rows of the table keep naming
    clients of the pool. *)
Theorem handler_frame poolId up now w event :
  let o := handler URL_protocol poolId up now w event in
  (statusCode (response o) <> 201%Z -> world o = w)
  /\ (forall k, keyOf event <> Some k -> table (world o) !! k = table w !! k)
  /\ (forall id, create_id up <> Some id -> pool (world o) !! id = pool w !! id)
  /\ (consistent w -> consistent (world o)).
Proof.
  intros o. subst o. unfold handler, keyOf.
  destruct (negb (bool_decide (httpMethod event = js "POST"))); [done|].
  destruct (negb (bool_decide (contentTypeOf event = Some (js "application/json"))));
    [done|].
  destruct (body event) as [|b]; [done|].
  destruct (negb (truthy poolId)); [done|].
  destruct (validateRedirectUris URL_protocol (redirect_uris b)) as [r|]; [done|].
  destruct (_ && _); [done|].
  unfold register.
  destruct (findExistingPublicClient _ _ _ _) as [[[c|] t1] l1]; [done|].
  destruct (create_id up) as [id|]; [|done].
  unfold storePublicClient, createBranding.
  destruct (putItem_ok up), (branding_ok up); cbn;
    (split; [done|]); (split; [|split]).
  all: try (intros k Hk; rewrite lookup_insert_ne; [done|congruence]).
  all: try (intros id' Hid; rewrite lookup_insert_ne; [done|congruence]).
  all: try done.
  all: intros Hcons key item; cbn.
  1,2: rewrite lookup_insert; case_decide as Hk;
       [ intros [= <-]; cbn; rewrite lookup_insert_eq; by eexists
       | intros Hi; destruct (decide (id = clientId item)) as [<-|Hne];
         [ rewrite lookup_insert_eq; by eexists
         | rewrite lookup_insert_ne by done; by eapply Hcons ] ].
  1,2: intros Hi; destruct (decide (id = clientId item)) as [<-|Hne];
       [ rewrite lookup_insert_eq; by eexists
       | rewrite lookup_insert_ne by done; by eapply Hcons ].
Qed.

(** The dedup key cannot tell a list of URIs from the single URI that is
    their sorted, comma-joined text. *)
Lemma createClientKey_joined (clientName : option jsstring) (uris : list jsstring) :
  createClientKey clientName [join (js ",") (sort uris)]
  = createClientKey clientName uris.
Proof. reflexivity. Qed.

(** Two registrations under one client name, the first for a list of
    redirect URIs and the second for the one URI that is their sorted,
    comma-joined text, share a dedup entry: the second is answered from the
    client of the first and no client is created for it. *)
Theorem registrations_collide_on_commas
    poolId up1 up2 now1 now2 w0 event1 event2 b1 b2 uris :
  validRegistration URL_protocol poolId event1 b1 ->
  validRegistration URL_protocol poolId event2 b2 ->
  client_name b2 = client_name b1 ->
  redirect_uris b1 = RuArray (EStr <$> uris) ->
  redirect_uris b2 = RuArray [EStr (join (js ",") (sort uris))] ->
  is_Some (create_id up1) -> putItem_ok up1 = true ->
  getItem_ok up2 = true -> describe_ok up2 = true ->
  let o1 := handler URL_protocol poolId up1 now1 w0 event1 in
  let o2 := handler URL_protocol poolId up2 now2 (world o1) event2 in
  exists c,
    payload (response o1) = registrationBody now1 b1 c
    /\ payload (response o2) = registrationBody now2 b2 c
    /\ statusCode (response o2) = 201%Z
    /\ filter (fun c => isCreate c = true) (calls o2) = []
    /\ world o2 = world o1.
Proof.
  intros Hv1 Hv2 Hn Hu1 Hu2 [id Hid] Hput Hget Hdesc o1 o2.
  assert (Hkey : createClientKey (client_name b2) (uriList (redirect_uris b2))
                 = createClientKey (client_name b1) (uriList (redirect_uris b1))).
  { rewrite Hn, Hu1, Hu2, uriList_strings. apply createClientKey_joined. }
  assert (exists item c,
    table (world o1) !! createClientKey (client_name b1) (uriList (redirect_uris b1))
      = Some item
    /\ pool (world o1) !! clientId item = Some c
    /\ response o1 = jsonResponse 201 (registrationBody now1 b1 c))
    as (item & c & Ht & Hp & Hr1).
  { subst o1. rewrite (handler_valid _ _ _ _ _ _ _ Hv1).
    destruct (findExistingPublicClient up1 w0 (uriList (redirect_uris b1))
                (client_name b1)).1.1 as [c|] eqn:Hf.
    - destruct (register_found _ now1 _ _ _ Hf) as (Hr & Hw & item & Ht & Hp).
      exists item, c. by rewrite Hw.
    - destruct (register_create _ now1 _ _ _ Hf Hid) as (Hr & Hp & Ht).
      eexists _, _. split; [by apply Ht|]. by split. }
  rewrite <- Hkey in Ht.
  exists c. subst o2. rewrite (handler_valid _ _ _ _ _ _ _ Hv2).
  rewrite (register_replay _ now2 _ _ _ _ Hget Hdesc Ht Hp), Hr1.
  by repeat split.
Qed.


(** A dedup read that fails is taken for a miss.  When the read fails, or
    the client of the row cannot be described, the registration creates a
    client anew although the table had a row for the key, and a successful
    write re-points the row to the new client, which later registrations
    are answered from. *)
Theorem failed_lookup_creates_anew poolId up now w event b item id :
  validRegistration URL_protocol poolId event b ->
  let key := createClientKey (client_name b) (uriList (redirect_uris b)) in
  table w !! key = Some item ->
  getItem_ok up = false \/ describe_ok up = false \/ pool w !! clientId item = None ->
  create_id up = Some id -> putItem_ok up = true ->
  let o := handler URL_protocol poolId up now w event in
  statusCode (response o) = 201%Z
  /\ payload (response o) = registrationBody now b (newClient b id)
  /\ (exists c, c ∈ calls o /\ isCreate c = true)
  /\ table (world o) !! key = Some {| clientId := id; createdAt := now |}
  /\ pool (world o) !! id = Some (newClient b id)
  /\ forall up' now',
       getItem_ok up' = true -> describe_ok up' = true ->
       response (handler URL_protocol poolId up' now' (world o) event)
       = jsonResponse 201 (registrationBody now' b (newClient b id)).
Proof.
  intros Hv key Ht Hfail Hc Hput o.
  assert (Hf : (findExistingPublicClient up w (uriList (redirect_uris b))
                  (client_name b)).1.1 = None).
  { unfold findExistingPublicClient. fold key. rewrite Ht.
    destruct (getItem_ok up); [|done]. destruct (describe_ok up); [|done].
    destruct Hfail as [H|[H|H]]; try done. by rewrite H. }
  destruct (register_create up now w b id Hf Hc) as (Hr & Hp & Htab).
  subst o. rewrite (handler_valid _ _ _ _ _ _ _ Hv), Hr.
  split; [done|]. split; [done|]. split.
  - unfold register.
    destruct (findExistingPublicClient _ _ _ _) as [[e t1] l1]. simpl in Hf. subst e.
    rewrite Hc. unfold storePublicClient, createBranding. rewrite Hput.
    destruct (branding_ok up); cbn; eexists;
      (split; [apply elem_of_app; right; apply list_elem_of_here|reflexivity]).
  - split; [by apply Htab|]. split; [done|].
    intros up' now' Hg Hd. rewrite (handler_valid _ _ _ _ _ _ _ Hv).
    by rewrite (register_replay up' now' _ b _ _ Hg Hd (Htab Hput) Hp).
Qed.

End DcrFurther.

Lemma registered_members_are_forced_witness :
  let o := Dcr.handler URL_scheme Examples.poolId (Examples.allUp (js "client-1"))
             1700000000000 Examples.emptyWorld
             (Examples.post MoreExamples.bodyAskingSecret) in
  Dcr.statusCode (Dcr.response o) = 201%Z
  /\ Dcr.payload (Dcr.response o) !! js "token_endpoint_auth_method"
     = Some (JStr (js "none")).
Proof.
  intros o. split; [vm_compute; reflexivity|].
  destruct (registered_members_are_forced URL_scheme Examples.poolId
              (Examples.allUp (js "client-1")) 1700000000000 Examples.emptyWorld
              (Examples.post MoreExamples.bodyAskingSecret))
    as (b & uris & _ & _ & H & _); [vm_compute; reflexivity|exact H].
Defined.

Lemma registrations_collide_on_commas_witness :
  let o1 := Dcr.handler URL_scheme Examples.poolId (Examples.allUp (js "client-1"))
              1700000000000 Examples.emptyWorld (Examples.post MoreExamples.bodyTwo) in
  let o2 := Dcr.handler URL_scheme Examples.poolId (Examples.allUp (js "client-2"))
              1700000005000 (Dcr.world o1) (Examples.post MoreExamples.bodyJoined) in
  Dcr.statusCode (Dcr.response o2) = 201%Z
  /\ filter (fun c => Dcr.isCreate c = true) (Dcr.calls o2) = []
  /\ Dcr.world o2 = Dcr.world o1.
Proof.
  intros o1 o2.
  destruct (registrations_collide_on_commas URL_scheme Examples.poolId
              (Examples.allUp (js "client-1")) (Examples.allUp (js "client-2"))
              1700000000000 1700000005000 Examples.emptyWorld
              (Examples.post MoreExamples.bodyTwo) (Examples.post MoreExamples.bodyJoined)
              MoreExamples.bodyTwo MoreExamples.bodyJoined MoreExamples.twoCallbacks)
    as (c & _ & _ & H1 & H2 & H3).
  - repeat split; vm_compute; reflexivity.
  - repeat split; vm_compute; reflexivity.
  - reflexivity.
  - reflexivity.
  - vm_compute; reflexivity.
  - by eexists.
  - reflexivity.
  - reflexivity.
  - reflexivity.
  - by repeat split.
Defined.


Lemma failed_lookup_creates_anew_witness :
  let o := Dcr.handler URL_scheme Examples.poolId (MoreExamples.readDown (js "client-1"))
             1700000000000 MoreExamples.staleWorld (Examples.post Examples.bodyA) in
  Dcr.statusCode (Dcr.response o) = 201%Z
  /\ Dcr.client_id_of (Dcr.response o) = Some (JStr (js "client-1")).
Proof.
  intros o.
  destruct (failed_lookup_creates_anew URL_scheme Examples.poolId
              (MoreExamples.readDown (js "client-1")) 1700000000000
              MoreExamples.staleWorld (Examples.post Examples.bodyA) Examples.bodyA
              {| Dcr.clientId := js "client-0"; Dcr.createdAt := 1600000000000 |}
              (js "client-1"))
    as (H1 & H2 & _).
  - repeat split; vm_compute; reflexivity.
  - vm_compute; reflexivity.
  - by left.
  - reflexivity.
  - reflexivity.
  - split; [exact H1|]. unfold Dcr.client_id_of. subst o. rewrite H2.
    vm_compute. reflexivity.
Defined.

(** ** The metadata proxy *)

Lemma parseInt_nonneg (ds : jsstring) : (0 <= OpenIdConfig.parseInt ds)%Z.
Proof.
  unfold OpenIdConfig.parseInt.
  assert (H : forall acc, (0 <= acc)%Z ->
            (0 <= foldl (fun a c => a * 10 + Z.of_N (c - 48)) acc ds)%Z).
  { induction ds as [|c ds IH]; intros acc Hacc; [done|].
    cbn [foldl]. apply IH. lia. }
  by apply H.
Qed.

(** The lifetime given to a cached document is at least one second,
    whatever the [Cache-Control] header says. *)
Lemma maxAgeOrDefault_positive (cacheControl : option jsstring) :
  (0 < OpenIdConfig.maxAgeOrDefault cacheControl)%Z.
Proof.
  unfold OpenIdConfig.maxAgeOrDefault, OpenIdConfig.parseCacheControl.
  destruct (negb (truthy cacheControl)); [done|].
  destruct (OpenIdConfig.matchMaxAge _) as [ds|]; [|done]. cbn.
  pose proof (parseInt_nonneg ds).
  destruct (Z.eqb_spec (OpenIdConfig.parseInt ds) 0); lia.
Qed.

Section RefreshCases.
Import OpenIdConfig ProxyState.

Lemma refresh_cases (env : gmap string jsstring)
    (upstream : jsstring -> OpenIdConfig.FetchResult) (c : OpenIdConfig.Cache) :
  (delivers (upstream (cognitoConfigUrl env))
   /\ exists r value, upstream (cognitoConfigUrl env) = FetchResolves r
         /\ ok r = true /\ json r = Some value
         /\ exists expiry d stored,
              expiry = (receivedAt r
                        + maxAgeOrDefault (header_cache_control r) * 1000)%Z
              /\ d = enhance env (default ∅ value)
              /\ stored = {| cachedConfig := Some d; cacheExpiry := Some expiry |}
              /\ ((logCached value expiry = None
                   /\ refresh env upstream c
                      = (inr d, stored, [cognitoConfigUrl env]))
                  \/ (exists m, logCached value expiry = Some m
                        /\ refresh env upstream c
                           = (inl (failed m), stored, [cognitoConfigUrl env]))))
  \/ (~ delivers (upstream (cognitoConfigUrl env))
      /\ exists m, refresh env upstream c = (inl m, c, [cognitoConfigUrl env])).
Proof.
  unfold refresh, delivers.
  destruct (upstream (cognitoConfigUrl env)) as [m|r] eqn:Hu.
  - right. split; [by intros (r & d & ? & _)|by eexists].
  - destruct (ok r) eqn:Hok; simpl.
    + destruct (json r) as [value|] eqn:Hj.
      * left. split; [by exists r, value|]. exists r, value.
        do 3 (split; [done|]). eexists _, _, _. do 3 (split; [reflexivity|]).
        destruct (logCached value _) as [m|]; [right; by exists m|by left].
      * right. split; [|by eexists].
        intros (r' & d & [= <-] & _ & Hj'). congruence.
    + right. split; [|by eexists].
      intros (r' & d & [= <-] & Hok' & _). congruence.
Qed.

(** The log line does not throw for a value that is not null and an expiry
    within the time values. *)
Lemma logCached_None (value : option Doc) (expiry : Z) :
  logCached value expiry = None
  <-> is_Some value /\ validTimeValue expiry = true.
Proof.
  unfold logCached. destruct value as [d|].
  - destruct (validTimeValue expiry); split; try done.
    + by intros [_ ?].
  - split; [done|]. by intros [[? ?] _].
Qed.

End RefreshCases.

Section ProxyFurther.
Import OpenIdConfig ProxyState.

Variable env : gmap string jsstring.
Variable upstream : jsstring -> FetchResult.

(** An entry is only ever stored with an expiry that lies after the time
    it was received: whatever the handler is given, it leaves the cache as
    it was or stores the document just fetched with a later expiry. *)
Theorem stored_expiry_is_in_the_future now c :
  let '(_, c', _) := handler env upstream now c in
  c' = c
  \/ exists r d e,
       upstream (cognitoConfigUrl env) = FetchResolves r
       /\ cachedConfig c' = Some d /\ cacheExpiry c' = Some e
       /\ (receivedAt r + 1000 <= e)%Z.
Proof.
  unfold handler. destruct (missingVars env); [|by left].
  unfold getOpenIDConfiguration.
  assert (Hr : let '(_, c'', _) :=
                 match refresh env upstream c with
                 | (inr metadata, c', f) =>
                     ({| statusCode := 200; body := DocJson metadata |}, c', f)
                 | (inl _, c', f) => (unavailable, c', f)
                 end in
               c'' = c \/ exists r d e,
                 upstream (cognitoConfigUrl env) = FetchResolves r
                 /\ cachedConfig c'' = Some d /\ cacheExpiry c'' = Some e
                 /\ (receivedAt r + 1000 <= e)%Z).
  { destruct (refresh_cases env upstream c)
      as [(_ & r & value & Hu & _ & _ & e & d & st & -> & -> & -> & Hr)
         |(_ & m & ->)]; [|by left].
    assert (Hst : exists d' e',
              cachedConfig
                {| cachedConfig := Some (enhance env (default ∅ value));
                   cacheExpiry := Some (receivedAt r
                     + maxAgeOrDefault (header_cache_control r) * 1000)%Z |}
              = Some d'
              /\ cacheExpiry
                   {| cachedConfig := Some (enhance env (default ∅ value));
                      cacheExpiry := Some (receivedAt r
                        + maxAgeOrDefault (header_cache_control r) * 1000)%Z |}
                 = Some e'
              /\ (receivedAt r + 1000 <= e')%Z).
    { eexists _, _. split; [reflexivity|]. split; [reflexivity|].
      pose proof (maxAgeOrDefault_positive (header_cache_control r)). lia. }
    destruct Hst as (d' & e' & H1 & H2 & H3).
    destruct Hr as [[_ ->]|(m & _ & ->)]; right; by exists r, d', e'. }
  destruct (cachedConfig c) as [d|]; [|exact Hr].
  destruct (beforeExpiry now (cacheExpiry c)); [by left|exact Hr].
Qed.

Hypothesis configured :
  forall name, name ∈ requiredEnvVars -> truthy (env !! name) = true.

(** When there is nothing to serve and the upstream does not deliver a
    document (the fetch is rejected, the status is not a success, or the
    body is no JSON), the answer is the fixed 500, and the cache keeps what
    it had. *)
Theorem upstream_failure_fails_closed now c :
  stale now c -> ~ delivers (upstream (cognitoConfigUrl env)) ->
  handler env upstream now c = (unavailable, c, [cognitoConfigUrl env]).
Proof.
  intros Hs Hnd. rewrite (handler_configured env upstream now c configured).
  rewrite cache_miss.
  - destruct (refresh_cases env upstream c) as [(Hd & _)|(_ & m & ->)]; done.
  - destruct Hs as [Hs|Hs]; [by left|right]. unfold beforeExpiry. by apply Z.ltb_ge.
Qed.

Lemma refetch_after_expiry (upstream' : jsstring -> FetchResult) now1 c1 :
  stale now1 c1 ->
  (handler env upstream' now1 c1).2 = [cognitoConfigUrl env].
Proof.
  intros Hs. rewrite (handler_configured env upstream' now1 _ configured).
  rewrite cache_miss.
  - destruct (refresh_cases env upstream' c1)
      as [(_ & r & value & _ & _ & _ & e & d & st & _ & _ & _
            & [[_ ->]|(m & _ & ->)])
         |(_ & m & ->)]; done.
  - destruct Hs as [Hs|Hs]; [by left|right]. unfold beforeExpiry. by apply Z.ltb_ge.
Qed.

(** A refresh followed by later requests.  The clock is not negative and
    the expiry computed at the refresh is a time value a Date can hold.
    Then the refresh answers 200 with the upstream document, enhanced; until
    the expiry every request is answered with the stored document without
    a fetch, whatever the upstream would say by then; from the expiry on, a
    request fetches again. *)
Theorem refresh_then_serve now c r d :
  stale now c ->
  upstream (cognitoConfigUrl env) = FetchResolves r -> ok r = true ->
  json r = Some (Some d) ->
  let expiry := (receivedAt r + maxAgeOrDefault (header_cache_control r) * 1000)%Z in
  (0 <= receivedAt r)%Z -> (expiry <= 8640000000000000)%Z ->
  exists answer c1,
    handler env upstream now c = (answer, c1, [cognitoConfigUrl env])
    /\ answer = {| statusCode := 200; body := DocJson (enhance env d) |}
    /\ (forall upstream' now1, (now1 < expiry)%Z ->
          handler env upstream' now1 c1 = (answer, c1, []))
    /\ (forall upstream' now1, (expiry <= now1)%Z ->
          (handler env upstream' now1 c1).2 = [cognitoConfigUrl env]).
Proof.
  intros Hs Hu Hok Hj expiry Hrecv Hmax.
  assert (Hv : validTimeValue expiry = true).
  { unfold validTimeValue. apply andb_true_intro.
    pose proof (maxAgeOrDefault_positive (header_cache_control r)).
    split; [apply Z.leb_le; subst expiry; lia|by apply Z.leb_le]. }
  exists {| statusCode := 200; body := DocJson (enhance env d) |},
         {| cachedConfig := Some (enhance env d); cacheExpiry := Some expiry |}.
  split; [|split; [done|split]].
  - rewrite (handler_configured env upstream now c configured).
    rewrite cache_miss.
    + by rewrite (refresh_ok env upstream c r d Hu Hok Hj Hv).
    + destruct Hs as [Hs|Hs]; [by left|right]. unfold beforeExpiry. by apply Z.ltb_ge.
  - intros upstream' now1 Hlt.
    apply (proxy_serves_cache_without_fetch env upstream' configured); [done|].
    exact Hlt.
  - intros upstream' now1 Hge. apply refetch_after_expiry. by right.
Qed.

(** The entry is stored before the log line that follows, and that line
    throws when the upstream body is the JSON value null (it reads a member
    of it) or when the expiry is beyond the time values a Date can hold (it
    formats it): the request is then answered with the fixed 500 although
    the fetch succeeded, the document is in the cache all the same, and
    every request while the clock is before the expiry is answered 200 with
    it, without a fetch. *)
Theorem failed_log_line_leaves_the_document_cached now c r value :
  stale now c ->
  upstream (cognitoConfigUrl env) = FetchResolves r -> ok r = true ->
  json r = Some value ->
  let expiry := (receivedAt r + maxAgeOrDefault (header_cache_control r) * 1000)%Z in
  (0 <= receivedAt r)%Z ->
  value = None \/ (8640000000000000 < expiry)%Z ->
  let d := enhance env (default ∅ value) in
  exists c1,
    handler env upstream now c = (unavailable, c1, [cognitoConfigUrl env])
    /\ cachedConfig c1 = Some d
    /\ advertises env d
    /\ (forall upstream' now1,
          (now1 < expiry)%Z -> (now1 <= 8640000000000000)%Z ->
          handler env upstream' now1 c1
          = ({| statusCode := 200; body := DocJson d |}, c1, [])).
Proof.
  intros Hs Hu Hok Hj expiry Hrecv Hcase d.
  assert (Hlog : exists m, logCached value expiry = Some m).
  { unfold logCached. destruct Hcase as [->|Hlt]; [by eexists|].
    destruct value; [|by eexists].
    assert (validTimeValue expiry = false) as ->; [|by eexists].
    unfold validTimeValue. apply andb_false_intro2. apply Z.leb_gt. lia. }
  destruct Hlog as [m Hm].
  exists {| cachedConfig := Some d; cacheExpiry := Some expiry |}.
  split; [|split; [done|split]].
  - rewrite (handler_configured env upstream now c configured).
    rewrite cache_miss.
    + unfold refresh. rewrite Hu, Hok, Hj. cbn [negb]. fold expiry. by rewrite Hm.
    + destruct Hs as [Hs|Hs]; [by left|right]. unfold beforeExpiry. by apply Z.ltb_ge.
  - assert (Hin : "REGISTRATION_ENDPOINT_URL"%string ∈ requiredEnvVars)
      by (unfold requiredEnvVars; rewrite !elem_of_cons; auto).
    pose proof (configured _ Hin) as Hreg.
    destruct (env !! "REGISTRATION_ENDPOINT_URL"%string) as [u|] eqn:Hu'; [|done].
    destruct (enhance_spec env (default ∅ value) u Hu') as (H1 & H2 & _).
    split; [by exists u|done].
  - intros upstream' now1 Hlt _.
    apply (proxy_serves_cache_without_fetch env upstream' configured); [done|].
    exact Hlt.
Qed.

(** Every document served advertises the configured registration endpoint
    and S256, and so does every document kept in the cache, provided the
    cache started that way. *)
Theorem served_documents_advertise_registration now c :
  cacheAdvertises env c ->
  let '(answer, c', _) := handler env upstream now c in
  (forall d, body answer = DocJson d -> advertises env d)
  /\ cacheAdvertises env c'.
Proof.
  intros Hc. rewrite (handler_configured env upstream now c configured).
  assert (Hreg : exists u, env !! "REGISTRATION_ENDPOINT_URL"%string = Some u).
  { assert (Hin : "REGISTRATION_ENDPOINT_URL"%string ∈ requiredEnvVars)
      by (unfold requiredEnvVars; rewrite !elem_of_cons; auto).
    specialize (configured _ Hin).
    destruct (env !! "REGISTRATION_ENDPOINT_URL"%string) as [u|]; [by exists u|done]. }
  destruct Hreg as [u Hu].
  assert (Hadv : forall d, advertises env (enhance env d)).
  { intros d. destruct (enhance_spec env d u Hu) as (H1 & H2 & _).
    split; [by exists u|done]. }
  unfold getOpenIDConfiguration.
  assert (Hr : let '(answer, c'', _) :=
                 match refresh env upstream c with
                 | (inr metadata, c', f) =>
                     ({| statusCode := 200; body := DocJson metadata |}, c', f)
                 | (inl _, c', f) => (unavailable, c', f)
                 end in
               (forall d, body answer = DocJson d -> advertises env d)
               /\ cacheAdvertises env c'').
  { destruct (refresh_cases env upstream c)
      as [(_ & r & value & _ & _ & _ & e & d & st & _ & -> & ->
            & [[_ ->]|(m & _ & ->)])
         |(_ & m & ->)].
    - split; [by intros d' [= <-]|]. by intros d' [= <-].
    - split; [done|]. by intros d' [= <-].
    - split; [done|exact Hc]. }
  destruct (cachedConfig c) as [d|] eqn:Hd; [|exact Hr].
  destruct (beforeExpiry now (cacheExpiry c)); [|exact Hr].
  split; [|exact Hc]. intros d' [= <-]. by apply Hc.
Qed.

End ProxyFurther.

Lemma proxyEnv_configured :
  forall name, name ∈ OpenIdConfig.requiredEnvVars ->
               truthy (Examples.proxyEnv !! name) = true.
Proof.
  intros name Hin. unfold OpenIdConfig.requiredEnvVars in Hin.
  rewrite !elem_of_cons, elem_of_nil in Hin.
  destruct Hin as [-> | [-> | [-> | []]]]; vm_compute; reflexivity.
Defined.

Lemma upstream_failure_fails_closed_witness :
  OpenIdConfig.handler Examples.proxyEnv Examples.upstreamDown 1700000000000
    OpenIdConfig.emptyCache
  = (OpenIdConfig.unavailable, OpenIdConfig.emptyCache,
     [OpenIdConfig.cognitoConfigUrl Examples.proxyEnv]).
Proof.
  apply (upstream_failure_fails_closed Examples.proxyEnv Examples.upstreamDown
           proxyEnv_configured).
  - by left.
  - intros (r & d & E & Hok & _). injection E as <-. discriminate Hok.
Defined.

Lemma refresh_then_serve_witness :
  exists answer c1,
    OpenIdConfig.handler Examples.proxyEnv
      (Examples.upstreamOk (Some (js "public, max-age=300")) 1700000000000)
      1700000000000 OpenIdConfig.emptyCache
    = (answer, c1, [OpenIdConfig.cognitoConfigUrl Examples.proxyEnv])
    /\ OpenIdConfig.handler Examples.proxyEnv Examples.upstreamDown 1700000299999 c1
       = (answer, c1, []).
Proof.
  destruct (refresh_then_serve Examples.proxyEnv
              (Examples.upstreamOk (Some (js "public, max-age=300")) 1700000000000)
              proxyEnv_configured 1700000000000 OpenIdConfig.emptyCache _
              Examples.cognitoDocument (or_introl eq_refl) eq_refl eq_refl eq_refl)
    as (answer & c1 & H1 & _ & H2 & _).
  - vm_compute. discriminate.
  - vm_compute. discriminate.
  - exists answer, c1. split; [exact H1|]. apply H2. vm_compute. reflexivity.
Defined.

Lemma failed_log_line_leaves_the_document_cached_witness :
  exists c1,
    OpenIdConfig.handler Examples.proxyEnv
      (Examples.upstreamOk (Some (js "max-age=9000000000000")) 1700000000000)
      1700000000000 OpenIdConfig.emptyCache
    = (OpenIdConfig.unavailable, c1,
       [OpenIdConfig.cognitoConfigUrl Examples.proxyEnv])
    /\ OpenIdConfig.statusCode
         (OpenIdConfig.handler Examples.proxyEnv Examples.upstreamDown
            1700000001000 c1).1.1 = 200%Z.
Proof.
  destruct (failed_log_line_leaves_the_document_cached Examples.proxyEnv
              (Examples.upstreamOk (Some (js "max-age=9000000000000")) 1700000000000)
              proxyEnv_configured 1700000000000 OpenIdConfig.emptyCache _
              (Some Examples.cognitoDocument) (or_introl eq_refl) eq_refl eq_refl
              eq_refl)
    as (c1 & H1 & _ & _ & H2).
  - vm_compute. discriminate.
  - right. vm_compute. reflexivity.
  - exists c1. split; [exact H1|].
    rewrite (H2 Examples.upstreamDown 1700000001000%Z); [reflexivity| |];
      vm_compute; [reflexivity|discriminate].
Defined.

Lemma served_documents_advertise_registration_witness :
  let '(answer, c', _) :=
    OpenIdConfig.handler Examples.proxyEnv
      (Examples.upstreamOk None 1700000000000) 1700000000000 OpenIdConfig.emptyCache in
  ProxyState.cacheAdvertises Examples.proxyEnv c'.
Proof.
  pose proof (served_documents_advertise_registration Examples.proxyEnv
                (Examples.upstreamOk None 1700000000000) proxyEnv_configured
                1700000000000 OpenIdConfig.emptyCache) as H.
  destruct (OpenIdConfig.handler _ _ _ _) as [[answer c'] f].
  apply H. intros d Hd. discriminate Hd.
Defined.

(** ** The metadata publisher *)

Lemma trimStart_nil_iff (s : jsstring) :
  trimStart s = [] <-> Forall (fun c => isWhiteSpace c = true) s.
Proof.
  induction s as [|c s IH]; [by split|]. cbn [trimStart].
  destruct (isWhiteSpace c) eqn:Hc.
  - rewrite IH. split; [by constructor|by inversion 1].
  - split; [done|]. inversion 1; congruence.
Qed.

Lemma trimStart_blank_iff (s : jsstring) :
  Forall (fun c => isWhiteSpace c = true) (trimStart s)
  <-> Forall (fun c => isWhiteSpace c = true) s.
Proof.
  induction s as [|c s IH]; [done|]. cbn [trimStart].
  destruct (isWhiteSpace c) eqn:Hc; [|done].
  rewrite IH. split; [by constructor|by inversion 1].
Qed.

Lemma trim_nil_iff (s : jsstring) :
  trim s = [] <-> Forall (fun c => isWhiteSpace c = true) s.
Proof.
  unfold trim. rewrite <- trimStart_blank_iff.
  rewrite <- (Forall_reverse _ (trimStart s)), <- trimStart_nil_iff.
  split; [|by intros ->].
  intros H. apply (f_equal reverse) in H. by rewrite reverse_involutive in H.
Qed.

Lemma isEmpty_blank (s : jsstring) :
  Forall (fun c => isWhiteSpace c = true) s -> OAuthMetadata.isEmpty (Some s) = true.
Proof.
  intros H. unfold OAuthMetadata.isEmpty.
  rewrite orb_true_iff, bool_decide_eq_true, trim_nil_iff. by right.
Qed.

(** A setting counts as missing exactly when it is undefined or all its
    code units are white space (the empty string included). *)
Theorem isEmpty_iff_blank (value : option jsstring) :
  OAuthMetadata.isEmpty value = true
  <-> value = None
      \/ exists s, value = Some s /\ Forall (fun c => isWhiteSpace c = true) s.
Proof.
  unfold OAuthMetadata.isEmpty. destruct value as [s|]; [|by split; [left|]].
  rewrite orb_true_iff, bool_decide_eq_true, trim_nil_iff. split.
  - intros [H|H]; right; exists s; (split; [done|]); [|done].
    destruct s; [constructor|discriminate H].
  - intros [H|(s' & [= <-] & H)]; [done|by right].
Qed.

Section PublisherFurther.
Import EnvConfig OAuthMetadata.

Variable URL_protocol : jsstring -> option jsstring.

Local Abbreviation httpOrHttps := (OAuthMetadata.httpOrHttps URL_protocol).

Lemma generateMetadata_shape (cfg : Config) :
  isEmpty (get cfg "RESOURCE_SERVER_URL" None) = false ->
  exists u, get cfg "RESOURCE_SERVER_URL" None = Some u
            /\ resource (generateMetadata cfg) = u ++ js "/mcp"
            /\ length (authorization_servers (generateMetadata cfg)) = 1%nat.
Proof.
  intros H. destruct (isEmpty_false _ H) as (u & Hu & _ & Hs & _).
  exists u. split; [done|]. unfold generateMetadata. cbn. rewrite Hs.
  split; [done|]. by destruct (_ && _).
Qed.

(** The configuration is valid exactly when the three settings are not
    blank and the resource URL parses with the protocol http or https; the
    endpoint answers 200 in that case and 503 otherwise, and a 200 carries
    a document whose [resource] is the configured URL followed by "/mcp"
    and which names one authorization server. *)
Theorem metadata_served_iff_valid (cfg : Config) :
  let r := handleMetadataRequest URL_protocol cfg in
  let url := get cfg "RESOURCE_SERVER_URL" None in
  let pool := get cfg "COGNITO_USER_POOL_ID" None in
  let region := get cfg "AWS_REGION" None in
  (isValid (validateConfiguration URL_protocol cfg) = true
   <-> isEmpty url = false /\ isEmpty pool = false /\ isEmpty region = false
       /\ httpOrHttps url)
  /\ (status r = 200%Z \/ status r = 503%Z)
  /\ (status r = 200%Z <-> isValid (validateConfiguration URL_protocol cfg) = true)
  /\ (status r = 200%Z ->
      exists m u, json r = MetadataJson m /\ url = Some u
                  /\ resource m = u ++ js "/mcp"
                  /\ length (authorization_servers m) = 1%nat).
Proof.
  intros r url pool region.
  assert (Hiff : isValid (validateConfiguration URL_protocol cfg) = true
                 <-> isEmpty url = false /\ isEmpty pool = false
                     /\ isEmpty region = false /\ httpOrHttps url).
  { split; [apply valid_inv|].
    intros (H1 & H2 & H3 & H4). apply validation_isValid.
    rewrite validation_errors. fold url pool region. rewrite H1, H2, H3. cbn.
    by apply (formatErrors_spec URL_protocol url). }
  split; [exact Hiff|]. subst r. unfold handleMetadataRequest.
  destruct (isValid (validateConfiguration URL_protocol cfg)) eqn:Hv; cbn.
  - split; [by left|]. split; [done|]. intros _.
    destruct (generateMetadata_shape cfg) as (u & Hu & Hres & Hlen).
    { by apply Hiff. }
    by exists (generateMetadata cfg), u.
  - split; [by right|]. by split.
Qed.

(** The process environment hides the [.env] file even with a blank
    value: when one of the three settings is set there to white space only,
    the endpoint answers 503 whatever the file holds. *)
Theorem blank_process_variable_hides_env_file (cfg : Config) (name : string)
    (s : jsstring) :
  name ∈ ["RESOURCE_SERVER_URL"; "COGNITO_USER_POOL_ID"; "AWS_REGION"]%string ->
  processEnv cfg !! name = Some s ->
  Forall (fun c => isWhiteSpace c = true) s ->
  get cfg name None = Some s
  /\ handleMetadataRequest URL_protocol cfg
     = {| status := 503;
          json := ErrorJson (js "service_unavailable")
            (js "OAuth metadata temporarily unavailable due to configuration error") |}.
Proof.
  intros Hin Hp Hblank.
  assert (Hget : get cfg name None = Some s) by (unfold get; by rewrite Hp).
  split; [done|]. apply invalid_503.
  destruct (isValid (validateConfiguration URL_protocol cfg)) eqn:Hv; [|done].
  destruct (valid_inv URL_protocol cfg Hv) as (H1 & H2 & H3 & _).
  assert (He : isEmpty (get cfg name None) = true).
  { rewrite Hget. by apply isEmpty_blank. }
  rewrite !elem_of_cons, elem_of_nil in Hin.
  destruct Hin as [-> | [-> | [-> | []]]]; congruence.
Qed.

End PublisherFurther.

Lemma blank_process_variable_hides_env_file_witness :
  OAuthMetadata.status
    (OAuthMetadata.handleMetadataRequest URL_scheme MoreExamples.cfgBlankInProcess)
  = 503%Z.
Proof.
  destruct (blank_process_variable_hides_env_file URL_scheme
              MoreExamples.cfgBlankInProcess "RESOURCE_SERVER_URL" (js "   "))
    as [_ H].
  - apply list_elem_of_here.
  - vm_compute. reflexivity.
  - repeat constructor.
  - by rewrite H.
Defined.

(** ** The token verifier *)

Section VerifierFurther.
Import EnvConfig JwtVerifier.

Variable cfg : Config.
Variable jwks : SigningKeySet.

(** A token that passes the verification but has no scope claim is not
    accepted: reading its scope fails inside the same try block, and the
    answer is the server error. *)
Theorem token_without_scope_is_a_server_error clock (t : Token) :
  verifyToken cfg jwks clock t = inr (claims t) ->
  scope (claims t) = None ->
  processJwt cfg jwks clock t
  = inl (ServerError (js "Authentication failed: Token verification error.")).
Proof.
  intros Hv Hs. unfold processJwt, buildAuthInfo. rewrite Hv, Hs.
  vm_compute. reflexivity.
Qed.

Lemma split_space_aux_nonempty (s cur : jsstring) : split_space_aux cur s <> [].
Proof.
  revert cur. induction s as [|c s IH]; intros cur; cbn [split_space_aux]; [done|].
  destruct (c =? 32); [done|apply IH].
Qed.

(** The AuthInfo of an accepted token.  The scopes are the words of the
    scope claim, at least one; the token text, the client id and the expiry
    are those of the token.  The user id is the [sub] claim, or "anonymous"
    when that is missing or empty.  The tenant is the [custom:tenantId] claim
    when that is not empty, else the [tenantId] claim when the token has
    one, else the empty string.  The tier is the [custom:tenantTier] claim
    when that is not empty, else the [tenantTier] claim when that is not
    empty, else "basic". *)
Theorem authInfo_of_accepted_token clock (t : Token) authInfo :
  processJwt cfg jwks clock t = inr authInfo ->
  let c := claims t in
  let e := extra authInfo in
  (exists sc, scope c = Some sc /\ scopes authInfo = split_space sc)
  /\ scopes authInfo <> []
  /\ token authInfo = text t
  /\ auth_client_id authInfo = client_id c
  /\ expiresAt authInfo = exp c
  /\ (forall x, sub c = Some x -> x <> [] -> userId e = x)
  /\ (truthy (sub c) = false -> userId e = js "anonymous")
  /\ (forall x, custom_tenantId c = Some x -> x <> [] -> extra_tenantId e = x)
  /\ (truthy (custom_tenantId c) = false ->
      forall y, tenantId c = Some y -> extra_tenantId e = y)
  /\ (truthy (custom_tenantId c) = false -> tenantId c = None ->
      extra_tenantId e = [])
  /\ (forall x, custom_tenantTier c = Some x -> x <> [] -> extra_tenantTier e = x)
  /\ (truthy (custom_tenantTier c) = false ->
      forall y, tenantTier c = Some y -> y <> [] -> extra_tenantTier e = y)
  /\ (truthy (custom_tenantTier c) = false -> truthy (tenantTier c) = false ->
      extra_tenantTier e = js "basic").
Proof.
  intros Ha c e. subst c e.
  destruct (processJwt_tenant cfg jwks clock t authInfo Ha) as [Hv HT].
  unfold processJwt in Ha. rewrite Hv in Ha. unfold buildAuthInfo in Ha.
  destruct (scope (claims t)) as [sc|]; [|done].
  injection Ha as <-. cbn [scopes token auth_client_id expiresAt extra userId
                           extra_tenantId extra_tenantTier].
  split; [by exists sc|].
  split; [apply split_space_aux_nonempty|].
  do 3 (split; [done|]).
  unfold orElse.
  split; [intros x -> Hx; by destruct x|].
  split; [intros ->; done|].
  split; [intros x -> Hx; by destruct x|].
  split; [intros -> y ->; by destruct y|].
  split; [intros -> ->; done|].
  split; [intros x -> Hx; by destruct x|].
  split; [intros -> y -> Hy; by destruct y|].
  intros -> ->. done.
Qed.

End VerifierFurther.

(** A token whose header has no key id is verified with the published key
    when the issuer publishes one only. *)
Example token_without_key_id :
  let t := Examples.signedToken 1700003600 in
  let anonymous :=
    {| JwtVerifier.text := JwtVerifier.text t;
       JwtVerifier.decoding := JwtVerifier.Decodes;
       JwtVerifier.alg := JwtVerifier.alg t;
       JwtVerifier.kid := None;
       JwtVerifier.verifiesWith := JwtVerifier.verifiesWith t;
       JwtVerifier.claims := JwtVerifier.claims t |} in
  JwtVerifier.verifyToken Examples.verifierCfg Examples.publishedKeys 1700000000
    anonymous
  = inr (JwtVerifier.claims t).
Proof. vm_compute. reflexivity. Qed.

Lemma token_without_scope_is_a_server_error_witness :
  JwtVerifier.processJwt Examples.verifierCfg Examples.publishedKeys 1700000000
    MoreExamples.noScopeToken
  = inl (JwtVerifier.ServerError (js "Authentication failed: Token verification error.")).
Proof.
  apply (token_without_scope_is_a_server_error Examples.verifierCfg
           Examples.publishedKeys 1700000000 MoreExamples.noScopeToken).
  - vm_compute. reflexivity.
  - reflexivity.
Defined.

Lemma authInfo_of_accepted_token_witness :
  exists authInfo,
    JwtVerifier.processJwt Examples.verifierCfg Examples.publishedKeys 1700000000
      (Examples.signedToken 1700003600) = inr authInfo
    /\ JwtVerifier.extra_tenantId (JwtVerifier.extra authInfo) = js "acme"
    /\ JwtVerifier.extra_tenantTier (JwtVerifier.extra authInfo) = js "basic".
Proof.
  eexists. split; [vm_compute; reflexivity|].
  match goal with
  | |- context [JwtVerifier.extra ?a] =>
      destruct (authInfo_of_accepted_token Examples.verifierCfg Examples.publishedKeys
                  1700000000 (Examples.signedToken 1700003600) a)
        as (_ & _ & _ & _ & _ & _ & _ & H1 & _ & _ & _ & _ & H2);
        [vm_compute; reflexivity|]
  end.
  split.
  - apply (H1 (js "acme")); [reflexivity|]. vm_compute. discriminate.
  - apply H2; reflexivity.
Defined.

(* ===================================================================== *)
(** ** The calls a tenant's request sends *)
(* ===================================================================== *)

Section TenantFurther.
Import JwtVerifier Tenant TenantSpec.

Variable aws : Aws.
Variable ROLE_ARN : option jsstring.

Local Abbreviation commandFor := (Tenant.commandFor ROLE_ARN).
Local Abbreviation confined := (TenantSpec.confined aws ROLE_ARN).
Local Abbreviation Shape := (TenantSpec.Shape aws ROLE_ARN).

(** The calls of a derivation followed by [k]: the role assumption, and
    the calls of [k] when STS issued credentials. *)
Lemma after_assume_trace {A} T (k : Credentials -> M A) :
  trace (bind (assumeTenantRole aws ROLE_ARN T) k)
  = AssumeRole (commandFor T) ::
      match sts aws (commandFor T) with
      | StsResolves (Some c) => trace (k c)
      | _ => []
      end.
Proof.
  unfold assumeTenantRole. fold (Tenant.commandFor ROLE_ARN T).
  destruct (sts aws (commandFor T)) as [m|[c|]]; try reflexivity.
  unfold bind, send, trace. by destruct (k c).
Qed.

Lemma after_assume_shape {A} T (k : Credentials -> M A) (d : Credentials -> AwsCall) :
  (forall c, trace (k c) = [d c]) ->
  (forall c, isAssumeRole (d c) = false) ->
  (forall c, sts aws (commandFor T) = StsResolves (Some c) -> confined T (d c)) ->
  Shape T (trace (bind (assumeTenantRole aws ROLE_ARN T) k)).
Proof.
  intros Hk Hd Hc. rewrite after_assume_trace.
  destruct (sts aws (commandFor T)) as [m|[c|]] eqn:Hsts.
  - apply Refused. intros c. rewrite Hsts. discriminate.
  - rewrite Hk. by apply (Served _ _ T c); [|apply Hd|apply Hc].
  - apply Refused. intros c. rewrite Hsts. discriminate.
Qed.

Lemma getS3File_shape filename T :
  Shape T (trace (getS3File aws ROLE_ARN filename T)).
Proof.
  unfold getS3File, getS3Client. rewrite trace_rethrow.
  apply (after_assume_shape T _ (fun c => S3GetObject c (T ++ js "/" ++ filename))).
  - intros c. by destruct (s3_get aws c _).
  - done.
  - intros c Hc. split; [done|by exists filename].
Qed.

Lemma listTenantResources_shape T :
  Shape T (trace (listTenantResources aws ROLE_ARN T)).
Proof.
  unfold listTenantResources, getS3Client. rewrite trace_rethrow.
  apply (after_assume_shape T _ (fun c => S3ListObjectsV2 c (T ++ js "/"))).
  - intros c. by destruct (s3_list aws c _).
  - done.
  - intros c Hc. by split.
Qed.

Lemma queryBookings_shape T sk :
  Shape T (trace (queryBookings aws ROLE_ARN T sk)).
Proof.
  unfold queryBookings, getDynamoDbClient.
  apply (after_assume_shape T _ (fun c => DynamoQuery c T sk)).
  - intros c. by destruct (dynamo_query aws c _ _).
  - done.
  - intros c Hc. by split.
Qed.

Lemma createBooking_shape kind T bookingId :
  Shape T (trace (createBooking aws ROLE_ARN kind T bookingId)).
Proof.
  unfold createBooking, getDynamoDbClient.
  apply (after_assume_shape T _
           (fun c => DynamoPut c T (js "BOOKING#" ++ kind ++ js "#" ++ bookingId))).
  - intros c. by destruct (dynamo_put aws c _ _).
  - done.
  - intros c Hc. by split.
Qed.

Lemma serve_shape (authInfo : AuthInfo) (r : Request) :
  Shape (extra_tenantId (extra authInfo)) (serve aws ROLE_ARN authInfo r).
Proof.
  destruct r as [t f| |type id|sc b|sc b|]; cbn [serve].
  - unfold readTenantFile. destruct (negb _); [apply NoCall|].
    apply getS3File_shape.
  - apply listTenantResources_shape.
  - unfold listBookings, getBookingById, getBookingsByTenant,
      getBookingsByTenantAndType.
    destruct id; [apply queryBookings_shape|].
    destruct type; [|apply queryBookings_shape].
    destruct (bool_decide _); apply queryBookings_shape.
  - unfold bookFlight. destruct (_ =? _)%Z;
      [apply createBooking_shape | apply NoCall].
  - unfold bookHotel. destruct (_ =? _)%Z;
      [apply createBooking_shape | apply NoCall].
  - apply NoCall.
Qed.

(** Whatever the request and its parameters, every call sent while serving
    it stays with the tenant of the AuthInfo: S3 keys lie under the tenant's
    prefix, DynamoDB items under its partition key, and the credentials of a
    data call are those STS issued for the tenant's role assumption. *)
Theorem every_call_stays_with_the_tenant (authInfo : AuthInfo) (r : Request) :
  Forall (confined (extra_tenantId (extra authInfo)))
    (serve aws ROLE_ARN authInfo r).
Proof.
  destruct (serve_shape authInfo r) as [|Hno|c d Hsts Hd Hc].
  - constructor.
  - by repeat constructor.
  - by repeat constructor.
Qed.

(** A request sends at most one role assumption, first, and at most one
    data call after it; the data call is sent only when STS issued
    credentials. *)
Theorem one_derivation_then_one_data_call (authInfo : AuthInfo) (r : Request) :
  let T := extra_tenantId (extra authInfo) in
  let calls := serve aws ROLE_ARN authInfo r in
  calls = []
  \/ calls = [AssumeRole (commandFor T)]
  \/ exists c d, sts aws (commandFor T) = StsResolves (Some c)
       /\ isAssumeRole d = false
       /\ calls = [AssumeRole (commandFor T); d].
Proof.
  intros T calls. subst calls.
  destruct (serve_shape authInfo r) as [|Hno|c d Hsts Hd Hc]; eauto 10.
Qed.

Lemma startsWith_drop (p s : jsstring) :
  startsWith p s = true -> p ++ drop (length p) s = s.
Proof.
  revert s. induction p as [|a p IH]; intros [|b s]; cbn [startsWith]; try done.
  destruct (a =? b) eqn:Hab; [|done].
  apply N.eqb_eq in Hab as ->. intros H. cbn. by rewrite IH.
Qed.

(** Listing then reading: when S3 answers the listing with keys under the
    tenant's prefix, every file name listed is non-empty, and reading it asks
    S3 for exactly the key it was listed from. *)
Theorem listed_files_read_back (T : jsstring) (c : Credentials)
    (keys : list jsstring) :
  sts aws (commandFor T) = StsResolves (Some c) ->
  s3_list aws c (T ++ js "/") = Some keys ->
  (forall k, k ∈ keys -> startsWith (T ++ js "/") k = true) ->
  exists files,
    result (listTenantResources aws ROLE_ARN T) = inr files
    /\ forall f, f ∈ files ->
         f <> []
         /\ T ++ js "/" ++ f ∈ keys
         /\ trace (getS3File aws ROLE_ARN f T)
            = [AssumeRole (commandFor T); S3GetObject c (T ++ js "/" ++ f)].
Proof.
  intros Hsts Hlist Hkeys.
  unfold listTenantResources, getS3Client, assumeTenantRole.
  fold (Tenant.commandFor ROLE_ARN T). rewrite Hsts.
  cbn [bind send]. rewrite Hlist. cbn [rethrow result snd app].
  eexists. split; [reflexivity|].
  intros f Hf. apply list_elem_of_fmap in Hf as (k & -> & Hk).
  apply list_elem_of_filter in Hk as [[Hne _] Hk].
  pose proof (startsWith_drop _ _ (Hkeys k Hk)) as Hdrop.
  assert (Hlen : length (T ++ js "/") = (length T + 1)%nat).
  { rewrite length_app. reflexivity. }
  rewrite Hlen in Hdrop.
  repeat split.
  - intros Hnil. rewrite Hnil, app_nil_r in Hdrop. by apply Hne.
  - by rewrite app_assoc, Hdrop.
  - unfold getS3File, getS3Client. rewrite trace_rethrow, after_assume_trace, Hsts.
    by destruct (s3_get aws c _).
Qed.

End TenantFurther.

Lemma listed_files_read_back_witness :
  exists files,
    Tenant.result (Tenant.listTenantResources MoreExamples.awsListing None (js "acme"))
      = inr files
    /\ forall f, f ∈ files ->
         f <> []
         /\ js "acme" ++ js "/" ++ f
              ∈ [js "acme/"; js "acme/policy.md"; js "acme/rates.json"]
         /\ Tenant.trace (Tenant.getS3File MoreExamples.awsListing None f (js "acme"))
            = [Tenant.AssumeRole (Tenant.commandFor None (js "acme"));
               Tenant.S3GetObject Examples.someCredentials (js "acme" ++ js "/" ++ f)].
Proof.
  apply (listed_files_read_back MoreExamples.awsListing None (js "acme")
           Examples.someCredentials
           [js "acme/"; js "acme/policy.md"; js "acme/rates.json"]).
  - reflexivity.
  - reflexivity.
  - intros k Hk. repeat (apply elem_of_cons in Hk as [->|Hk]; [vm_compute; reflexivity|]).
    by apply elem_of_nil in Hk.
Defined.
